(** * MCP tool server: policy gate, idempotent replay and human-in-the-loop
      confirmation

    A shallow embedding of the server side of the repository
    ([server/app/policy.py], [idempotency.py], [models.py], [audit.py] and
    the request handlers of [main.py]) together with the properties the
    specification states about the confirmation / idempotency core.
    Further on come the API-key check with its rate limiter, the client
    ([client/agent.py], [client/scenarios.py]) run against this server, and
    the properties of these.

    Conventions of the embedding
    - Python [str] is [string] (a byte string; the text helpers below act
      on the ASCII range), Python [int] is [Z], [None] is [JNull].
    - Python dictionaries, lists and the JSON documents built from them are
      values of [json]; a dictionary keeps its insertion order.
    - every SQL table is the list of its rows in insertion order; the
      constraints declared in [models.py] are checked when a row is
      inserted and a violation raises [IntegrityError].
    - a handler is a computation in the monad [M]: it reads and updates
      the [world] (the committed database, the audit file, the number of
      clock readings) and either returns a value or raises. *)

From Stdlib Require Import ZArith List String Ascii Bool Lia.
From Stdlib Require Import Decimal DecimalFacts DecimalPos DecimalN DecimalZ
  DecimalString.
Import ListNotations.

Set Warnings "-register-all".

Local Open Scope string_scope.
Local Open Scope Z_scope.

(** ** Python text helpers *)

Module Py.

(** [str.isspace] on the ASCII range: TAB, LF, VT, FF, CR, FS, GS, RS, US
    and the space. *)
Definition isspace (c : ascii) : bool :=
  let n := N_of_ascii c in
  ((9 <=? n) && (n <=? 13) || (28 <=? n) && (n <=? 32))%N.

Fixpoint lstrip (s : string) : string :=
  match s with
  | EmptyString => EmptyString
  | String c r => if isspace c then lstrip r else s
  end.

Fixpoint rstrip (s : string) : string :=
  match s with
  | EmptyString => EmptyString
  | String c r =>
      match rstrip r with
      | EmptyString => if isspace c then EmptyString else String c EmptyString
      | r' => String c r'
      end
  end.

(** [s.strip()] *)
Definition strip (s : string) : string := rstrip (lstrip s).

Definition lower_char (c : ascii) : ascii :=
  let n := N_of_ascii c in
  if ((65 <=? n) && (n <=? 90))%N then ascii_of_N (n + 32) else c.

(** [s.lower()] *)
Fixpoint lower (s : string) : string :=
  match s with
  | EmptyString => EmptyString
  | String c r => String (lower_char c) (lower r)
  end.

(** [s.split(sep)] for a one-character separator. *)
Fixpoint split (sep : ascii) (s : string) : list string :=
  match s with
  | EmptyString => [EmptyString]
  | String c r =>
      if Ascii.eqb c sep then EmptyString :: split sep r
      else match split sep r with
           | h :: t => String c h :: t
           | [] => [String c EmptyString]
           end
  end.

(** [q in s] on strings *)
Fixpoint contains (q s : string) : bool :=
  String.prefix q s ||
  match s with
  | EmptyString => false
  | String _ r => contains q r
  end.

(** truth value of a string: [bool(s)] *)
Definition truthy (s : string) : bool := negb (String.eqb s EmptyString).

(** [x in xs] for a set of strings *)
Definition mem (x : string) (xs : list string) : bool :=
  existsb (String.eqb x) xs.

(** [str(n)] for an integer *)
Definition str_of_int (z : Z) : string := NilEmpty.string_of_int (Z.to_int z).

(** decimal digits of [n], left-padded with zeros to [width] (["%0wd"]) *)
Fixpoint zeros (k : nat) : string :=
  match k with O => EmptyString | S k' => String "0" (zeros k') end.

Definition zfill (width : nat) (n : N) : string :=
  let s := NilEmpty.string_of_uint (N.to_uint n) in
  zeros (width - String.length s) ++ s.

End Py.

(** ** JSON values and Python dictionaries *)

Inductive json : Type :=
| JNull
| JBool (b : bool)
| JInt (z : Z)
| JStr (s : string)
| JArr (l : list json)
| JObj (l : list (string * json)).

Definition is_None (v : json) : bool :=
  match v with JNull => true | _ => false end.

(** [d.get(k)] / the lookup behind [d[k]] *)
Fixpoint dict_get (d : list (string * json)) (k : string) : option json :=
  match d with
  | [] => None
  | (k', v) :: r => if String.eqb k' k then Some v else dict_get r k
  end.

(** [d[k] = v]: an existing key keeps its position, a new key goes last. *)
Fixpoint dict_set (d : list (string * json)) (k : string) (v : json)
  : list (string * json) :=
  match d with
  | [] => [(k, v)]
  | (k', v') :: r =>
      if String.eqb k' k then (k', v) :: r else (k', v') :: dict_set r k v
  end.

(** [{**d, **e}] *)
Definition dict_update (d e : list (string * json)) : list (string * json) :=
  fold_left (fun acc kv => dict_set acc (fst kv) (snd kv)) e d.

(** [del d[k]] where present; used to compare two dictionaries apart from
    one key. *)
Fixpoint dict_remove (d : list (string * json)) (k : string)
  : list (string * json) :=
  match d with
  | [] => []
  | (k', v) :: r =>
      if String.eqb k' k then dict_remove r k else (k', v) :: dict_remove r k
  end.

Definition dict_keys (d : list (string * json)) : list string := map fst d.

(** ** The [json] module of the Python library

    [json.dumps(obj, ensure_ascii=False)] and [json.loads(s)], on the values
    the server serialises: [None], booleans, integers, strings, lists and
    string-keyed dictionaries.  [loads] answers [None] where the library
    raises [JSONDecodeError], and also on the documents outside this
    fragment (floating-point numbers, [NaN] and [Infinity], [\u] escapes
    above U+007F). *)

Module Json.

Definition dq : ascii := "034"%char.   (* the double quote *)
Definition bs : ascii := "092"%char.   (* the backslash *)

Definition hex_digit (n : N) : ascii :=
  if (n <? 10)%N then ascii_of_N (48 + n) else ascii_of_N (87 + n).

(** [ESCAPE_DCT]: the replacement of one character inside a string *)
Definition escape_char (c : ascii) : string :=
  let n := N_of_ascii c in
  if (n =? 34)%N then String bs (String dq EmptyString)
  else if (n =? 92)%N then String bs (String bs EmptyString)
  else if (n =? 10)%N then String bs "n"
  else if (n =? 13)%N then String bs "r"
  else if (n =? 9)%N then String bs "t"
  else if (n =? 12)%N then String bs "f"
  else if (n =? 8)%N then String bs "b"
  else if (n <? 32)%N then
    String bs ("u00" ++ String (hex_digit (n / 16)) (String (hex_digit (n mod 16)) EmptyString))
  else String c EmptyString.

Fixpoint escape (s : string) : string :=
  match s with
  | EmptyString => EmptyString
  | String c r => escape_char c ++ escape r
  end.

Definition encode_str (s : string) : string :=
  String dq (escape s ++ String dq EmptyString).

Fixpoint dumps (v : json) : string :=
  match v with
  | JNull => "null"
  | JBool true => "true"
  | JBool false => "false"
  | JInt z => Py.str_of_int z
  | JStr s => encode_str s
  | JArr l => "[" ++ String.concat ", " (map dumps l) ++ "]"
  | JObj l =>
      "{" ++ String.concat ", "
               (map (fun kv => encode_str (fst kv) ++ ": " ++ dumps (snd kv)) l)
          ++ "}"
  end.

(** *** Decoding *)

Definition is_ws (c : ascii) : bool :=
  let n := N_of_ascii c in
  ((n =? 32) || (n =? 9) || (n =? 10) || (n =? 13))%N.

Fixpoint skip_ws (s : string) : string :=
  match s with
  | EmptyString => EmptyString
  | String c r => if is_ws c then skip_ws r else s
  end.

Definition hex_value (c : ascii) : option N :=
  let n := N_of_ascii c in
  if ((48 <=? n) && (n <=? 57))%N then Some (n - 48)%N
  else if ((97 <=? n) && (n <=? 102))%N then Some (n - 87)%N
  else if ((65 <=? n) && (n <=? 70))%N then Some (n - 55)%N
  else None.

(** [BACKSLASH]: the character a one-letter escape stands for *)
Definition unescape (e : ascii) : option ascii :=
  let n := N_of_ascii e in
  if (n =? 34)%N then Some dq
  else if (n =? 92)%N then Some bs
  else if (n =? 47)%N then Some "/"%char
  else if (n =? 98)%N then Some (ascii_of_N 8)
  else if (n =? 102)%N then Some (ascii_of_N 12)
  else if (n =? 110)%N then Some (ascii_of_N 10)
  else if (n =? 114)%N then Some (ascii_of_N 13)
  else if (n =? 116)%N then Some (ascii_of_N 9)
  else None.

Definition cons_char (c : ascii) (p : option (string * string))
  : option (string * string) :=
  match p with
  | Some (x, r) => Some (String c x, r)
  | None => None
  end.

(** [scanstring]: the text after an opening quote, up to the closing one *)
Fixpoint scan_string (s : string) : option (string * string) :=
  match s with
  | EmptyString => None
  | String c r =>
      if Ascii.eqb c dq then Some (EmptyString, r)
      else if Ascii.eqb c bs then
        match r with
        | EmptyString => None
        | String e r1 =>
            if Ascii.eqb e "u" then
              match r1 with
              | String h1 (String h2 (String h3 (String h4 r2))) =>
                  match hex_value h1, hex_value h2, hex_value h3, hex_value h4 with
                  | Some a, Some b, Some c', Some d =>
                      let n := (((a * 16 + b) * 16 + c') * 16 + d)%N in
                      if (n <? 128)%N then cons_char (ascii_of_N n) (scan_string r2)
                      else None
                  | _, _, _, _ => None
                  end
              | _ => None
              end
            else
              match unescape e with
              | Some ch => cons_char ch (scan_string r1)
              | None => None
              end
        end
      else if (N_of_ascii c <? 32)%N then None
      else cons_char c (scan_string r)
  end.

Definition digit_of_char (c : ascii) : option (uint -> uint) :=
  let n := N_of_ascii c in
  if (n =? 48)%N then Some D0 else if (n =? 49)%N then Some D1
  else if (n =? 50)%N then Some D2 else if (n =? 51)%N then Some D3
  else if (n =? 52)%N then Some D4 else if (n =? 53)%N then Some D5
  else if (n =? 54)%N then Some D6 else if (n =? 55)%N then Some D7
  else if (n =? 56)%N then Some D8 else if (n =? 57)%N then Some D9
  else None.

Fixpoint scan_digits (s : string) : uint * string :=
  match s with
  | EmptyString => (Nil, EmptyString)
  | String c r =>
      match digit_of_char c with
      | Some mk => let (d, r') := scan_digits r in (mk d, r')
      | None => (Nil, s)
      end
  end.

(** the character after an integer that would continue it as a float *)
Definition float_mark (s : string) : bool :=
  match s with
  | String c _ =>
      let n := N_of_ascii c in ((n =? 46) || (n =? 101) || (n =? 69))%N
  | EmptyString => false
  end.

(** [NUMBER_RE], integers only: an optional minus sign, then a single zero
    or a non-zero digit followed by digits *)
Definition scan_unsigned (s : string) : option (Z * string) :=
  let (d, r) := scan_digits s in
  if float_mark r then None
  else match d with
       | Nil => None
       | D0 Nil => Some (0, r)
       | D0 _ => None
       | _ => Some (Z.of_uint d, r)
       end.

Definition scan_number (s : string) : option (Z * string) :=
  match s with
  | String c r =>
      if Ascii.eqb c "-" then
        match scan_unsigned r with
        | Some (z, r') => Some (- z, r')
        | None => None
        end
      else scan_unsigned s
  | EmptyString => None
  end.

(** [s[idx:idx + len(p)] == p] *)
Fixpoint starts_with (p s : string) : bool :=
  match p with
  | EmptyString => true
  | String a p' =>
      match s with
      | String b s' => Ascii.eqb a b && starts_with p' s'
      | EmptyString => false
      end
  end.

Fixpoint drop (n : nat) (s : string) : string :=
  match n, s with
  | S n', String _ r => drop n' r
  | _, _ => s
  end.

(** [dict(pairs)]: a repeated key keeps its first position and its last
    value *)
Definition dict_of_pairs (l : list (string * json)) : list (string * json) :=
  fold_left (fun acc kv => dict_set acc (fst kv) (snd kv)) l [].

(** [scan_once], [JSONObject] and [JSONArray].  [parse_members] starts at the
    opening quote of a key, [parse_items] at the first character of an
    element; both run to the closing bracket. *)
Fixpoint parse_value (fuel : nat) (s : string) {struct fuel}
  : option (json * string) :=
  match fuel with
  | O => None
  | S f =>
      match s with
      | EmptyString => None
      | String c r =>
          if Ascii.eqb c dq then
            match scan_string r with
            | Some (x, r') => Some (JStr x, r')
            | None => None
            end
          else if Ascii.eqb c "{" then
            match skip_ws r with
            | EmptyString => None
            | String c1 r1 =>
                if Ascii.eqb c1 "}" then Some (JObj [], r1)
                else match parse_members f (String c1 r1) with
                     | Some (l, r') => Some (JObj (dict_of_pairs l), r')
                     | None => None
                     end
            end
          else if Ascii.eqb c "[" then
            match skip_ws r with
            | EmptyString => None
            | String c1 r1 =>
                if Ascii.eqb c1 "]" then Some (JArr [], r1)
                else match parse_items f (String c1 r1) with
                     | Some (l, r') => Some (JArr l, r')
                     | None => None
                     end
            end
          else if starts_with "null" s then Some (JNull, drop 4 s)
          else if starts_with "true" s then Some (JBool true, drop 4 s)
          else if starts_with "false" s then Some (JBool false, drop 5 s)
          else match scan_number s with
               | Some (z, r') => Some (JInt z, r')
               | None => None
               end
      end
  end

with parse_members (fuel : nat) (s : string) {struct fuel}
  : option (list (string * json) * string) :=
  match fuel with
  | O => None
  | S f =>
      match s with
      | EmptyString => None
      | String c r =>
          if negb (Ascii.eqb c dq) then None
          else
            match scan_string r with
            | None => None
            | Some (k, r1) =>
                match skip_ws r1 with
                | EmptyString => None
                | String c2 r2 =>
                    if negb (Ascii.eqb c2 ":") then None
                    else
                      match parse_value f (skip_ws r2) with
                      | None => None
                      | Some (v, r3) =>
                          match skip_ws r3 with
                          | EmptyString => None
                          | String c4 r4 =>
                              if Ascii.eqb c4 "}" then Some ([(k, v)], r4)
                              else if Ascii.eqb c4 "," then
                                match parse_members f (skip_ws r4) with
                                | Some (l, r5) => Some ((k, v) :: l, r5)
                                | None => None
                                end
                              else None
                          end
                      end
                end
            end
      end
  end

with parse_items (fuel : nat) (s : string) {struct fuel}
  : option (list json * string) :=
  match fuel with
  | O => None
  | S f =>
      match parse_value f s with
      | None => None
      | Some (v, r1) =>
          match skip_ws r1 with
          | EmptyString => None
          | String c2 r2 =>
              if Ascii.eqb c2 "]" then Some ([v], r2)
              else if Ascii.eqb c2 "," then
                match parse_items f (skip_ws r2) with
                | Some (l, r3) => Some (v :: l, r3)
                | None => None
                end
              else None
          end
      end
  end.

(** [json.loads]: one value between optional white space, nothing after.
    The fuel is one more than the length of the text, which bounds the
    nesting a text of this length can hold ([loads_dumps] below shows it
    is enough for every text [dumps] writes). *)
Definition loads (s : string) : option json :=
  match parse_value (S (String.length s)) (skip_ws s) with
  | Some (v, r) =>
      match skip_ws r with
      | EmptyString => Some v
      | _ => None
      end
  | None => None
  end.

End Json.

(** ** [datetime] *)

Record datetime : Type := mk_datetime {
  year : N; month : N; day : N;
  hour : N; minute : N; second : N; microsecond : N
}.

(** [d.isoformat()]: the microseconds are printed only when non-zero. *)
Definition isoformat (d : datetime) : string :=
  Py.zfill 4 (year d) ++ "-" ++ Py.zfill 2 (month d) ++ "-" ++ Py.zfill 2 (day d)
  ++ "T" ++ Py.zfill 2 (hour d) ++ ":" ++ Py.zfill 2 (minute d) ++ ":"
  ++ Py.zfill 2 (second d)
  ++ (if (microsecond d =? 0)%N then EmptyString
      else "." ++ Py.zfill 6 (microsecond d)).

(** ** models.py: the four tables *)

Module Customer.
Record t : Type := mk { id : Z; name : string; status : string }.
Definition with_status (c : t) (s : string) : t := mk (id c) (name c) s.
  (** the dictionary the handlers build from a row *)
Definition to_dict (c : t) : json :=
    JObj [("id", JInt (id c)); ("name", JStr (name c)); ("status", JStr (status c))].
End Customer.

Module Ticket.
Record t : Type := mk {
    id : Z; title : string; description : string; priority : string;
    created_at : datetime; customer_id : Z
  }.
End Ticket.

Module IdempotencyRecord.
Record t : Type := mk {
    id : Z; tool : string; key : string; response_json : string;
    created_at : datetime
  }.
Definition dumps (obj : json) : string := Json.dumps obj.
Definition loads (s : string) : option json := Json.loads s.
End IdempotencyRecord.

Module PendingAction.
Record t : Type := mk {
    id : string; action_type : string; payload_json : string;
    status : string; created_at : datetime
  }.
Definition with_status (p : t) (s : string) : t :=
    mk (id p) (action_type p) (payload_json p) s (created_at p).
Definition dumps (obj : json) : string := Json.dumps obj.
Definition loads (s : string) : option json := Json.loads s.
End PendingAction.

(** ** The state the server acts on *)

Record world : Type := mk_world {
  customers : list Customer.t;
  tickets : list Ticket.t;
  idempotency_records : list IdempotencyRecord.t;
  pending_actions : list PendingAction.t;
  audit_log : string;          (* the content of audit.log *)
  clock_reads : nat            (* how often the clock has been read *)
}.

Definition empty_world : world := mk_world [] [] [] [] EmptyString 0.

Definition set_customers (w : world) (x : list Customer.t) : world :=
  mk_world x (tickets w) (idempotency_records w) (pending_actions w)
    (audit_log w) (clock_reads w).
Definition set_tickets (w : world) (x : list Ticket.t) : world :=
  mk_world (customers w) x (idempotency_records w) (pending_actions w)
    (audit_log w) (clock_reads w).
Definition set_idempotency_records (w : world) (x : list IdempotencyRecord.t)
  : world :=
  mk_world (customers w) (tickets w) x (pending_actions w)
    (audit_log w) (clock_reads w).
Definition set_pending_actions (w : world) (x : list PendingAction.t) : world :=
  mk_world (customers w) (tickets w) (idempotency_records w) x
    (audit_log w) (clock_reads w).
Definition set_audit_log (w : world) (x : string) : world :=
  mk_world (customers w) (tickets w) (idempotency_records w)
    (pending_actions w) x (clock_reads w).
Definition set_clock_reads (w : world) (x : nat) : world :=
  mk_world (customers w) (tickets w) (idempotency_records w)
    (pending_actions w) (audit_log w) x.

(** What a request finds around it: the process environment, the clock
    (its successive readings) and the identifier [uuid.uuid4().hex] draws. *)
Record ambient : Type := mk_ambient {
  ALLOWED_TOOLS : option string;
  utcnow_at : nat -> datetime;
  uuid4_hex : string
}.

(** ** Exceptions and the handler monad *)

Inductive exn : Type :=
| HTTPException (status_code : Z) (detail : string)
| PermissionError (msg : string)
| IntegrityError
| JSONDecodeError
| KeyError (k : string)
| TypeError
| AttributeError
| UnsupportedBind.   (* [filter_by(id=v)] with a [v] that is no integer:
                        what the driver makes of it is left open *)

Inductive outcome (A : Type) : Type :=
| Return (a : A)
| Raise (e : exn).
Arguments Return {A} a.
Arguments Raise {A} e.

Definition M (A : Type) : Type := world -> outcome A * world.

Definition ret {A} (a : A) : M A := fun w => (Return a, w).
Definition raise {A} (e : exn) : M A := fun w => (Raise e, w).
Definition bind {A B} (m : M A) (k : A -> M B) : M B :=
  fun w =>
    match m w with
    | (Return a, w') => k a w'
    | (Raise e, w') => (Raise e, w')
    end.
Definition gets {A} (f : world -> A) : M A := fun w => (Return (f w), w).
Definition modify (f : world -> world) : M unit := fun w => (Return tt, f w).

Notation "x <- m ;; k" := (bind m (fun x => k))
  (at level 61, m at next level, right associativity).
Notation "m ;; k" := (bind m (fun _ => k))
  (at level 61, right associativity).

(** the status line the framework answers with *)
Definition http_status {A} (r : outcome A) : Z :=
  match r with
  | Return _ => 200
  | Raise (HTTPException c _) => c
  | Raise _ => 500
  end.


(** [d[k]] on a decoded document *)
Definition subscript (d : json) (k : string) : M json :=
  match d with
  | JObj l =>
      match dict_get l k with
      | Some v => ret v
      | None => raise (KeyError k)
      end
  | _ => raise TypeError
  end.

(** [{**d, k: v}] *)
Definition spread_with (d : json) (k : string) (v : json) : M json :=
  match d with
  | JObj l => ret (JObj (dict_set l k v))
  | _ => raise TypeError
  end.

(** ** Queries and commits *)

(** the next [INTEGER PRIMARY KEY] SQLite assigns *)
Definition next_id (ids : list Z) : Z :=
  match ids with
  | [] => 1
  | x :: r => 1 + fold_left Z.max r x
  end.

Definition find_customer (cid : Z) (w : world) : option Customer.t :=
  find (fun c => Customer.id c =? cid) (customers w).

Definition find_pending_action (pid : string) (w : world)
  : option PendingAction.t :=
  find (fun p => String.eqb (PendingAction.id p) pid) (pending_actions w).

Definition find_idempotency_record (tool key : string) (w : world)
  : option IdempotencyRecord.t :=
  find (fun r => String.eqb (IdempotencyRecord.tool r) tool
                 && String.eqb (IdempotencyRecord.key r) key)
       (idempotency_records w).

(** [UPDATE customers SET status = s WHERE id = cid] *)
Definition update_customer_row (cid : Z) (s : string) (w : world) : world :=
  set_customers w
    (map (fun c => if Customer.id c =? cid then Customer.with_status c s else c)
         (customers w)).

(** [UPDATE pending_actions SET status = s WHERE id = pid] *)
Definition update_pending_row (pid : string) (s : string) (w : world) : world :=
  set_pending_actions w
    (map (fun p => if String.eqb (PendingAction.id p) pid
                   then PendingAction.with_status p s else p)
         (pending_actions w)).

(** ** Request schemas (the pydantic models of main.py) *)

Module SearchCustomerIn.
Record t : Type := mk { query : string }.
Definition model_dump (p : t) : json := JObj [("query", JStr (query p))].
End SearchCustomerIn.

Module CreateTicketIn.
Record t : Type := mk {
    customer_id : Z; title : string; description : string; priority : string
  }.
Definition model_dump (p : t) : json :=
    JObj [("customer_id", JInt (customer_id p)); ("title", JStr (title p));
          ("description", JStr (description p)); ("priority", JStr (priority p))].
End CreateTicketIn.

Module UpdateCustomerStatusIn.
Record t : Type := mk { customer_id : Z; new_status : string; confirm : bool }.
Definition model_dump (p : t) : json :=
    JObj [("customer_id", JInt (customer_id p));
          ("new_status", JStr (new_status p));
          ("confirm", JBool (confirm p))].
End UpdateCustomerStatusIn.

Module ConfirmIn.
Record t : Type := mk { approve : bool }.
End ConfirmIn.

Module SendMessageIn.
Record t : Type := mk { channel : string; message : string }.
Definition model_dump (p : t) : json :=
    JObj [("channel", JStr (channel p)); ("message", JStr (message p))].
End SendMessageIn.

Module GetIncidentImpactIn.
Record t : Type := mk { incident_id : string }.
Definition model_dump (p : t) : json :=
    JObj [("incident_id", JStr (incident_id p))].
End GetIncidentImpactIn.

(** ** Tool registry *)

Record tool_meta : Type := mk_tool_meta {
  path : string; idempotency : bool; risk : string
}.

Definition TOOL_REGISTRY : list (string * tool_meta) :=
  [("search_customer", mk_tool_meta "/tools/search_customer" false "low");
   ("create_ticket", mk_tool_meta "/tools/create_ticket" true "medium");
   ("update_customer_status",
      mk_tool_meta "/tools/update_customer_status" false "high");
   ("send_message", mk_tool_meta "/tools/send_message" false "low");
   ("get_incident_impact",
      mk_tool_meta "/tools/get_incident_impact" false "low")].

(** ** The server *)

Section Server.

Variable amb : ambient.

(** [datetime.utcnow()] *)
Definition utcnow : M datetime :=
  fun w => (Return (utcnow_at amb (clock_reads w)),
            set_clock_reads w (S (clock_reads w))).

(** *** policy.py *)

Definition DEFAULT_ALLOWED : list string :=
  ["search_customer"; "create_ticket"; "update_customer_status";
   "send_message"; "get_incident_impact"].

Definition allowed_tools : list string :=
  let raw := match ALLOWED_TOOLS amb with Some v => v | None => EmptyString end in
  if negb (Py.truthy (Py.strip raw)) then DEFAULT_ALLOWED
  else map Py.strip (filter (fun x => Py.truthy (Py.strip x)) (Py.split "," raw)).

Definition assert_allowed (tool : string) : M unit :=
  if negb (Py.mem tool allowed_tools)
  then raise (PermissionError ("Tool not allowed by policy: " ++ tool))
  else ret tt.

(** *** audit.py *)

Definition log_event (event : list (string * json)) : M unit :=
  now <- utcnow ;;
  let record := dict_update [("ts", JStr (isoformat now ++ "Z"))] event in
  modify (fun w =>
    set_audit_log w
      (audit_log w ++ Json.dumps (JObj record) ++ String (ascii_of_N 10) EmptyString)).

(** *** idempotency.py *)

Definition get_cached_response (tool key : string) : M json :=
  rec <- gets (find_idempotency_record tool key) ;;
  match rec with
  | None => ret JNull
  | Some rec =>
      match IdempotencyRecord.loads (IdempotencyRecord.response_json rec) with
      | Some v => ret v
      | None => raise JSONDecodeError
      end
  end.

(** [db.add(rec); db.commit()] on [idempotency_records]: the row gets the
    next id and the current time, and [uq_tool_key] rejects a second row
    for the same (tool, key). *)
Definition store_response (tool key : string) (response : json) : M unit :=
  let response_json := IdempotencyRecord.dumps response in
  now <- utcnow ;;
  existing <- gets (find_idempotency_record tool key) ;;
  match existing with
  | Some _ => raise IntegrityError
  | None =>
      modify (fun w =>
        set_idempotency_records w
          (idempotency_records w ++
           [IdempotencyRecord.mk
              (next_id (map IdempotencyRecord.id (idempotency_records w)))
              tool key response_json now]))
  end.

(** *** main.py: helpers *)

Definition tool_guard (tool : string) : M unit :=
  fun w =>
    match assert_allowed tool w with
    | (Raise (PermissionError e), w') => (Raise (HTTPException 403 e), w')
    | r => r
    end.

(** [db.add(t); db.commit(); db.refresh(t)] on [tickets] *)
Definition add_ticket (customer_id : Z) (title description priority : string)
  : M Ticket.t :=
  now <- utcnow ;;
  ids <- gets (fun w => map Ticket.id (tickets w)) ;;
  let t := Ticket.mk (next_id ids) title description priority now customer_id in
  modify (fun w => set_tickets w (tickets w ++ [t])) ;;
  ret t.

(** [db.add(pa); db.commit()] on [pending_actions], whose primary key is the
    identifier *)
Definition add_pending_action (pid action_type payload_json status : string)
  : M unit :=
  now <- utcnow ;;
  existing <- gets (find_pending_action pid) ;;
  match existing with
  | Some _ => raise IntegrityError
  | None =>
      modify (fun w =>
        set_pending_actions w
          (pending_actions w ++
           [PendingAction.mk pid action_type payload_json status now]))
  end.

(** the value of a header that is present and not empty *)
Definition given (h : option string) : option string :=
  match h with
  | Some s => if Py.truthy s then Some s else None
  | None => None
  end.

(** the key of [filter_by(id=v)] on an integer column *)
Definition as_id (v : json) : M Z :=
  match v with
  | JInt z => ret z
  | _ => raise UnsupportedBind
  end.

(** [v.strip()] on a decoded value *)
Definition strip_value (v : json) : M string :=
  match v with
  | JStr s => ret (Py.strip s)
  | _ => raise AttributeError
  end.

(** [seed_if_empty], which [get_db] runs before it hands out the session *)
Definition seed_if_empty : M unit :=
  n <- gets (fun w => List.length (customers w)) ;;
  if Nat.eqb n 0 then
    modify (fun w =>
      set_customers w
        [Customer.mk 1 "ACME AB" "Active";
         Customer.mk 2 "Nordic Widgets" "Active";
         Customer.mk 3 "Beta Logistics" "Active"])
  else ret tt.

(** *** main.py: tools *)

Definition search_customer (payload : SearchCustomerIn.t) : M json :=
  let tool := "search_customer" in
  tool_guard tool ;;
  let q := Py.lower (Py.strip (SearchCustomerIn.query payload)) in
  rows <- gets customers ;;
  let matches :=
    filter (fun c => Py.contains q (Py.lower (Customer.name c))) rows in
  let out := JObj [("results", JArr (map Customer.to_dict matches))] in
  log_event [("tool", JStr tool);
             ("input", SearchCustomerIn.model_dump payload);
             ("output", JObj [("count", JInt (Z.of_nat (List.length matches)))])] ;;
  ret out.

Definition create_ticket (payload : CreateTicketIn.t)
    (idempotency_key : option string) : M json :=
  let tool := "create_ticket" in
  tool_guard tool ;;
  (* Idempotency replay *)
  replay <-
    match given idempotency_key with
    | Some key =>
        cached <- get_cached_response tool key ;;
        if negb (is_None cached) then
          log_event [("tool", JStr tool); ("idempotency_replay", JBool true);
                     ("key", JStr key)] ;;
          r <- spread_with cached "idempotent_replay" (JBool true) ;;
          ret (Some r)
        else ret None
    | None => ret None
    end ;;
  match replay with
  | Some r => ret r
  | None =>
      cust <- gets (find_customer (CreateTicketIn.customer_id payload)) ;;
      match cust with
      | None => raise (HTTPException 404 "Customer not found")
      | Some _ =>
          t <- add_ticket (CreateTicketIn.customer_id payload)
                 (Py.strip (CreateTicketIn.title payload))
                 (Py.strip (CreateTicketIn.description payload))
                 (Py.lower (Py.strip (CreateTicketIn.priority payload))) ;;
          let response :=
            [("ticket",
              JObj [("id", JInt (Ticket.id t));
                    ("customer_id", JInt (Ticket.customer_id t));
                    ("title", JStr (Ticket.title t));
                    ("priority", JStr (Ticket.priority t));
                    ("created_at", JStr (isoformat (Ticket.created_at t) ++ "Z"))])] in
          match given idempotency_key with
          | Some key => store_response tool key (JObj response)
          | None => ret tt
          end ;;
          log_event [("tool", JStr tool);
                     ("input", CreateTicketIn.model_dump payload);
                     ("output", JObj [("ticket_id", JInt (Ticket.id t))])] ;;
          ret (JObj (dict_set response "idempotent_replay" (JBool false)))
      end
  end.

Definition update_customer_status (payload : UpdateCustomerStatusIn.t) : M json :=
  let tool := "update_customer_status" in
  tool_guard tool ;;
  cust <- gets (find_customer (UpdateCustomerStatusIn.customer_id payload)) ;;
  match cust with
  | None => raise (HTTPException 404 "Customer not found")
  | Some cust =>
      (* Human-in-the-loop *)
      if negb (UpdateCustomerStatusIn.confirm payload) then
        let pending_id := uuid4_hex amb in
        add_pending_action pending_id "update_customer_status"
          (PendingAction.dumps (UpdateCustomerStatusIn.model_dump payload))
          "pending" ;;
        log_event [("tool", JStr tool);
                   ("input", UpdateCustomerStatusIn.model_dump payload);
                   ("output", JObj [("requires_confirmation", JBool true);
                                    ("pending_action_id", JStr pending_id)])] ;;
        ret (JObj [("requires_confirmation", JBool true);
                   ("pending_action_id", JStr pending_id);
                   ("customer", JNull)])
      else
        let new := Py.strip (UpdateCustomerStatusIn.new_status payload) in
        modify (update_customer_row (Customer.id cust) new) ;;
        let cust := Customer.with_status cust new in
        log_event [("tool", JStr tool);
                   ("input", UpdateCustomerStatusIn.model_dump payload);
                   ("output", JObj [("customer_id", JInt (Customer.id cust));
                                    ("status", JStr (Customer.status cust))])] ;;
        ret (JObj [("requires_confirmation", JBool false);
                   ("pending_action_id", JNull);
                   ("customer", Customer.to_dict cust)])
  end.

Definition confirm_action (pending_action_id : string) (payload : ConfirmIn.t)
  : M json :=
  let tool := "confirm" in
  pa <- gets (find_pending_action pending_action_id) ;;
  match pa with
  | None => raise (HTTPException 404 "Pending action not found")
  | Some pa =>
      if negb (String.eqb (PendingAction.status pa) "pending") then
        raise (HTTPException 409
                 ("Pending action already " ++ PendingAction.status pa))
      else if negb (ConfirmIn.approve payload) then
        modify (update_pending_row (PendingAction.id pa) "rejected") ;;
        log_event [("tool", JStr tool);
                   ("pending_action_id", JStr pending_action_id);
                   ("result", JStr "rejected")] ;;
        ret (JObj [("ok", JBool true); ("status", JStr "rejected")])
      else
        match PendingAction.loads (PendingAction.payload_json pa) with
        | None => raise JSONDecodeError
        | Some data =>
            if String.eqb (PendingAction.action_type pa) "update_customer_status"
            then
              cid <- (v <- subscript data "customer_id" ;; as_id v) ;;
              cust <- gets (find_customer cid) ;;
              match cust with
              | None =>
                  modify (update_pending_row (PendingAction.id pa) "rejected") ;;
                  raise (HTTPException 404 "Customer not found during confirm")
              | Some cust =>
                  new <- (v <- subscript data "new_status" ;; strip_value v) ;;
                  modify (fun w =>
                    update_pending_row (PendingAction.id pa) "confirmed"
                      (update_customer_row (Customer.id cust) new w)) ;;
                  let cust := Customer.with_status cust new in
                  log_event [("tool", JStr tool);
                             ("pending_action_id", JStr pending_action_id);
                             ("result", JStr "confirmed");
                             ("customer_id", JInt (Customer.id cust))] ;;
                  ret (JObj [("ok", JBool true); ("status", JStr "confirmed");
                             ("customer", Customer.to_dict cust)])
              end
            else
              modify (update_pending_row (PendingAction.id pa) "rejected") ;;
              raise (HTTPException 400
                       ("Unknown action_type: " ++ PendingAction.action_type pa))
        end
  end.

Definition send_message (payload : SendMessageIn.t) : M json :=
  let tool := "send_message" in
  tool_guard tool ;;
  log_event [("tool", JStr tool);
             ("input", SendMessageIn.model_dump payload);
             ("output", JObj [("sent", JBool true)])] ;;
  ret (JObj [("sent", JBool true);
             ("channel", JStr (SendMessageIn.channel payload))]).

Definition get_incident_impact (payload : GetIncidentImpactIn.t) : M json :=
  let tool := "get_incident_impact" in
  tool_guard tool ;;
  rows <- gets customers ;;
  let out :=
    JObj [("incident_id", JStr (GetIncidentImpactIn.incident_id payload));
          ("affected_customers", JArr (map Customer.to_dict rows))] in
  log_event [("tool", JStr tool);
             ("input", GetIncidentImpactIn.model_dump payload);
             ("output", JObj [("count", JInt (Z.of_nat (List.length rows)))])] ;;
  ret out.

(** *** The routes *)

Inductive request : Type :=
| SearchCustomer (payload : SearchCustomerIn.t)
| CreateTicket (payload : CreateTicketIn.t) (idempotency_key : option string)
| UpdateCustomerStatus (payload : UpdateCustomerStatusIn.t)
| Confirm (pending_action_id : string) (payload : ConfirmIn.t)
| SendMessage (payload : SendMessageIn.t)
| GetIncidentImpact (payload : GetIncidentImpactIn.t).

Definition handle (req : request) : M json :=
  match req with
  | SearchCustomer p => search_customer p
  | CreateTicket p k => create_ticket p k
  | UpdateCustomerStatus p => update_customer_status p
  | Confirm pid p => confirm_action pid p
  | SendMessage p => send_message p
  | GetIncidentImpact p => get_incident_impact p
  end.

(** the tool a route under [/tools] stands for *)
Definition tool_of (req : request) : option string :=
  match req with
  | SearchCustomer _ => Some "search_customer"
  | CreateTicket _ _ => Some "create_ticket"
  | UpdateCustomerStatus _ => Some "update_customer_status"
  | Confirm _ _ => None
  | SendMessage _ => Some "send_message"
  | GetIncidentImpact _ => Some "get_incident_impact"
  end.

(** the routes that depend on [get_db] *)
Definition uses_db (req : request) : bool :=
  match req with
  | SendMessage _ => false
  | _ => true
  end.

(** a request as the application serves it: the dependency, then the
    handler *)
Definition serve (req : request) : M json :=
  (if uses_db req then seed_if_empty else ret tt) ;;
  handle req.

End Server.

(** the world after a sequence of requests, each with its own surroundings *)
Fixpoint run (reqs : list (ambient * request)) (w : world) : world :=
  match reqs with
  | [] => w
  | (amb, req) :: rest => run rest (snd (serve amb req w))
  end.

(** ** Vocabulary of the statements *)

(** the four tables agree (the audit file and the clock may differ) *)
Definition same_db (w w' : world) : Prop :=
  customers w' = customers w /\ tickets w' = tickets w /\
  idempotency_records w' = idempotency_records w /\
  pending_actions w' = pending_actions w.

(** the world after [log_event event] *)
Definition logged (amb : ambient) (event : list (string * json)) (w : world)
  : world :=
  set_audit_log (set_clock_reads w (S (clock_reads w)))
    (audit_log w ++
     Json.dumps (JObj (dict_update
        [("ts", JStr (isoformat (utcnow_at amb (clock_reads w)) ++ "Z"))] event))
     ++ String (ascii_of_N 10) EmptyString).

(** ** Vocabulary of the codec proof *)

Import Json.

Fixpoint nodupb (l : list string) : bool :=
  match l with
  | [] => true
  | x :: r => negb (Py.mem x r) && nodupb r
  end.

Fixpoint wf_json (v : json) : bool :=
  match v with
  | JArr l => forallb wf_json l
  | JObj l => nodupb (map fst l) && forallb (fun kv => wf_json (snd kv)) l
  | _ => true
  end.

(** a text at which the scan of a number stops *)
Definition stops (s : string) : bool :=
  match s with
  | EmptyString => true
  | String c _ =>
      match digit_of_char c with Some _ => false | None => negb (float_mark s) end
  end.

(** the first character of an encoded value *)
Definition plain_head (s : string) : Prop :=
  exists c t, s = String c t /\ is_ws c = false
    /\ Ascii.eqb c "]" = false /\ Ascii.eqb c "}" = false.

Definition number_head (s : string) : Prop :=
  exists c t, s = String c t /\ is_ws c = false
    /\ Ascii.eqb c "]" = false /\ Ascii.eqb c "}" = false
    /\ Ascii.eqb c dq = false /\ Ascii.eqb c "{" = false
    /\ Ascii.eqb c "[" = false
    /\ starts_with "null" s = false
    /\ starts_with "true" s = false
    /\ starts_with "false" s = false.

Definition member_text (kv : string * json) : string :=
  encode_str (fst kv) ++ ": " ++ dumps (snd kv).

Definition members_text (l : list (string * json)) : string :=
  String.concat ", " (map member_text l).

Definition items_text (l : list json) : string :=
  String.concat ", " (map dumps l).

Definition value_ok (f : nat) : Prop :=
  forall v rest,
    wf_json v = true -> stops rest = true ->
    (String.length (dumps v) < f)%nat ->
    parse_value f (dumps v ++ rest) = Some (v, rest).

Definition members_ok (f : nat) : Prop :=
  forall l rest,
    l <> [] -> forallb (fun kv => wf_json (snd kv)) l = true ->
    (String.length (members_text l) < f)%nat ->
    parse_members f (members_text l ++ String "}" rest) = Some (l, rest).

Definition items_ok (f : nat) : Prop :=
  forall l rest,
    l <> [] -> forallb wf_json l = true ->
    (S (String.length (items_text l)) < f)%nat ->
    parse_items f (items_text l ++ String "]" rest) = Some (l, rest).

(** ** Stored payloads *)

(** the payload of a pending action is a document [confirm_action] can
    read: a dictionary with an integer [customer_id] and a string
    [new_status] *)
Definition payload_ok (pa : PendingAction.t) : bool :=
  match PendingAction.loads (PendingAction.payload_json pa) with
  | Some (JObj d) =>
      match dict_get d "customer_id", dict_get d "new_status" with
      | Some (JInt _), Some (JStr _) => true
      | _, _ => false
      end
  | _ => false
  end.

Definition pending_ok (w : world) : bool :=
  forallb payload_ok (pending_actions w).

(** the status a resolution writes *)
Definition resolved_status (approve : bool) : string :=
  if approve then "confirmed" else "rejected".

(** ** Worlds and requests the statements are tried on *)

Definition ex_amb : ambient :=
  mk_ambient None (fun _ => mk_datetime 2024 1 15 9 30 0 0)
    "3f2b8c1e9d4a4f6b8a7c5e2d1b0f9a3c".

(** only the search tool is allowed *)
Definition ex_amb_search_only : ambient :=
  mk_ambient (Some "search_customer") (fun _ => mk_datetime 2024 1 15 9 30 0 0)
    "3f2b8c1e9d4a4f6b8a7c5e2d1b0f9a3c".

(** the database as [seed_if_empty] leaves it *)
Definition ex_world : world :=
  mk_world
    [Customer.mk 1 "ACME AB" "Active";
     Customer.mk 2 "Nordic Widgets" "Active";
     Customer.mk 3 "Beta Logistics" "Active"]
    [] [] [] EmptyString 0.

Definition ex_ticket : CreateTicketIn.t :=
  CreateTicketIn.mk 1 "Customer reports latency issues"
    "Please investigate." "high".

Definition ex_update : UpdateCustomerStatusIn.t :=
  UpdateCustomerStatusIn.mk 1 "Investigating" false.

(** a status with blanks around it *)
Definition ex_update_padded : UpdateCustomerStatusIn.t :=
  UpdateCustomerStatusIn.mk 1 " VIP " false.

(** [ex_world] after a ticket was created under the key k1 *)
Definition ex_world_ticket : world :=
  snd (create_ticket ex_amb ex_ticket (Some "k1") ex_world).

(** [ex_world] after [ex_update] was parked *)
Definition ex_world_parked : world :=
  snd (update_customer_status ex_amb ex_update ex_world).




(** the response stored under k1 in [ex_world_ticket], and its record *)
Definition ex_cached : list (string * json) :=
  [("ticket",
    JObj [("id", JInt 1); ("customer_id", JInt 1);
          ("title", JStr "Customer reports latency issues");
          ("priority", JStr "high");
          ("created_at", JStr "2024-01-15T09:30:00Z")])].

Definition ex_record : IdempotencyRecord.t :=
  IdempotencyRecord.mk 1 "create_ticket" "k1"
    (IdempotencyRecord.dumps (JObj ex_cached))
    (mk_datetime 2024 1 15 9 30 0 0).

(** the action parked in [ex_world_parked] *)
Definition ex_parked : PendingAction.t :=
  PendingAction.mk (uuid4_hex ex_amb) "update_customer_status"
    (PendingAction.dumps (UpdateCustomerStatusIn.model_dump ex_update))
    "pending" (mk_datetime 2024 1 15 9 30 0 0).



(** [ex_world_parked] after the parked action was approved *)
Definition ex_world_approved : world :=
  snd (confirm_action ex_amb (uuid4_hex ex_amb) (ConfirmIn.mk true)
         ex_world_parked).


(** ** Stored responses *)

(** the response of an idempotency record is a document that decodes to a
    dictionary *)
Definition record_ok (r : IdempotencyRecord.t) : bool :=
  match IdempotencyRecord.loads (IdempotencyRecord.response_json r) with
  | Some (JObj _) => true
  | _ => false
  end.

Definition records_ok (w : world) : bool :=
  forallb record_ok (idempotency_records w).

(** the response create_ticket builds for a ticket *)
Definition ticket_response (t : Ticket.t) : list (string * json) :=
  [("ticket",
    JObj [("id", JInt (Ticket.id t));
          ("customer_id", JInt (Ticket.customer_id t));
          ("title", JStr (Ticket.title t));
          ("priority", JStr (Ticket.priority t));
          ("created_at", JStr (isoformat (Ticket.created_at t) ++ "Z"))])].

(** ** Further vocabulary *)

(** the name a route logs under: the local [tool] of its handler *)
Definition route_name (req : request) : string :=
  match req with
  | SearchCustomer _ => "search_customer"
  | CreateTicket _ _ => "create_ticket"
  | UpdateCustomerStatus _ => "update_customer_status"
  | Confirm _ _ => "confirm"
  | SendMessage _ => "send_message"
  | GetIncidentImpact _ => "get_incident_impact"
  end.

(** the columns of a pending action no handler assigns after the insert *)
Definition pending_core (p : PendingAction.t)
  : string * string * string * datetime :=
  (PendingAction.id p, PendingAction.action_type p,
   PendingAction.payload_json p, PendingAction.created_at p).

(** the columns of a customer no handler assigns *)
Definition customer_core (c : Customer.t) : Z * string :=
  (Customer.id c, Customer.name c).

Definition record_pair (r : IdempotencyRecord.t) : string * string :=
  (IdempotencyRecord.tool r, IdempotencyRecord.key r).

(** the uniqueness constraints of models.py: the primary keys and
    [uq_tool_key] *)
Definition db_unique (w : world) : Prop :=
  NoDup (map Customer.id (customers w))
  /\ NoDup (map Ticket.id (tickets w))
  /\ NoDup (map IdempotencyRecord.id (idempotency_records w))
  /\ NoDup (map record_pair (idempotency_records w))
  /\ NoDup (map PendingAction.id (pending_actions w)).

(** [w'] holds everything [w] holds: the rows of [w] are still there, in
    place, with the columns no handler assigns, and the audit file has only
    grown *)
Definition extends (w w' : world) : Prop :=
  (exists new, map customer_core (customers w')
               = (map customer_core (customers w) ++ new)%list)
  /\ (exists new, tickets w' = (tickets w ++ new)%list)
  /\ (exists new, idempotency_records w'
                  = (idempotency_records w ++ new)%list)
  /\ (exists new, map pending_core (pending_actions w')
                  = (map pending_core (pending_actions w) ++ new)%list)
  /\ (exists more, audit_log w' = audit_log w ++ more).

(** [c in s] for a character *)
Fixpoint has_char (c : ascii) (s : string) : bool :=
  match s with
  | EmptyString => false
  | String x r => Ascii.eqb x c || has_char c r
  end.


(** ** main.py: the API key and the rate limit

    [time.time()] answers a float; the limiter only subtracts two readings
    and compares the difference with the window.  The readings are kept
    abstract: [window_passed now t] stands for [(now - t) > window] with
    [window = 60.0]. *)

(** [API_KEY = os.getenv("API_KEY", "dev-key")] *)
Definition API_KEY (env : option string) : string :=
  match env with
  | Some v => v
  | None => "dev-key"
  end.

Definition RATE_LIMIT_PER_MIN : nat := 60.

Section Auth.

Variable float : Type.
Variable window_passed : float -> float -> bool.

(** [_request_times]: a [defaultdict(deque)] from API key to readings *)
Definition request_times : Type := list (string * list float).

(** the queue under [key]; an absent key stands for an empty queue *)
Fixpoint times_get (times : request_times) (key : string) : list float :=
  match times with
  | [] => []
  | (k, q) :: r => if String.eqb k key then q else times_get r key
  end.

Fixpoint times_set (times : request_times) (key : string) (q : list float)
  : request_times :=
  match times with
  | [] => [(key, q)]
  | (k, q') :: r =>
      if String.eqb k key then (k, q) :: r else (k, q') :: times_set r key q
  end.

(** [while q and (now - q[0]) > window: q.popleft()] *)
Fixpoint drop_expired (now : float) (q : list float) : list float :=
  match q with
  | [] => []
  | t :: r => if window_passed now t then drop_expired now r else q
  end.

Definition require_api_key (env : option string) (x_api_key : string)
    (now : float) (times : request_times) : outcome unit * request_times :=
  (* Auth *)
  if negb (Py.truthy x_api_key) || negb (String.eqb x_api_key (API_KEY env))
  then (Raise (HTTPException 401 "Invalid or missing X-API-Key"), times)
  else
    (* Rate limit (sliding window 60s) *)
    let q := drop_expired now (times_get times x_api_key) in
    if Nat.leb RATE_LIMIT_PER_MIN (List.length q)
    then (Raise (HTTPException 429 "Rate limit exceeded"),
          times_set times x_api_key q)
    else (Return tt, times_set times x_api_key (q ++ [now])).

(** the constraints of the request schemas, [Field(..., min_length=n)] *)
Definition valid_body (req : request) : bool :=
  match req with
  | SearchCustomer p =>
      Nat.leb 1 (String.length (SearchCustomerIn.query p))
  | CreateTicket p _ =>
      Nat.leb 3 (String.length (CreateTicketIn.title p))
  | UpdateCustomerStatus p =>
      Nat.leb 2 (String.length (UpdateCustomerStatusIn.new_status p))
  | Confirm _ _ => true
  | SendMessage p =>
      Nat.leb 1 (String.length (SendMessageIn.channel p))
      && Nat.leb 1 (String.length (SendMessageIn.message p))
  | GetIncidentImpact _ => true
  end.

(** a route with [dependencies=[Depends(require_api_key)]]: the key is
    checked before [get_db] and the handler run.  A body that fails its
    schema is answered 422 once the dependencies have run, and the handler
    is not called; of that answer only the status is kept here. *)
Definition endpoint (env : option string) (amb : ambient)
    (x_api_key : string) (now : float) (req : request)
    (st : request_times * world) : outcome json * (request_times * world) :=
  match require_api_key env x_api_key now (fst st) with
  | (Raise e, times) => (Raise e, (times, snd st))
  | (Return _, times) =>
      if valid_body req then
        let (r, w) := serve amb req (snd st) in (r, (times, w))
      else
        match (if uses_db req then seed_if_empty else ret tt) (snd st) with
        | (Raise e, w) => (Raise e, (times, w))
        | (Return _, w) =>
            (Raise (HTTPException 422 "Unprocessable Entity"), (times, w))
        end
  end.

(** the limiter after a sequence of calls, each with its key and reading *)
Fixpoint run_auth (env : option string) (calls : list (string * float))
    (times : request_times) : request_times :=
  match calls with
  | [] => times
  | (key, now) :: rest =>
      run_auth env rest (snd (require_api_key env key now times))
  end.

End Auth.

Arguments times_get {float} times key.
Arguments times_set {float} times key q.
Arguments drop_expired {float} window_passed now q.
Arguments require_api_key {float} window_passed env x_api_key now times.
Arguments endpoint {float} window_passed env amb x_api_key now req st.
Arguments run_auth {float} window_passed env calls times.

(** the line feed *)
Definition nl : ascii := ascii_of_N 10.

(** ** More worlds and requests the statements are tried on *)

(** readings in seconds, as integers *)
Definition ex_window_passed (now t : Z) : bool := 60 <? now - t.

Definition ex_acme : Customer.t := Customer.mk 1 "ACME AB" "Active".


Definition ex_message : SendMessageIn.t :=
  SendMessageIn.mk "#support" "Created ticket for ACME AB.".

(** sixty readings one second apart *)
Definition ex_readings : list Z := map Z.of_nat (seq 0 60).

(** ** client/agent.py

    The client talks to the server of this file: a [post] is one request
    served by [endpoint], and [raise_for_status] turns every answer that is
    not a success into an [HTTPError].  The terminal is kept as the list of
    what was written to it and the lines still to be read from it. *)

Inductive client_exn : Type :=
| HTTPError (status_code : Z)
| ClientKeyError (k : string)      (* [d[k]] on a response without [k] *)
| ClientTypeError                  (* a response of an unexpected shape *)
| EOFError.                        (* [input()] at the end of the input *)

Inductive result (A : Type) : Type :=
| Done (a : A)
| Failed (e : client_exn).
Arguments Done {A} a.
Arguments Failed {A} e.

(** what reaches the terminal: the arguments of a [print], the prompt of an
    [input] *)
Inductive written : Type :=
| Printed (args : list json)
| Prompt (text : string).

(** [s.rstrip(c)] for one character *)
Fixpoint rstrip_char (c : ascii) (s : string) : string :=
  match s with
  | EmptyString => EmptyString
  | String x r =>
      let r' := rstrip_char c r in
      if Ascii.eqb x c
      then match r' with EmptyString => EmptyString | _ => String x r' end
      else String x r'
  end.

Module ToolClient.
Record t : Type := mk { base_url : string; api_key : string }.
(** [__init__]; [headers] is [{"X-API-Key": api_key}] *)
Definition init (base_url api_key : string) : t :=
  mk (rstrip_char "/" base_url) api_key.
End ToolClient.

Section Client.

Variable float : Type.
Variable window_passed : float -> float -> bool.
Variable env : option string.                (* API_KEY at the server *)
Variable supply : nat -> ambient * float.    (* what the n-th request finds *)

Record net : Type := mk_net {
  server : request_times float * world;
  posts : nat;
  stdout : list written;
  stdin : list string
}.

Definition C (A : Type) : Type := net -> result A * net.

Definition cret {A} (a : A) : C A := fun n => (Done a, n).
Definition cfail {A} (e : client_exn) : C A := fun n => (Failed e, n).
Definition cbind {A B} (m : C A) (k : A -> C B) : C B :=
  fun n =>
    match m n with
    | (Done a, n') => k a n'
    | (Failed e, n') => (Failed e, n')
    end.

(** [print] with its arguments *)
Definition print (args : list json) : C unit :=
  fun n => (Done tt, mk_net (server n) (posts n)
                       (stdout n ++ [Printed args]) (stdin n)).

(** [input(prompt)] *)
Definition input (prompt : string) : C string :=
  fun n =>
    let n' := mk_net (server n) (posts n) (stdout n ++ [Prompt prompt]) in
    match stdin n with
    | line :: rest => (Done line, n' rest)
    | [] => (Failed EOFError, n' [])
    end.

(** [ToolClient.post]: the request, [raise_for_status], [r.json()] *)
Definition post (client : ToolClient.t) (req : request) : C json :=
  fun n =>
    let (amb, now) := supply (posts n) in
    let (r, st) :=
      endpoint window_passed env amb (ToolClient.api_key client) now req
        (server n) in
    let n' := mk_net st (S (posts n)) (stdout n) (stdin n) in
    match r with
    | Return j => (Done j, n')
    | Raise _ => (Failed (HTTPError (http_status r)), n')
    end.

Definition client_search_customer (client : ToolClient.t) (query : string)
  : C json :=
  post client (SearchCustomer (SearchCustomerIn.mk query)).

Definition client_create_ticket (client : ToolClient.t) (customer_id : Z)
    (title description priority : string) (idem_key : option string) : C json :=
  post client
    (CreateTicket (CreateTicketIn.mk customer_id title description priority)
       (given idem_key)).

Definition client_update_customer_status (client : ToolClient.t)
    (customer_id : Z) (new_status : string) (confirm : bool) : C json :=
  post client
    (UpdateCustomerStatus
       (UpdateCustomerStatusIn.mk customer_id new_status confirm)).

Definition client_confirm (client : ToolClient.t) (pending_action_id : string)
    (approve : bool) : C json :=
  post client (Confirm pending_action_id (ConfirmIn.mk approve)).

Definition client_send_message (client : ToolClient.t)
    (channel message : string) : C json :=
  post client (SendMessage (SendMessageIn.mk channel message)).

(** [d[k]] and [d.get(k, default)] on a response *)
Definition item (d : json) (k : string) : C json :=
  match d with
  | JObj l =>
      match dict_get l k with
      | Some v => cret v
      | None => cfail (ClientKeyError k)
      end
  | _ => cfail ClientTypeError
  end.

Definition get_or (d : json) (k : string) (default : json) : C json :=
  match d with
  | JObj l =>
      match dict_get l k with
      | Some v => cret v
      | None => cret default
      end
  | _ => cfail ClientTypeError
  end.

(** the truth value of a response value *)
Definition json_truthy (v : json) : bool :=
  match v with
  | JNull => false
  | JBool b => b
  | JInt z => negb (z =? 0)
  | JStr s => Py.truthy s
  | JArr l => match l with [] => false | _ => true end
  | JObj l => match l with [] => false | _ => true end
  end.

Definition as_int (v : json) : C Z :=
  match v with JInt z => cret z | _ => cfail ClientTypeError end.

Definition as_str (v : json) : C string :=
  match v with JStr s => cret s | _ => cfail ClientTypeError end.

Notation "x <~ m ;; k" := (cbind m (fun x => k))
  (at level 61, m at next level, right associativity).
Notation "m ;;; k" := (cbind m (fun _ => k))
  (at level 61, right associativity).

Definition run_simple_ops_flow (client : ToolClient.t)
    (customer_name idem_key : string) (auto_approve : bool) : C unit :=
  (* 1) find the customer *)
  res <~ client_search_customer client customer_name ;;
  results <~ get_or res "results" (JArr []) ;;
  if negb (json_truthy results) then
    print [JStr "Hittade ingen kund som matchar:"; JStr customer_name]
  else
    customer <~ match results with
                | JArr (c :: _) => cret c
                | _ => cfail ClientTypeError
                end ;;
    print [JStr "Kund:"; customer] ;;;
    (* 2) create the ticket (idempotent) *)
    cid <~ (v <~ item customer "id" ;; as_int v) ;;
    ticket <~ client_create_ticket client cid
                "Customer reports latency issues"
                "Customer reports increased latency in the product. Please investigate."
                "high" (Some idem_key) ;;
    print [JStr "Ticket:"; ticket] ;;;
    (* 3) update the status (human in the loop) *)
    upd <~ client_update_customer_status client cid "Investigating" false ;;
    requires <~ get_or upd "requires_confirmation" JNull ;;
    (if json_truthy requires then
       pending_id <~ (v <~ item upd "pending_action_id" ;; as_str v) ;;
       print [JStr "Åtgärd kräver bekräftelse. Pending action:";
              JStr pending_id] ;;;
       if auto_approve then
         conf <~ client_confirm client pending_id true ;;
         print [JStr "Auto-bekräftat:"; conf]
       else
         line <~ input "Godkänn statusändring? (y/n): " ;;
         let answer := Py.lower (Py.strip line) in
         if String.eqb answer "y" then
           conf <~ client_confirm client pending_id true ;;
           print [JStr "Bekräftat:"; conf]
         else
           rej <~ client_confirm client pending_id false ;;
           print [JStr "Avböjt:"; rej]
     else print [JStr "Status uppdaterad direkt:"; upd]) ;;;
    (* 4) send the message (mock) *)
    name <~ (v <~ item customer "name" ;; as_str v) ;;
    msg <~ client_send_message client "#support"
             ("Created ticket for " ++ name
              ++ " and set status to Investigating.") ;;
    print [JStr "Meddelande:"; msg].

(** *** client/scenarios.py *)

Definition BASE_URL : string := "http://127.0.0.1:8000".
Definition CLIENT_API_KEY : string := "dev-key".  (* [API_KEY] of scenarios.py *)

Definition scenario_1 : C unit :=
  print [JStr (String "010"%char "--- Scenario 1: första körning ---")] ;;;
  let client := ToolClient.init BASE_URL CLIENT_API_KEY in
  run_simple_ops_flow client "ACME" "demo-acme-ticket-001" true.

Definition scenario_2 : C unit :=
  print [JStr (String "010"%char
                 "--- Scenario 2: samma igen (idempotency ska undvika dubblett) ---")] ;;;
  let client := ToolClient.init BASE_URL CLIENT_API_KEY in
  run_simple_ops_flow client "ACME" "demo-acme-ticket-001" true.

(** [scenario_1(); scenario_2()] *)
Definition scenarios_main : C unit :=
  scenario_1 ;;; scenario_2.

End Client.

Arguments server {float} n.
Arguments posts {float} n.
Arguments stdout {float} n.
Arguments stdin {float} n.
Arguments mk_net {float} server posts stdout stdin.
Arguments print {float} args n.
Arguments input {float} prompt n.
Arguments post {float} window_passed env supply client req n.
Arguments run_simple_ops_flow {float} window_passed env supply client
  customer_name idem_key auto_approve n.
Arguments scenario_1 {float} window_passed env supply n.
Arguments scenario_2 {float} window_passed env supply n.
Arguments scenarios_main {float} window_passed env supply n.

(** how the confirmation of [run_simple_ops_flow] is decided, and the
    lines left on the input afterwards: [auto_approve], or the line the
    operator types *)
Definition approves (auto_approve : bool) (lines : list string)
  : option (bool * list string) :=
  if auto_approve then Some (true, lines)
  else match lines with
       | line :: rest => Some (String.eqb (Py.lower (Py.strip line)) "y", rest)
       | [] => None
       end.

(** every tool of the default list passes the guard *)
Definition open_policy (amb : ambient) : Prop :=
  forall tool, In tool DEFAULT_ALLOWED -> In tool (allowed_tools amb).

(** the first customer a search for [query] lists *)
Definition first_match (query : string) (w : world) : option Customer.t :=
  find (fun c => Py.contains (Py.lower (Py.strip query))
                   (Py.lower (Customer.name c)))
       (customers w).

(** a server started on an empty database, a clock that advances one second
    per request and a new identifier each time *)
Definition ex_supply (i : nat) : ambient * Z :=
  (mk_ambient None (fun _ => mk_datetime 2024 1 15 9 30 0 0)
     ("3f2b8c1e9d4a4f6b8a7c5e2d1b0f9a" ++ Py.str_of_int (Z.of_nat i)),
   Z.of_nat i).


Definition ex_net : net Z := mk_net ([], empty_world) 0 [] [].

(** * Properties *)

(** ** Dictionaries *)

Lemma dict_get_set_same d k v : dict_get (dict_set d k v) k = Some v.
Proof.
  induction d as [|[k' v'] d IH]; simpl.
  - now rewrite String.eqb_refl.
  - destruct (String.eqb k' k) eqn:E; simpl; rewrite E; [reflexivity | exact IH].
Qed.

Lemma dict_remove_set d k v : dict_remove (dict_set d k v) k = dict_remove d k.
Proof.
  induction d as [|[k' v'] d IH]; simpl.
  - now rewrite String.eqb_refl.
  - destruct (String.eqb k' k) eqn:E; simpl; rewrite E; [reflexivity | now rewrite IH].
Qed.

Lemma dict_set_fresh d k v : dict_get d k = None -> dict_set d k v = (d ++ [(k, v)])%list.
Proof.
  induction d as [|[k' v'] d IH]; simpl; [reflexivity|].
  destruct (String.eqb k' k); [discriminate|]. intros H. now rewrite IH.
Qed.

(** ** [loads] inverts [dumps] *)

Lemma append_assoc (a b c : string) : (a ++ b) ++ c = a ++ (b ++ c).
Proof. induction a as [|x a IH]; simpl; [reflexivity | now rewrite IH]. Qed.

Lemma append_nil_r (a : string) : a ++ EmptyString = a.
Proof. induction a as [|x a IH]; simpl; [reflexivity | now rewrite IH]. Qed.

Lemma length_append (a b : string) :
  String.length (a ++ b) = (String.length a + String.length b)%nat.
Proof. induction a as [|x a IH]; simpl; [reflexivity | now rewrite IH]. Qed.

Lemma scan_escape_char c t :
  scan_string (escape_char c ++ t) = cons_char c (scan_string t).
Proof.
  destruct c as [[] [] [] [] [] [] [] []]; reflexivity.
Qed.

Lemma scan_string_escape s rest :
  scan_string (escape s ++ String dq rest) = Some (s, rest).
Proof.
  induction s as [|c s IH]; simpl.
  - reflexivity.
  - rewrite append_assoc, scan_escape_char, IH. reflexivity.
Qed.

Lemma scan_digits_stop rest :
  stops rest = true -> scan_digits rest = (Nil, rest).
Proof.
  destruct rest as [|c r]; simpl; [reflexivity|].
  destruct (digit_of_char c); [discriminate | reflexivity].
Qed.

Lemma scan_digits_uint d rest :
  stops rest = true ->
  scan_digits (NilEmpty.string_of_uint d ++ rest) = (d, rest).
Proof.
  intros H. induction d; simpl; try (rewrite IHd; reflexivity).
  now apply scan_digits_stop.
Qed.

Lemma stops_float_mark rest : stops rest = true -> float_mark rest = false.
Proof.
  destruct rest as [|c r]; simpl; [reflexivity|].
  destruct (digit_of_char c); [discriminate|].
  intros H. now apply negb_true_iff in H.
Qed.

Lemma nzhead_not_D0 d x : nzhead d <> D0 x.
Proof. induction d; simpl; try discriminate. exact IHd. Qed.

Lemma to_uint_not_D0 p x : Pos.to_uint p <> D0 x.
Proof.
  intros H.
  pose proof (DecimalPos.Unsigned.to_of (Pos.to_uint p)) as E.
  rewrite DecimalPos.Unsigned.of_to in E. simpl in E.
  rewrite H in E at 1. unfold unorm in E.
  destruct (nzhead (Pos.to_uint p)) eqn:N; try discriminate.
  - injection E as E. subst x.
    apply (DecimalPos.Unsigned.to_uint_nonzero p). exact H.
  - apply (nzhead_not_D0 _ _ N).
Qed.

Lemma scan_unsigned_pos p rest :
  stops rest = true ->
  scan_unsigned (NilEmpty.string_of_uint (Pos.to_uint p) ++ rest)
    = Some (Zpos p, rest).
Proof.
  intros H. unfold scan_unsigned.
  rewrite scan_digits_uint by assumption.
  rewrite stops_float_mark by assumption.
  assert (V : Z.of_uint (Pos.to_uint p) = Zpos p).
  { unfold Z.of_uint. now rewrite DecimalPos.Unsigned.of_to. }
  destruct (Pos.to_uint p) eqn:E; rewrite <- ?V; try reflexivity.
  - exfalso. apply (DecimalPos.Unsigned.to_uint_nonnil p E).
  - exfalso. apply (to_uint_not_D0 p _ E).
Qed.

Lemma scan_number_int z rest :
  stops rest = true ->
  scan_number (Py.str_of_int z ++ rest) = Some (z, rest).
Proof.
  intros H. unfold Py.str_of_int. destruct z as [|p|p]; simpl.
  - unfold scan_unsigned. simpl. rewrite (scan_digits_stop _ H).
    now rewrite stops_float_mark.
  - pose proof (scan_unsigned_pos p rest H) as S.
    pose proof (DecimalPos.Unsigned.to_uint_nonnil p) as N.
    destruct (Pos.to_uint p); [contradiction | ..]; exact S.
  - unfold scan_number. simpl.
    now rewrite scan_unsigned_pos.
Qed.

Lemma uint_number_head d rest :
  d <> Nil -> number_head (NilEmpty.string_of_uint d ++ rest).
Proof.
  destruct d; intros H; [contradiction| ..]; simpl;
    eexists; eexists; (split; [reflexivity|]); repeat split; reflexivity.
Qed.

Lemma int_number_head z rest : number_head (Py.str_of_int z ++ rest).
Proof.
  unfold Py.str_of_int. destruct z as [|p|p]; simpl.
  - eexists; eexists; (split; [reflexivity|]); repeat split; reflexivity.
  - apply uint_number_head, DecimalPos.Unsigned.to_uint_nonnil.
  - eexists; eexists; (split; [reflexivity|]); repeat split; reflexivity.
Qed.

Lemma dumps_head v rest : plain_head (dumps v ++ rest).
Proof.
  destruct v as [ | [] | z | s | l | l]; simpl;
    try (eexists; eexists; (split; [reflexivity|]); repeat split; reflexivity).
  destruct (int_number_head z rest) as (c & t & E & H1 & H2 & H3 & _).
  exists c, t. auto.
Qed.

Lemma skip_ws_head s : plain_head s -> skip_ws s = s.
Proof.
  intros (c & t & -> & H & _). simpl. now rewrite H.
Qed.

Lemma parse_value_number f s :
  number_head s ->
  parse_value (S f) s =
  match scan_number s with
  | Some (z, r') => Some (JInt z, r')
  | None => None
  end.
Proof.
  intros (c & t & E & _ & _ & _ & H1 & H2 & H3 & H4 & H5 & H6).
  rewrite E in H4, H5, H6. subst s. cbn [parse_value].
  rewrite H1, H2, H3, H4, H5, H6. reflexivity.
Qed.

Lemma dumps_obj l : dumps (JObj l) = "{" ++ members_text l ++ "}".
Proof. reflexivity. Qed.

Lemma dumps_arr l : dumps (JArr l) = "[" ++ items_text l ++ "]".
Proof. reflexivity. Qed.

Lemma members_text_cons kv l :
  members_text (kv :: l) =
  member_text kv ++ match l with [] => EmptyString | _ => ", " ++ members_text l end.
Proof.
  unfold members_text. destruct l; simpl; [|reflexivity].
  now rewrite append_nil_r.
Qed.

Lemma items_text_cons v l :
  items_text (v :: l) =
  dumps v ++ match l with [] => EmptyString | _ => ", " ++ items_text l end.
Proof.
  unfold items_text. destruct l; simpl; [|reflexivity].
  now rewrite append_nil_r.
Qed.

Lemma members_head l rest :
  l <> [] ->
  exists t, members_text l ++ rest = String dq t.
Proof.
  destruct l as [|kv l]; [contradiction|]. intros _.
  rewrite members_text_cons. unfold member_text, encode_str. simpl.
  eexists. reflexivity.
Qed.

Lemma dict_get_not_mem d k : Py.mem k (map fst d) = false -> dict_get d k = None.
Proof.
  induction d as [|[k' v] d IH]; simpl; [reflexivity|].
  rewrite (String.eqb_sym k k').
  destruct (String.eqb k' k); simpl; [discriminate | exact IH].
Qed.

Lemma mem_app x a b : Py.mem x (a ++ b) = Py.mem x a || Py.mem x b.
Proof. unfold Py.mem. apply existsb_app. Qed.

Lemma fold_dict_set_nodup l acc :
  nodupb (map fst l) = true ->
  (forall k, Py.mem k (map fst l) = true -> Py.mem k (map fst acc) = false) ->
  fold_left (fun a kv => dict_set a (fst kv) (snd kv)) l acc = (acc ++ l)%list.
Proof.
  revert acc. induction l as [|[k v] l IH]; intros acc Hn Hd; simpl.
  - now rewrite List.app_nil_r.
  - simpl in Hn. apply andb_true_iff in Hn as [Hk Hn].
    apply negb_true_iff in Hk.
    rewrite dict_set_fresh.
    + rewrite IH; [now rewrite <- List.app_assoc | assumption |].
      intros k' Hk'. rewrite map_app, mem_app.
      rewrite Hd.
      * change (Py.mem k' (map fst [(k, v)])) with (String.eqb k' k || false).
        rewrite orb_false_r.
        destruct (String.eqb k' k) eqn:E; [|reflexivity].
        apply String.eqb_eq in E. subst. congruence.
      * change (String.eqb k' k || Py.mem k' (map fst l) = true).
        rewrite Hk'. apply orb_true_r.
    + apply dict_get_not_mem, Hd.
      change (String.eqb k k || Py.mem k (map fst l) = true).
      now rewrite String.eqb_refl.
Qed.

Lemma dict_of_pairs_nodup l :
  nodupb (map fst l) = true -> dict_of_pairs l = l.
Proof.
  intros H. unfold dict_of_pairs.
  now rewrite fold_dict_set_nodup.
Qed.

Lemma items_plain_head l rest :
  l <> [] -> plain_head (items_text l ++ rest).
Proof.
  destruct l as [|v l]; [contradiction|]. intros _.
  rewrite items_text_cons, append_assoc. apply dumps_head.
Qed.

Lemma value_step f :
  value_ok f -> members_ok f -> items_ok f -> value_ok (S f).
Proof.
  intros IHv IHm IHi v rest Hwf Hst Hlen.
  destruct v as [ | [] | z | s | l | l].
  - reflexivity.
  - reflexivity.
  - reflexivity.
  - rewrite parse_value_number by apply int_number_head.
    cbn [dumps]. now rewrite scan_number_int.
  - cbn [dumps]. unfold encode_str. cbn [append parse_value].
    rewrite Ascii.eqb_refl, append_assoc. cbn [append].
    now rewrite scan_string_escape.
  - rewrite dumps_arr. destruct l as [|v l]; [reflexivity|].
    rewrite dumps_arr in Hlen. cbn [append String.length] in Hlen.
    rewrite length_append in Hlen. cbn [String.length] in Hlen.
    cbn [append parse_value]. rewrite append_assoc. cbn [append].
    change (Ascii.eqb "[" dq) with false. change (Ascii.eqb "[" "{") with false.
    change (Ascii.eqb "[" "[") with true. cbv iota.
    rewrite skip_ws_head by (apply items_plain_head; discriminate).
    destruct (items_plain_head (v :: l) (String "]" rest)) as (c & t & E & _ & Hc & _);
      [discriminate|].
    rewrite E, Hc, <- E.
    rewrite IHi; [reflexivity | discriminate | exact Hwf | lia].
  - rewrite dumps_obj. destruct l as [|kv l]; [reflexivity|].
    rewrite dumps_obj in Hlen. cbn [append String.length] in Hlen.
    rewrite length_append in Hlen. cbn [String.length] in Hlen.
    cbn [append parse_value]. rewrite append_assoc. cbn [append].
    change (Ascii.eqb "{" dq) with false. change (Ascii.eqb "{" "{") with true.
    cbv iota.
    destruct (members_head (kv :: l) (String "}" rest)) as (t & E); [discriminate|].
    rewrite E. cbn [skip_ws]. change (is_ws dq) with false. cbv iota.
    change (Ascii.eqb dq "}") with false. cbv iota. rewrite <- E.
    cbn [wf_json] in Hwf. apply andb_true_iff in Hwf as [Hn Hw].
    rewrite IHm; [| discriminate | exact Hw | lia].
    now rewrite dict_of_pairs_nodup.
Qed.

Lemma skip_ws_space t : skip_ws (String " " t) = skip_ws t.
Proof. reflexivity. Qed.

Lemma members_step f :
  value_ok f -> members_ok f -> members_ok (S f).
Proof.
  intros IHv IHm l rest Hne Hwf Hlen.
  destruct l as [|[k v] l]; [contradiction|]. clear Hne.
  rewrite members_text_cons in *.
  cbn [forallb snd] in Hwf. apply andb_true_iff in Hwf as [Hv Hl].
  unfold member_text, encode_str in *. cbn [fst snd] in *.
  rewrite !length_append in Hlen. cbn [append String.length] in Hlen.
  rewrite !length_append in Hlen. cbn [String.length] in Hlen.
  cbn [append parse_members].
  rewrite Ascii.eqb_refl. cbn [negb].
  rewrite !append_assoc. cbn [append].
  rewrite scan_string_escape.
  change (skip_ws (String ":" ?x)) with (String ":" x).
  cbv iota. change (Ascii.eqb ":" ":") with true. cbn [negb].
  rewrite skip_ws_space.
  rewrite skip_ws_head by apply dumps_head.
  destruct l as [|kv l].
  - cbn [append]. rewrite IHv; [| exact Hv | reflexivity | lia].
    reflexivity.
  - cbn [append]. rewrite IHv; [| exact Hv | reflexivity | lia].
    change (skip_ws (String "," ?x)) with (String "," x). cbv iota.
    change (Ascii.eqb "," "}") with false. change (Ascii.eqb "," ",") with true.
    cbv iota. rewrite skip_ws_space.
    destruct (members_head (kv :: l) (String "}" rest)) as (t & E); [discriminate|].
    rewrite E. change (skip_ws (String dq t)) with (String dq t). rewrite <- E.
    rewrite IHm; [reflexivity | discriminate | exact Hl |].
    cbn [String.length] in Hlen. lia.
Qed.

Lemma items_step f :
  value_ok f -> items_ok f -> items_ok (S f).
Proof.
  intros IHv IHi l rest Hne Hwf Hlen.
  destruct l as [|v l]; [contradiction|]. clear Hne.
  rewrite items_text_cons in *.
  cbn [forallb] in Hwf. apply andb_true_iff in Hwf as [Hv Hl].
  rewrite length_append in Hlen.
  cbn [parse_items]. rewrite append_assoc.
  destruct l as [|v' l]; cbn [append String.length] in Hlen.
  - cbn [append]. rewrite IHv; [| exact Hv | reflexivity | lia].
    reflexivity.
  - cbn [append]. rewrite IHv; [| exact Hv | reflexivity | lia].
    change (skip_ws (String "," ?x)) with (String "," x). cbv iota.
    change (Ascii.eqb "," "]") with false. change (Ascii.eqb "," ",") with true.
    cbv iota. rewrite skip_ws_space.
    rewrite skip_ws_head by (apply items_plain_head; discriminate).
    rewrite IHi; [reflexivity | discriminate | exact Hl |].
    cbn [append String.length] in Hlen. lia.
Qed.

Lemma codec_ok f : value_ok f /\ members_ok f /\ items_ok f.
Proof.
  induction f as [|f (IHv & IHm & IHi)].
  - repeat split; intros ? ? ; intros; lia.
  - split; [|split].
    + now apply value_step.
    + now apply members_step.
    + now apply items_step.
Qed.

Theorem loads_dumps v : wf_json v = true -> loads (dumps v) = Some v.
Proof.
  intros H. unfold loads.
  rewrite <- (append_nil_r (dumps v)) at 2.
  rewrite skip_ws_head by apply dumps_head.
  rewrite append_nil_r.
  rewrite <- (append_nil_r (dumps v)) at 2.
  destruct (codec_ok (S (String.length (dumps v)))) as (Hv & _).
  rewrite Hv; [reflexivity | exact H | reflexivity | lia].
Qed.

(** the texts and the lookups are not to be unfolded by simplification *)
Arguments Json.dumps : simpl never.
Arguments Json.loads : simpl never.
Arguments isoformat : simpl never.
Arguments find_customer : simpl never.
Arguments find_pending_action : simpl never.
Arguments find_idempotency_record : simpl never.
Arguments update_customer_row : simpl never.
Arguments update_pending_row : simpl never.
Arguments logged : simpl never.
Arguments log_event : simpl never.


(** ** The monad and the helpers *)

Lemma mem_In (x : string) (xs : list string) :
  Py.mem x xs = true <-> In x xs.
Proof.
  unfold Py.mem. rewrite existsb_exists. split.
  - intros [y [Hy He]]. apply String.eqb_eq in He. now subst.
  - intros H. exists x. split; [assumption | apply String.eqb_refl].
Qed.


Lemma log_event_run amb event w :
  log_event amb event w = (Return tt, logged amb event w).
Proof. reflexivity. Qed.

Lemma logged_same_db amb event w : same_db w (logged amb event w).
Proof. repeat split. Qed.

Lemma assert_allowed_ok amb tool w :
  In tool (allowed_tools amb) -> assert_allowed amb tool w = (Return tt, w).
Proof.
  intros H. apply mem_In in H. unfold assert_allowed. now rewrite H.
Qed.

Lemma tool_guard_ok amb tool w :
  In tool (allowed_tools amb) -> tool_guard amb tool w = (Return tt, w).
Proof.
  intros H. unfold tool_guard. now rewrite assert_allowed_ok.
Qed.


Lemma given_truthy key : key <> EmptyString -> given (Some key) = Some key.
Proof.
  intros H. unfold given, Py.truthy.
  destruct (String.eqb key EmptyString) eqn:E; [|reflexivity].
  apply String.eqb_eq in E. contradiction.
Qed.

(** ** Lookups after an update *)

Lemma find_map_key {A} (key : A -> bool) (f : A -> A) (l : list A) :
  (forall x, key (f x) = key x) ->
  find key (map f l) = option_map f (find key l).
Proof.
  intros H. induction l as [|x l IH]; simpl; [reflexivity|].
  rewrite H. destruct (key x); [reflexivity | exact IH].
Qed.

Lemma find_app_last {A} (key : A -> bool) (l : list A) (x : A) :
  find key (l ++ [x]) =
  match find key l with
  | Some y => Some y
  | None => if key x then Some x else None
  end.
Proof.
  induction l as [|y l IH]; simpl; [reflexivity|].
  destruct (key y); [reflexivity | exact IH].
Qed.

Lemma find_customer_id cid w cust :
  find_customer cid w = Some cust -> Customer.id cust = cid.
Proof.
  unfold find_customer. intros H. apply find_some in H as [_ H].
  now apply Z.eqb_eq.
Qed.

Lemma find_pending_action_id pid w pa :
  find_pending_action pid w = Some pa -> PendingAction.id pa = pid.
Proof.
  unfold find_pending_action. intros H. apply find_some in H as [_ H].
  now apply String.eqb_eq.
Qed.

Lemma find_customer_updated cid s w :
  find_customer cid (update_customer_row cid s w)
  = option_map (fun c => Customer.with_status c s) (find_customer cid w).
Proof.
  unfold find_customer, update_customer_row. simpl.
  rewrite find_map_key.
  - destruct (find _ (customers w)) as [c|] eqn:E; [|reflexivity].
    apply find_some in E as [_ E]. cbn [option_map]. now rewrite E.
  - intros c. destruct (Customer.id c =? cid) eqn:E; exact E.
Qed.


Lemma find_pending_updated pid s w :
  find_pending_action pid (update_pending_row pid s w)
  = option_map (fun p => PendingAction.with_status p s)
      (find_pending_action pid w).
Proof.
  unfold find_pending_action, update_pending_row. simpl.
  rewrite find_map_key.
  - destruct (find _ (pending_actions w)) as [p|] eqn:E; [|reflexivity].
    apply find_some in E as [_ E]. cbn [option_map]. now rewrite E.
  - intros p. destruct (String.eqb (PendingAction.id p) pid) eqn:E; exact E.
Qed.

Lemma find_pending_updated_other pid pid' s w :
  pid' <> pid ->
  find_pending_action pid' (update_pending_row pid s w)
  = find_pending_action pid' w.
Proof.
  intros Hne. unfold find_pending_action, update_pending_row. simpl.
  rewrite find_map_key.
  - destruct (find _ (pending_actions w)) as [p|] eqn:E; [|reflexivity].
    apply find_some in E as [_ E]. apply String.eqb_eq in E. cbn [option_map].
    destruct (String.eqb (PendingAction.id p) pid) eqn:E'; [|reflexivity].
    apply String.eqb_eq in E'. congruence.
  - intros p. destruct (String.eqb (PendingAction.id p) pid); reflexivity.
Qed.

(** ** What each handler leaves alone *)

Lemma tool_guard_cases amb tool w :
  tool_guard amb tool w = (Return tt, w) \/
  exists msg, tool_guard amb tool w = (Raise (HTTPException 403 msg), w).
Proof.
  unfold tool_guard, assert_allowed.
  destruct (negb (Py.mem tool (allowed_tools amb))); [right | left].
  - eexists. reflexivity.
  - reflexivity.
Qed.

Ltac guard_cases :=
  match goal with
  | |- context [tool_guard ?a ?t ?w] =>
      let H := fresh "Hguard" in
      destruct (tool_guard_cases a t w) as [H | [? H]]; rewrite H; cbn
  end.

(** case analysis on the innermost scrutinee first *)
Ltac split_matches :=
  repeat match goal with
         | |- context [log_event ?a ?e ?w] => rewrite (log_event_run a e w); cbn
         | |- context [match ?x with _ => _ end] =>
             lazymatch x with
             | context [match _ with _ => _ end] => fail
             | _ => destruct x eqn:?; cbn
             end
         end.

Lemma search_customer_same_db amb p w :
  same_db w (snd (search_customer amb p w)).
Proof.
  unfold search_customer, bind. guard_cases; repeat split.
Qed.

Lemma send_message_same_db amb p w :
  same_db w (snd (send_message amb p w)).
Proof.
  unfold send_message, bind. guard_cases; repeat split.
Qed.

Lemma get_incident_impact_same_db amb p w :
  same_db w (snd (get_incident_impact amb p w)).
Proof.
  unfold get_incident_impact, bind. guard_cases; repeat split.
Qed.

Lemma create_ticket_frame amb p k w :
  customers (snd (create_ticket amb p k w)) = customers w /\
  pending_actions (snd (create_ticket amb p k w)) = pending_actions w.
Proof.
  unfold create_ticket, bind. guard_cases; [|split; reflexivity].
  unfold get_cached_response, spread_with, add_ticket, store_response,
    bind, gets, ret, raise, modify, utcnow.
  destruct (given k) as [key|]; cbn; split_matches; split; reflexivity.
Qed.

Lemma seed_if_empty_returns w :
  fst (seed_if_empty w) = Return tt.
Proof.
  unfold seed_if_empty, bind, gets.
  now destruct (Nat.eqb (List.length (customers w)) 0).
Qed.

Lemma seed_if_empty_frame w :
  tickets (snd (seed_if_empty w)) = tickets w /\
  idempotency_records (snd (seed_if_empty w)) = idempotency_records w /\
  pending_actions (snd (seed_if_empty w)) = pending_actions w /\
  audit_log (snd (seed_if_empty w)) = audit_log w.
Proof.
  unfold seed_if_empty, bind, gets.
  destruct (Nat.eqb (List.length (customers w)) 0); repeat split.
Qed.

Lemma seed_if_empty_inert w :
  customers w <> [] -> seed_if_empty w = (Return tt, w).
Proof.
  intros H. unfold seed_if_empty, bind, gets.
  destruct (customers w); [contradiction | reflexivity].
Qed.

Lemma serve_world amb req w :
  snd (serve amb req w)
  = snd (handle amb req (if uses_db req then snd (seed_if_empty w) else w)).
Proof.
  unfold serve, bind. destruct (uses_db req).
  - pose proof (seed_if_empty_returns w) as H.
    destruct (seed_if_empty w) as [r w1]. simpl in H. now subst r.
  - reflexivity.
Qed.

Lemma serve_seeded amb req w :
  customers w <> [] -> serve amb req w = handle amb req w.
Proof.
  intros H. unfold serve, bind.
  destruct (uses_db req); [now rewrite seed_if_empty_inert | reflexivity].
Qed.

(** the three things a request can do to the pending actions: nothing,
    append a pending one under a new identifier, or set the status of one
    that was pending *)
Lemma update_customer_status_pending amb p w :
  pending_actions (snd (update_customer_status amb p w)) = pending_actions w
  \/
  (exists cust,
     find_customer (UpdateCustomerStatusIn.customer_id p) w = Some cust
     /\ find_pending_action (uuid4_hex amb) w = None
     /\ customers (snd (update_customer_status amb p w)) = customers w
     /\ pending_actions (snd (update_customer_status amb p w))
        = (pending_actions w ++
           [PendingAction.mk (uuid4_hex amb) "update_customer_status"
              (PendingAction.dumps (UpdateCustomerStatusIn.model_dump p))
              "pending" (utcnow_at amb (clock_reads w))])%list).
Proof.
  unfold update_customer_status, bind. guard_cases; [|now left].
  destruct (find_customer (UpdateCustomerStatusIn.customer_id p) w)
    as [cust|] eqn:Hc; cbn; [|now left].
  destruct (UpdateCustomerStatusIn.confirm p); cbn; [now left|].
  unfold add_pending_action, bind, utcnow, gets.
  change (find_pending_action (uuid4_hex amb)
            (set_clock_reads w (S (clock_reads w))))
    with (find_pending_action (uuid4_hex amb) w).
  destruct (find_pending_action (uuid4_hex amb) w) eqn:Hf; cbn; [now left|].
  right. exists cust. repeat split.
Qed.

Lemma confirm_action_pending amb pid p w :
  pending_actions (snd (confirm_action amb pid p w)) = pending_actions w
  \/
  (exists pa s,
     find_pending_action pid w = Some pa
     /\ PendingAction.status pa = "pending"
     /\ pending_actions (snd (confirm_action amb pid p w))
        = pending_actions (update_pending_row pid s w)).
Proof.
  unfold confirm_action, bind, gets.
  destruct (find_pending_action pid w) as [pa|] eqn:Hf; cbn; [|now left].
  rewrite (find_pending_action_id _ _ _ Hf).
  destruct (String.eqb (PendingAction.status pa) "pending") eqn:Hs; cbn;
    [|now left].
  apply String.eqb_eq in Hs.
  unfold subscript, as_id, strip_value, bind, gets, ret, raise, modify.
  split_matches.
  all: try (now left).
  all: right; exists pa; eexists;
    (split; [reflexivity | split; [exact Hs | reflexivity]]).
Qed.

Lemma find_pending_ext pid w1 w2 :
  pending_actions w1 = pending_actions w2 ->
  find_pending_action pid w1 = find_pending_action pid w2.
Proof. unfold find_pending_action. now intros ->. Qed.

Lemma handle_pending amb req w :
  pending_actions (snd (handle amb req w)) = pending_actions w
  \/
  (exists p cust,
     req = UpdateCustomerStatus p
     /\ find_customer (UpdateCustomerStatusIn.customer_id p) w = Some cust
     /\ find_pending_action (uuid4_hex amb) w = None
     /\ customers (snd (handle amb req w)) = customers w
     /\ pending_actions (snd (handle amb req w))
        = (pending_actions w ++
           [PendingAction.mk (uuid4_hex amb) "update_customer_status"
              (PendingAction.dumps (UpdateCustomerStatusIn.model_dump p))
              "pending" (utcnow_at amb (clock_reads w))])%list)
  \/
  (exists pid pa s,
     find_pending_action pid w = Some pa
     /\ PendingAction.status pa = "pending"
     /\ pending_actions (snd (handle amb req w))
        = pending_actions (update_pending_row pid s w)).
Proof.
  destruct req as [p | p k | p | pid p | p | p]; cbn [handle].
  - left. apply search_customer_same_db.
  - left. apply create_ticket_frame.
  - destruct (update_customer_status_pending amb p w) as [H | (cust & H)].
    + now left.
    + right. left. exists p, cust. split; [reflexivity | exact H].
  - destruct (confirm_action_pending amb pid p w) as [H | (pa & s & H)].
    + now left.
    + right. right. now exists pid, pa, s.
  - left. apply send_message_same_db.
  - left. apply get_incident_impact_same_db.
Qed.

Lemma find_pending_updated_gen pid pid' s w :
  find_pending_action pid (update_pending_row pid' s w)
  = option_map
      (fun p => if String.eqb (PendingAction.id p) pid'
                then PendingAction.with_status p s else p)
      (find_pending_action pid w).
Proof.
  unfold find_pending_action, update_pending_row. simpl.
  apply find_map_key.
  intros p. now destruct (String.eqb (PendingAction.id p) pid').
Qed.

(** ** Stored payloads are readable *)

Lemma payload_round_trip (p : UpdateCustomerStatusIn.t) :
  PendingAction.loads
    (PendingAction.dumps (UpdateCustomerStatusIn.model_dump p))
  = Some (UpdateCustomerStatusIn.model_dump p).
Proof. apply loads_dumps. reflexivity. Qed.

Lemma payload_ok_created pid ty (p : UpdateCustomerStatusIn.t) st t :
  payload_ok
    (PendingAction.mk pid ty
       (PendingAction.dumps (UpdateCustomerStatusIn.model_dump p)) st t)
  = true.
Proof.
  unfold payload_ok. cbn [PendingAction.payload_json].
  now rewrite payload_round_trip.
Qed.

Lemma payload_ok_with_status pa s :
  payload_ok (PendingAction.with_status pa s) = payload_ok pa.
Proof. reflexivity. Qed.

Lemma pending_ok_find pid pa w :
  pending_ok w = true -> find_pending_action pid w = Some pa ->
  payload_ok pa = true.
Proof.
  unfold pending_ok, find_pending_action. intros H F.
  apply find_some in F as [F _].
  rewrite forallb_forall in H. now apply H.
Qed.

Lemma pending_ok_ext w w' :
  pending_actions w' = pending_actions w -> pending_ok w' = pending_ok w.
Proof. unfold pending_ok. now intros ->. Qed.

Lemma handle_pending_ok amb req w :
  pending_ok w = true -> pending_ok (snd (handle amb req w)) = true.
Proof.
  intros H.
  destruct (handle_pending amb req w)
    as [E | [(p & cust & _ & _ & _ & _ & E) | (pid & pa & s & _ & _ & E)]].
  - now rewrite (pending_ok_ext _ _ E).
  - unfold pending_ok in *. rewrite E, forallb_app, H. cbn [forallb].
    now rewrite payload_ok_created.
  - unfold pending_ok in *. rewrite E. unfold update_pending_row. simpl.
    rewrite forallb_forall in *. intros x Hx.
    apply in_map_iff in Hx as (y & <- & Hy).
    destruct (String.eqb (PendingAction.id y) pid);
      [rewrite payload_ok_with_status|]; now apply H.
Qed.

Lemma serve_pending_ok amb req w :
  pending_ok w = true -> pending_ok (snd (serve amb req w)) = true.
Proof.
  intros H. rewrite serve_world. apply handle_pending_ok.
  destruct (uses_db req); [|exact H].
  rewrite (pending_ok_ext w (snd (seed_if_empty w))); [exact H|].
  apply seed_if_empty_frame.
Qed.

(** every world the server reaches from an empty database stores readable
    payloads *)
Lemma run_pending_ok reqs w :
  pending_ok w = true -> pending_ok (run reqs w) = true.
Proof.
  revert w. induction reqs as [|[amb req] reqs IH]; intros w H; simpl.
  - exact H.
  - apply IH. now apply serve_pending_ok.
Qed.

Lemma reachable_pending_ok reqs : pending_ok (run reqs empty_world) = true.
Proof. now apply run_pending_ok. Qed.

(** ** Resolution of a pending action: the paths of [confirm_action] *)

Section Confirm.

Variable amb : ambient.
Variables (pid : string) (pa : PendingAction.t) (w : world).
Hypothesis Hfind : find_pending_action pid w = Some pa.

Lemma confirm_not_found payload w0 :
  find_pending_action pid w0 = None ->
  confirm_action amb pid payload w0
  = (Raise (HTTPException 404 "Pending action not found"), w0).
Proof.
  intros H. unfold confirm_action, bind, gets. now rewrite H.
Qed.

Lemma confirm_not_pending payload :
  PendingAction.status pa <> "pending" ->
  confirm_action amb pid payload w
  = (Raise (HTTPException 409
              ("Pending action already " ++ PendingAction.status pa)), w).
Proof.
  intros H. apply String.eqb_neq in H.
  unfold confirm_action, bind, gets. now rewrite Hfind, H.
Qed.

Hypothesis Hpending : PendingAction.status pa = "pending".

Lemma confirm_reject :
  confirm_action amb pid (ConfirmIn.mk false) w
  = (Return (JObj [("ok", JBool true); ("status", JStr "rejected")]),
     logged amb [("tool", JStr "confirm"); ("pending_action_id", JStr pid);
                 ("result", JStr "rejected")]
       (update_pending_row pid "rejected" w)).
Proof.
  unfold confirm_action, bind, gets. rewrite Hfind, Hpending.
  rewrite (find_pending_action_id _ _ _ Hfind). reflexivity.
Qed.

Variable data : json.
Hypothesis Hloads :
  PendingAction.loads (PendingAction.payload_json pa) = Some data.

Lemma confirm_unknown_type :
  PendingAction.action_type pa <> "update_customer_status" ->
  confirm_action amb pid (ConfirmIn.mk true) w
  = (Raise (HTTPException 400
              ("Unknown action_type: " ++ PendingAction.action_type pa)),
     update_pending_row pid "rejected" w).
Proof.
  intros H. apply String.eqb_neq in H.
  unfold confirm_action, bind, gets. rewrite Hfind, Hpending, Hloads, H.
  rewrite (find_pending_action_id _ _ _ Hfind). reflexivity.
Qed.

Hypothesis Htype : PendingAction.action_type pa = "update_customer_status".
Variables (d : list (string * json)) (cid : Z).
Hypothesis Hdata : data = JObj d.
Hypothesis Hcid : dict_get d "customer_id" = Some (JInt cid).

Lemma confirm_customer_gone :
  find_customer cid w = None ->
  confirm_action amb pid (ConfirmIn.mk true) w
  = (Raise (HTTPException 404 "Customer not found during confirm"),
     update_pending_row pid "rejected" w).
Proof.
  intros H.
  unfold confirm_action, bind, gets. rewrite Hfind, Hpending, Hloads, Htype.
  rewrite Hdata. cbn. rewrite Hcid. cbn. rewrite H.
  rewrite (find_pending_action_id _ _ _ Hfind). reflexivity.
Qed.

Lemma confirm_applies cust s :
  find_customer cid w = Some cust ->
  dict_get d "new_status" = Some (JStr s) ->
  confirm_action amb pid (ConfirmIn.mk true) w
  = (Return (JObj [("ok", JBool true); ("status", JStr "confirmed");
                   ("customer",
                    Customer.to_dict (Customer.with_status cust (Py.strip s)))]),
     logged amb [("tool", JStr "confirm"); ("pending_action_id", JStr pid);
                 ("result", JStr "confirmed"); ("customer_id", JInt cid)]
       (update_pending_row pid "confirmed"
          (update_customer_row cid (Py.strip s) w))).
Proof.
  intros Hc Hs.
  unfold confirm_action, bind, gets. rewrite Hfind, Hpending, Hloads, Htype.
  rewrite Hdata. cbn. rewrite Hcid. cbn. rewrite Hc. rewrite Hs. cbn.
  rewrite (find_pending_action_id _ _ _ Hfind).
  rewrite (find_customer_id _ _ _ Hc). reflexivity.
Qed.

End Confirm.

(** ** The first resolution settles a pending action *)

Lemma first_resolve_settles amb pid payload pa w :
  find_pending_action pid w = Some pa ->
  PendingAction.status pa = "pending" ->
  payload_ok pa = true ->
  exists s,
    s <> "pending" /\
    find_pending_action pid (snd (confirm_action amb pid payload w))
    = Some (PendingAction.with_status pa s).
Proof.
  intros Hfind Hpending Hok.
  destruct payload as [[|]].
  - unfold payload_ok in Hok.
    destruct (PendingAction.loads (PendingAction.payload_json pa))
      as [[ | | | | |d]|] eqn:Hloads; try discriminate.
    destruct (dict_get d "customer_id") as [[ | |cid| | | ]|] eqn:Hcid;
      try discriminate.
    destruct (dict_get d "new_status") as [[ | | |s| | ]|] eqn:Hs;
      try discriminate.
    destruct (String.eqb (PendingAction.action_type pa) "update_customer_status")
      eqn:Htype.
    + apply String.eqb_eq in Htype.
      destruct (find_customer cid w) as [cust|] eqn:Hcust.
      * exists "confirmed". split; [discriminate|].
        rewrite (confirm_applies amb pid pa w Hfind Hpending _ Hloads Htype
                   d cid eq_refl Hcid cust s Hcust Hs).
        cbn [snd].
        change (find_pending_action pid
                  (logged amb ?e (update_pending_row ?p ?t
                     (update_customer_row ?c ?u w))))
          with (find_pending_action pid (update_pending_row p t w)).
        now rewrite find_pending_updated, Hfind.
      * exists "rejected". split; [discriminate|].
        rewrite (confirm_customer_gone amb pid pa w Hfind Hpending _ Hloads
                   Htype d cid eq_refl Hcid Hcust).
        cbn [snd]. now rewrite find_pending_updated, Hfind.
    + apply String.eqb_neq in Htype.
      exists "rejected". split; [discriminate|].
      rewrite (confirm_unknown_type amb pid pa w Hfind Hpending _ Hloads Htype).
      cbn [snd]. now rewrite find_pending_updated, Hfind.
  - exists "rejected". split; [discriminate|].
    rewrite (confirm_reject amb pid pa w Hfind Hpending). cbn [snd].
    change (find_pending_action pid (logged amb ?e ?w0))
      with (find_pending_action pid w0).
    now rewrite find_pending_updated, Hfind.
Qed.

Lemma confirm_returns amb pid payload w r w' :
  confirm_action amb pid payload w = (Return r, w') ->
  exists pa,
    find_pending_action pid w = Some pa
    /\ PendingAction.status pa = "pending"
    /\ find_pending_action pid w'
       = Some (PendingAction.with_status pa
                 (resolved_status (ConfirmIn.approve payload))).
Proof.
  unfold confirm_action, bind, gets.
  destruct (find_pending_action pid w) as [pa|] eqn:Hfind; [|discriminate].
  rewrite (find_pending_action_id _ _ _ Hfind).
  destruct (String.eqb (PendingAction.status pa) "pending") eqn:Hs;
    cbn [negb]; [|discriminate].
  apply String.eqb_eq in Hs.
  destruct payload as [[|]]; cbn [ConfirmIn.approve negb resolved_status].
  - unfold subscript, as_id, strip_value, bind, gets, ret, raise, modify.
    split_matches; try discriminate.
    intros E. injection E as _ <-. exists pa. repeat split; [exact Hs|].
    change (find_pending_action pid
              (logged amb ?e (update_pending_row ?p ?t
                 (update_customer_row ?c ?u w))))
      with (find_pending_action pid (update_pending_row p t w)).
    now rewrite find_pending_updated, Hfind.
  - unfold modify. rewrite log_event_run. intros E. injection E as _ <-.
    exists pa. repeat split; [exact Hs|].
    change (find_pending_action pid (logged amb ?e ?w0))
      with (find_pending_action pid w0).
    now rewrite find_pending_updated, Hfind.
Qed.

Lemma second_resolve_fails amb1 amb2 pid p1 p2 w :
  (forall pa, find_pending_action pid w = Some pa -> payload_ok pa = true) ->
  exists code detail,
    confirm_action amb2 pid p2 (snd (confirm_action amb1 pid p1 w))
    = (Raise (HTTPException code detail), snd (confirm_action amb1 pid p1 w))
    /\ (code = 404 \/ code = 409).
Proof.
  intros Hok.
  destruct (find_pending_action pid w) as [pa|] eqn:Hfind.
  - destruct (String.eqb (PendingAction.status pa) "pending") eqn:Hs.
    + apply String.eqb_eq in Hs.
      destruct (first_resolve_settles amb1 pid p1 pa w Hfind Hs (Hok pa eq_refl))
        as (s & Hne & Hafter).
      exists 409. eexists. split; [|now right].
      now apply (confirm_not_pending amb2 pid _ _ Hafter).
    + apply String.eqb_neq in Hs.
      rewrite (confirm_not_pending amb1 pid pa w Hfind p1 Hs). cbn [snd].
      exists 409. eexists. split; [|now right].
      exact (confirm_not_pending amb2 pid pa w Hfind p2 Hs).
  - rewrite (confirm_not_found amb1 pid p1 w Hfind). cbn [snd].
    exists 404. eexists. split; [|now left].
    now apply confirm_not_found.
Qed.

Lemma resolved_stays amb req w pid pa :
  find_pending_action pid w = Some pa ->
  PendingAction.status pa <> "pending" ->
  find_pending_action pid (snd (handle amb req w)) = Some pa.
Proof.
  intros Hfind Hs.
  destruct (handle_pending amb req w)
    as [E | [(p & cust & _ & _ & _ & _ & E) | (pid' & pa' & s & Hf' & Hs' & E)]].
  - now rewrite (find_pending_ext pid _ _ E).
  - unfold find_pending_action in *. rewrite E, find_app_last. now rewrite Hfind.
  - rewrite (find_pending_ext pid _ _ E), find_pending_updated_gen, Hfind.
    cbn [option_map]. rewrite (find_pending_action_id _ _ _ Hfind).
    destruct (String.eqb pid pid') eqn:Heq; [|reflexivity].
    apply String.eqb_eq in Heq. subst pid'. congruence.
Qed.

Lemma resolved_stays_serve amb req w pid pa :
  find_pending_action pid w = Some pa ->
  PendingAction.status pa <> "pending" ->
  find_pending_action pid (snd (serve amb req w)) = Some pa.
Proof.
  intros Hfind Hs. rewrite serve_world. apply resolved_stays; [|exact Hs].
  destruct (uses_db req); [|exact Hfind].
  rewrite (find_pending_ext pid _ w); [exact Hfind|].
  apply seed_if_empty_frame.
Qed.


(** ** Stored responses are readable *)

Lemma response_round_trip (t : Ticket.t) :
  IdempotencyRecord.loads (IdempotencyRecord.dumps (JObj (ticket_response t)))
  = Some (JObj (ticket_response t)).
Proof. apply loads_dumps. reflexivity. Qed.

Lemma find_record_ext tool key w1 w2 :
  idempotency_records w1 = idempotency_records w2 ->
  find_idempotency_record tool key w1 = find_idempotency_record tool key w2.
Proof. unfold find_idempotency_record. now intros ->. Qed.

(** create_ticket leaves the records alone or appends the dumped response
    of the ticket it created *)
Lemma create_ticket_records amb p k w :
  idempotency_records (snd (create_ticket amb p k w)) = idempotency_records w
  \/
  (exists key t rec,
     given k = Some key
     /\ find_idempotency_record "create_ticket" key w = None
     /\ IdempotencyRecord.tool rec = "create_ticket"
     /\ IdempotencyRecord.key rec = key
     /\ IdempotencyRecord.response_json rec
        = IdempotencyRecord.dumps (JObj (ticket_response t))
     /\ idempotency_records (snd (create_ticket amb p k w))
        = (idempotency_records w ++ [rec])%list).
Proof.
  unfold create_ticket, bind. guard_cases; [|now left].
  unfold get_cached_response, spread_with, add_ticket, store_response,
    bind, gets, ret, raise, modify, utcnow.
  destruct (given k) as [key|] eqn:Hk; cbn.
  - destruct (find_idempotency_record "create_ticket" key w) as [r|] eqn:Hr; cbn.
    + split_matches; try (left; reflexivity).
      all: exfalso; unfold find_idempotency_record in *;
        cbn [idempotency_records set_clock_reads set_tickets] in *; congruence.
    + destruct (find_customer (CreateTicketIn.customer_id p) w); cbn;
        [|now left].
      change (find_idempotency_record "create_ticket" key
                (set_clock_reads ?w0 ?n))
        with (find_idempotency_record "create_ticket" key w0).
      change (find_idempotency_record "create_ticket" key
                (set_tickets ?w0 ?n))
        with (find_idempotency_record "create_ticket" key w0).
      change (find_idempotency_record "create_ticket" key
                (set_clock_reads ?w0 ?n))
        with (find_idempotency_record "create_ticket" key w0).
      rewrite Hr. cbn. rewrite log_event_run. cbn.
      right.
      exists key,
        (Ticket.mk (next_id (map Ticket.id (tickets w)))
           (Py.strip (CreateTicketIn.title p))
           (Py.strip (CreateTicketIn.description p))
           (Py.lower (Py.strip (CreateTicketIn.priority p)))
           (utcnow_at amb (clock_reads w)) (CreateTicketIn.customer_id p)).
      eexists. split; [reflexivity|]. split; [exact Hr|].
      split; [|split; [|split]]; [| | |reflexivity]; reflexivity.
  - destruct (find_customer (CreateTicketIn.customer_id p) w); cbn;
      [|now left].
    rewrite log_event_run. now left.
Qed.

Lemma update_customer_status_records amb p w :
  idempotency_records (snd (update_customer_status amb p w))
  = idempotency_records w.
Proof.
  unfold update_customer_status, bind. guard_cases; [|reflexivity].
  unfold add_pending_action, bind, gets, ret, raise, modify, utcnow.
  split_matches; reflexivity.
Qed.

Lemma confirm_action_records amb pid p w :
  idempotency_records (snd (confirm_action amb pid p w))
  = idempotency_records w.
Proof.
  unfold confirm_action, subscript, as_id, strip_value,
    bind, gets, ret, raise, modify.
  split_matches; reflexivity.
Qed.

Lemma handle_records_ok amb req w :
  records_ok w = true -> records_ok (snd (handle amb req w)) = true.
Proof.
  intros H. unfold records_ok in *.
  destruct req as [p | p k | p | pid p | p | p]; cbn [handle].
  - now rewrite (proj1 (proj2 (proj2 (search_customer_same_db amb p w)))).
  - destruct (create_ticket_records amb p k w)
      as [E | (key & t & rec & _ & _ & _ & _ & Hj & E)]; rewrite E.
    + exact H.
    + rewrite forallb_app, H. cbn [forallb]. unfold record_ok.
      now rewrite Hj, response_round_trip.
  - now rewrite update_customer_status_records.
  - now rewrite confirm_action_records.
  - now rewrite (proj1 (proj2 (proj2 (send_message_same_db amb p w)))).
  - now rewrite (proj1 (proj2 (proj2 (get_incident_impact_same_db amb p w)))).
Qed.

Lemma serve_records_ok amb req w :
  records_ok w = true -> records_ok (snd (serve amb req w)) = true.
Proof.
  intros H. rewrite serve_world. apply handle_records_ok.
  destruct (uses_db req); [|exact H].
  unfold records_ok in *.
  now rewrite (proj1 (proj2 (seed_if_empty_frame w))).
Qed.

Lemma run_records_ok reqs w :
  records_ok w = true -> records_ok (run reqs w) = true.
Proof.
  revert w. induction reqs as [|[amb req] reqs IH]; intros w H; simpl.
  - exact H.
  - apply IH. now apply serve_records_ok.
Qed.

Lemma records_ok_find tool key rec w :
  records_ok w = true ->
  find_idempotency_record tool key w = Some rec ->
  exists cached,
    IdempotencyRecord.loads (IdempotencyRecord.response_json rec)
    = Some (JObj cached).
Proof.
  unfold records_ok, find_idempotency_record. intros H F.
  apply find_some in F as [F _].
  rewrite forallb_forall in H. specialize (H _ F). unfold record_ok in H.
  destruct (IdempotencyRecord.loads _) as [[ | | | | |d]|]; try discriminate.
  now exists d.
Qed.

(** ** create_ticket: the two paths under a key *)

Lemma create_ticket_replay_run amb payload key rec cached w :
  In "create_ticket" (allowed_tools amb) ->
  key <> EmptyString ->
  find_idempotency_record "create_ticket" key w = Some rec ->
  IdempotencyRecord.loads (IdempotencyRecord.response_json rec)
    = Some (JObj cached) ->
  create_ticket amb payload (Some key) w
  = (Return (JObj (dict_set cached "idempotent_replay" (JBool true))),
     logged amb [("tool", JStr "create_ticket");
                 ("idempotency_replay", JBool true); ("key", JStr key)] w).
Proof.
  intros Hallow Hkey Hrec Hloads.
  unfold create_ticket, bind.
  rewrite tool_guard_ok by assumption.
  rewrite given_truthy by assumption.
  unfold get_cached_response, bind, gets. rewrite Hrec, Hloads.
  reflexivity.
Qed.

Lemma create_ticket_first_run amb payload key cust w :
  In "create_ticket" (allowed_tools amb) ->
  key <> EmptyString ->
  find_customer (CreateTicketIn.customer_id payload) w = Some cust ->
  find_idempotency_record "create_ticket" key w = None ->
  exists t rec w1,
    create_ticket amb payload (Some key) w
    = (Return (JObj (ticket_response t ++
                     [("idempotent_replay", JBool false)])), w1)
    /\ tickets w1 = (tickets w ++ [t])%list
    /\ customers w1 = customers w
    /\ find_idempotency_record "create_ticket" key w1 = Some rec
    /\ IdempotencyRecord.response_json rec
       = IdempotencyRecord.dumps (JObj (ticket_response t)).
Proof.
  intros Hallow Hkey Hcust Hnone.
  unfold create_ticket, bind.
  rewrite tool_guard_ok by assumption.
  rewrite given_truthy by assumption.
  unfold get_cached_response, bind, gets at 1. rewrite Hnone.
  cbn [ret is_None negb]. unfold gets at 1. rewrite Hcust.
  unfold add_ticket, store_response, bind, gets, ret, modify, utcnow.
  change (find_idempotency_record "create_ticket" key (set_clock_reads ?w0 ?n))
    with (find_idempotency_record "create_ticket" key w0).
  change (find_idempotency_record "create_ticket" key (set_tickets ?w0 ?n))
    with (find_idempotency_record "create_ticket" key w0).
  change (find_idempotency_record "create_ticket" key (set_clock_reads ?w0 ?n))
    with (find_idempotency_record "create_ticket" key w0).
  rewrite Hnone. rewrite log_event_run.
  set (t := Ticket.mk (next_id (map Ticket.id (tickets w)))
              (Py.strip (CreateTicketIn.title payload))
              (Py.strip (CreateTicketIn.description payload))
              (Py.lower (Py.strip (CreateTicketIn.priority payload)))
              (utcnow_at amb (clock_reads w))
              (CreateTicketIn.customer_id payload)).
  exists t,
    (IdempotencyRecord.mk
       (next_id (map IdempotencyRecord.id (idempotency_records w)))
       "create_ticket" key
       (IdempotencyRecord.dumps (JObj (ticket_response t)))
       (utcnow_at amb (S (clock_reads w)))).
  eexists. split; [reflexivity|].
  split; [reflexivity|]. split; [reflexivity|]. split; [|reflexivity].
  unfold find_idempotency_record in *. unfold logged. simpl.
  rewrite find_app_last, Hnone. simpl.
  now rewrite String.eqb_refl.
Qed.

(** ** Idempotent replay *)

(** C1. When the idempotency store holds a response for (create_ticket,
    key), a call of create_ticket with that key returns this response with
    [idempotent_replay] set to true and executes nothing: the tickets table
    (hence the number of tickets) and the three other tables are as before,
    and the returned dictionary differs from the stored one in the replay
    tag only. *)
Theorem create_ticket_replays_cached_response
    amb (payload : CreateTicketIn.t) (key : string)
    (rec : IdempotencyRecord.t) (cached : list (string * json)) (w : world) :
  In "create_ticket" (allowed_tools amb) ->
  key <> EmptyString ->
  find_idempotency_record "create_ticket" key w = Some rec ->
  IdempotencyRecord.loads (IdempotencyRecord.response_json rec)
    = Some (JObj cached) ->
  exists w',
    create_ticket amb payload (Some key) w
      = (Return (JObj (dict_set cached "idempotent_replay" (JBool true))), w')
    /\ same_db w w'
    /\ List.length (tickets w') = List.length (tickets w)
    /\ dict_get (dict_set cached "idempotent_replay" (JBool true))
         "idempotent_replay" = Some (JBool true)
    /\ dict_remove (dict_set cached "idempotent_replay" (JBool true))
         "idempotent_replay" = dict_remove cached "idempotent_replay"
    /\ (dict_get cached "idempotent_replay" = None ->
        dict_set cached "idempotent_replay" (JBool true)
          = (cached ++ [("idempotent_replay", JBool true)])%list).
Proof.
  intros Hallow Hkey Hrec Hloads.
  eexists. split.
  - now apply (create_ticket_replay_run amb payload key rec cached w).
  - split; [apply logged_same_db|].
    split; [reflexivity|].
    split; [apply dict_get_set_same|].
    split; [apply dict_remove_set | apply dict_set_fresh].
Qed.

(** C2. Once a record exists for (tool, key), storing a response under the
    same pair -- whatever the response, so in particular a different one --
    raises [IntegrityError], the violation of the constraint [uq_tool_key],
    and writes nothing: the four tables are as before, the record found for
    the pair is the original one and a lookup answers what it answered
    before. *)
Theorem store_response_first_write_wins
    amb (tool key : string) (response : json)
    (rec : IdempotencyRecord.t) (w : world) :
  find_idempotency_record tool key w = Some rec ->
  exists w',
    store_response amb tool key response w = (Raise IntegrityError, w')
    /\ same_db w w'
    /\ find_idempotency_record tool key w' = Some rec
    /\ fst (get_cached_response tool key w')
       = fst (get_cached_response tool key w).
Proof.
  intros Hrec.
  exists (set_clock_reads w (S (clock_reads w))).
  split; [|split; [|split]].
  - unfold store_response, bind, utcnow, gets.
    unfold find_idempotency_record in *. simpl. now rewrite Hrec.
  - repeat split.
  - exact Hrec.
  - unfold get_cached_response, bind, gets.
    change (find_idempotency_record tool key
              (set_clock_reads w (S (clock_reads w))))
      with (find_idempotency_record tool key w).
    rewrite Hrec.
    now destruct (IdempotencyRecord.loads (IdempotencyRecord.response_json rec)).
Qed.

(** ** The policy gate *)


(** ** Confirmation gating *)

(** C4. update_customer_status without [confirm], on an existing customer
    and with an identifier drawn by uuid4 that is not yet in the table,
    returns [requires_confirmation] with that identifier and appends one
    pending action: status pending, the drawn identifier, the dumped
    payload.  The customers table (and the tickets and idempotency tables)
    are as before. *)
Theorem update_customer_status_parks_action
    amb (payload : UpdateCustomerStatusIn.t) (cust : Customer.t) (w : world) :
  In "update_customer_status" (allowed_tools amb) ->
  find_customer (UpdateCustomerStatusIn.customer_id payload) w = Some cust ->
  UpdateCustomerStatusIn.confirm payload = false ->
  find_pending_action (uuid4_hex amb) w = None ->
  let pa :=
    PendingAction.mk (uuid4_hex amb) "update_customer_status"
      (PendingAction.dumps (UpdateCustomerStatusIn.model_dump payload))
      "pending" (utcnow_at amb (clock_reads w)) in
  exists w',
    update_customer_status amb payload w
    = (Return (JObj [("requires_confirmation", JBool true);
                     ("pending_action_id", JStr (uuid4_hex amb));
                     ("customer", JNull)]), w')
    /\ pending_actions w' = (pending_actions w ++ [pa])%list
    /\ find_pending_action (uuid4_hex amb) w' = Some pa
    /\ customers w' = customers w
    /\ find_customer (UpdateCustomerStatusIn.customer_id payload) w' = Some cust
    /\ tickets w' = tickets w
    /\ idempotency_records w' = idempotency_records w.
Proof.
  intros Hallow Hcust Hconf Hfresh pa.
  eexists. split.
  - unfold update_customer_status, bind.
    rewrite tool_guard_ok by assumption.
    unfold gets at 1. rewrite Hcust, Hconf. cbn [negb].
    unfold add_pending_action, bind, utcnow, gets.
    change (find_pending_action (uuid4_hex amb)
              (set_clock_reads w (S (clock_reads w))))
      with (find_pending_action (uuid4_hex amb) w).
    rewrite Hfresh. unfold modify. rewrite log_event_run. reflexivity.
  - split; [reflexivity|]. split; [|repeat split; assumption].
    unfold find_pending_action in *. unfold logged. simpl.
    rewrite find_app_last, Hfresh. simpl. now rewrite String.eqb_refl.
Qed.





(** ** The state machine of a pending action *)

(** C3. The status of a pending action moves one way only.
    - [confirm_action] returns normally only on an action whose status is
      pending, and then the status becomes confirmed or rejected as the
      approve flag says;
    - on an action whose status is not pending it raises 409 and the world
      is untouched;
    - hence a second resolution of the same identifier raises 404 or 409
      and changes nothing, wherever the stored payload is a readable one,
      and so in every world the server reaches from an empty database;
    - no sequence of requests moves an action that is confirmed or
      rejected: the action found under its identifier stays the same row. *)
Theorem pending_action_is_resolved_once :
  (forall amb pid payload w r w',
     confirm_action amb pid payload w = (Return r, w') ->
     exists pa,
       find_pending_action pid w = Some pa
       /\ PendingAction.status pa = "pending"
       /\ find_pending_action pid w'
          = Some (PendingAction.with_status pa
                    (resolved_status (ConfirmIn.approve payload))))
  /\
  (forall amb pid payload w pa,
     find_pending_action pid w = Some pa ->
     PendingAction.status pa <> "pending" ->
     confirm_action amb pid payload w
     = (Raise (HTTPException 409
                 ("Pending action already " ++ PendingAction.status pa)), w))
  /\
  (forall amb1 amb2 pid p1 p2 w,
     (forall pa, find_pending_action pid w = Some pa -> payload_ok pa = true) ->
     exists code detail,
       confirm_action amb2 pid p2 (snd (confirm_action amb1 pid p1 w))
       = (Raise (HTTPException code detail),
          snd (confirm_action amb1 pid p1 w))
       /\ (code = 404 \/ code = 409))
  /\
  (forall reqs amb1 amb2 pid p1 p2,
     exists code detail,
       confirm_action amb2 pid p2
         (snd (confirm_action amb1 pid p1 (run reqs empty_world)))
       = (Raise (HTTPException code detail),
          snd (confirm_action amb1 pid p1 (run reqs empty_world)))
       /\ (code = 404 \/ code = 409))
  /\
  (forall reqs w pid pa,
     find_pending_action pid w = Some pa ->
     PendingAction.status pa <> "pending" ->
     find_pending_action pid (run reqs w) = Some pa).
Proof.
  split; [|split; [|split; [|split]]].
  - intros. eapply confirm_returns. eassumption.
  - intros amb pid payload w pa Hfind Hs.
    now apply confirm_not_pending.
  - intros amb1 amb2 pid p1 p2 w Hok. now apply second_resolve_fails.
  - intros reqs amb1 amb2 pid p1 p2. apply second_resolve_fails.
    intros pa. apply pending_ok_find, reachable_pending_ok.
  - intros reqs. induction reqs as [|[amb req] reqs IH]; intros w pid pa Hf Hs.
    + exact Hf.
    + simpl. apply IH; [|exact Hs]. now apply resolved_stays_serve.
Qed.


(** ** The statements at concrete requests *)

Lemma create_ticket_replays_cached_response_witness :
  find_idempotency_record "create_ticket" "k1" ex_world_ticket = Some ex_record
  /\ exists w',
       create_ticket ex_amb ex_ticket (Some "k1") ex_world_ticket
       = (Return (JObj (dict_set ex_cached "idempotent_replay" (JBool true))), w')
       /\ same_db ex_world_ticket w'.
Proof.
  assert (Hrec : find_idempotency_record "create_ticket" "k1" ex_world_ticket
                 = Some ex_record) by (vm_compute; reflexivity).
  split; [exact Hrec|].
  destruct (create_ticket_replays_cached_response ex_amb ex_ticket "k1"
              ex_record ex_cached ex_world_ticket) as (w' & E & S & _).
  - vm_compute. tauto.
  - discriminate.
  - exact Hrec.
  - vm_compute. reflexivity.
  - exists w'. split; assumption.
Defined.

Lemma store_response_first_write_wins_witness :
  exists w',
    store_response ex_amb "create_ticket" "k1" (JObj [("ticket", JNull)])
      ex_world_ticket
    = (Raise IntegrityError, w')
    /\ find_idempotency_record "create_ticket" "k1" w' = Some ex_record.
Proof.
  destruct (store_response_first_write_wins ex_amb "create_ticket" "k1"
              (JObj [("ticket", JNull)]) ex_record ex_world_ticket)
    as (w' & E & _ & F & _).
  - vm_compute. reflexivity.
  - exists w'. split; assumption.
Defined.


Lemma update_customer_status_parks_action_witness :
  exists w',
    update_customer_status ex_amb ex_update ex_world
    = (Return (JObj [("requires_confirmation", JBool true);
                     ("pending_action_id", JStr (uuid4_hex ex_amb));
                     ("customer", JNull)]), w')
    /\ find_pending_action (uuid4_hex ex_amb) w' = Some ex_parked
    /\ customers w' = customers ex_world.
Proof.
  destruct (update_customer_status_parks_action ex_amb ex_update
              (Customer.mk 1 "ACME AB" "Active") ex_world)
    as (w' & E & _ & F & C & _).
  - vm_compute. tauto.
  - vm_compute. reflexivity.
  - reflexivity.
  - vm_compute. reflexivity.
  - exists w'. repeat split; assumption.
Defined.







Lemma pending_action_is_resolved_once_witness :
  (exists code detail,
     confirm_action ex_amb (uuid4_hex ex_amb) (ConfirmIn.mk false)
       ex_world_approved
     = (Raise (HTTPException code detail), ex_world_approved)
     /\ (code = 404 \/ code = 409))
  /\ confirm_action ex_amb (uuid4_hex ex_amb) (ConfirmIn.mk true)
       ex_world_approved
     = (Raise (HTTPException 409 "Pending action already confirmed"),
        ex_world_approved)
  /\ find_pending_action (uuid4_hex ex_amb)
       (run [(ex_amb, UpdateCustomerStatus ex_update);
             (ex_amb, Confirm (uuid4_hex ex_amb) (ConfirmIn.mk false))]
          ex_world_approved)
     = Some (PendingAction.with_status ex_parked "confirmed").
Proof.
  destruct pending_action_is_resolved_once
    as (_ & Hsettled & Hsecond & _ & Hstay).
  split; [|split].
  - apply (Hsecond ex_amb ex_amb (uuid4_hex ex_amb) (ConfirmIn.mk true)
             (ConfirmIn.mk false) ex_world_parked).
    intros pa H. vm_compute in H. injection H as <-. vm_compute. reflexivity.
  - apply (Hsettled ex_amb (uuid4_hex ex_amb) (ConfirmIn.mk true)
             ex_world_approved (PendingAction.with_status ex_parked "confirmed")).
    + vm_compute. reflexivity.
    + discriminate.
  - apply Hstay.
    + vm_compute. reflexivity.
    + discriminate.
Defined.


(** ** The scenarios of the specification, end to end *)

(** X8.  Scenario B.  A ticket created under a fresh key, then any create_ticket
    call under the same key: the second answer carries the same ticket,
    marked as a replay, and the tickets table has grown by the one ticket of
    the first call. *)
Theorem create_ticket_twice_under_one_key
    amb1 amb2 (p1 p2 : CreateTicketIn.t) (key : string)
    (cust : Customer.t) (w : world) :
  In "create_ticket" (allowed_tools amb1) ->
  In "create_ticket" (allowed_tools amb2) ->
  key <> EmptyString ->
  find_customer (CreateTicketIn.customer_id p1) w = Some cust ->
  find_idempotency_record "create_ticket" key w = None ->
  exists t w1 w2,
    create_ticket amb1 p1 (Some key) w
    = (Return (JObj (ticket_response t ++
                     [("idempotent_replay", JBool false)])), w1)
    /\ create_ticket amb2 p2 (Some key) w1
       = (Return (JObj (ticket_response t ++
                        [("idempotent_replay", JBool true)])), w2)
    /\ tickets w1 = (tickets w ++ [t])%list
    /\ tickets w2 = tickets w1.
Proof.
  intros Ha1 Ha2 Hkey Hcust Hnone.
  destruct (create_ticket_first_run amb1 p1 key cust w Ha1 Hkey Hcust Hnone)
    as (t & rec & w1 & E1 & Ht & _ & Hrec & Hjson).
  exists t, w1. eexists. split; [exact E1|]. split; [|split; [exact Ht|]].
  - rewrite (create_ticket_replay_run amb2 p2 key rec (ticket_response t) w1
               Ha2 Hkey Hrec).
    + reflexivity.
    + rewrite Hjson. apply response_round_trip.
  - reflexivity.
Qed.

(** X9.  In every world the server reaches from an empty database, a record
    under (create_ticket, key) is replayed. *)
Theorem replay_in_every_reachable_world
    (reqs : list (ambient * request)) amb (payload : CreateTicketIn.t)
    (key : string) (rec : IdempotencyRecord.t) :
  In "create_ticket" (allowed_tools amb) ->
  key <> EmptyString ->
  find_idempotency_record "create_ticket" key (run reqs empty_world)
    = Some rec ->
  exists cached w',
    IdempotencyRecord.loads (IdempotencyRecord.response_json rec)
      = Some (JObj cached)
    /\ create_ticket amb payload (Some key) (run reqs empty_world)
       = (Return (JObj (dict_set cached "idempotent_replay" (JBool true))), w')
    /\ same_db (run reqs empty_world) w'.
Proof.
  intros Hallow Hkey Hrec.
  destruct (records_ok_find _ _ _ _ (run_records_ok reqs empty_world eq_refl) Hrec)
    as (cached & Hloads).
  exists cached. eexists. split; [exact Hloads|]. split.
  - now apply (create_ticket_replay_run amb payload key rec cached).
  - apply logged_same_db.
Qed.



(** X13.  An identifier drawn twice: the insert is refused by the primary key and
    nothing is stored. *)
Lemma update_customer_status_collision
    amb (p : UpdateCustomerStatusIn.t) (cust : Customer.t)
    (pa : PendingAction.t) (w : world) :
  In "update_customer_status" (allowed_tools amb) ->
  find_customer (UpdateCustomerStatusIn.customer_id p) w = Some cust ->
  UpdateCustomerStatusIn.confirm p = false ->
  find_pending_action (uuid4_hex amb) w = Some pa ->
  exists w',
    update_customer_status amb p w = (Raise IntegrityError, w')
    /\ same_db w w'.
Proof.
  intros Hallow Hcust Hconf Hpa. eexists. split.
  - unfold update_customer_status, bind.
    rewrite tool_guard_ok by assumption.
    unfold gets at 1. rewrite Hcust, Hconf. cbn [negb].
    unfold add_pending_action, bind, utcnow, gets.
    change (find_pending_action (uuid4_hex amb)
              (set_clock_reads w (S (clock_reads w))))
      with (find_pending_action (uuid4_hex amb) w).
    rewrite Hpa. reflexivity.
  - repeat split.
Qed.

(** * Further properties of the server *)

Arguments next_id : simpl never.

(** ** What a request does to each table *)

Lemma handle_customers amb req w :
  customers (snd (handle amb req w)) = customers w
  \/ exists cid s,
       customers (snd (handle amb req w))
       = customers (update_customer_row cid s w).
Proof.
  destruct req as [p | p k | p | pid p | p | p]; cbn [handle].
  - left. apply search_customer_same_db.
  - left. apply create_ticket_frame.
  - unfold update_customer_status, bind. guard_cases; [|now left].
    unfold add_pending_action, bind, gets, ret, raise, modify, utcnow.
    split_matches; try (left; reflexivity).
    right. eexists _, _. reflexivity.
  - unfold confirm_action, subscript, as_id, strip_value,
      bind, gets, ret, raise, modify.
    split_matches; try (left; reflexivity).
    right. eexists _, _. reflexivity.
  - left. apply send_message_same_db.
  - left. apply get_incident_impact_same_db.
Qed.

Lemma create_ticket_tickets amb p k w :
  tickets (snd (create_ticket amb p k w)) = tickets w
  \/ exists t,
       Ticket.id t = next_id (map Ticket.id (tickets w))
       /\ tickets (snd (create_ticket amb p k w)) = (tickets w ++ [t])%list.
Proof.
  unfold create_ticket, bind. guard_cases; [|now left].
  unfold get_cached_response, spread_with, add_ticket, store_response,
    bind, gets, ret, raise, modify, utcnow.
  destruct (given k) as [key|]; cbn; split_matches;
    try (left; reflexivity);
    right; eexists (Ticket.mk _ _ _ _ _ _); cbn [Ticket.id]; split; reflexivity.
Qed.

Lemma update_customer_status_tickets amb p w :
  tickets (snd (update_customer_status amb p w)) = tickets w.
Proof.
  unfold update_customer_status, bind. guard_cases; [|reflexivity].
  unfold add_pending_action, bind, gets, ret, raise, modify, utcnow.
  split_matches; reflexivity.
Qed.

Lemma confirm_action_tickets amb pid p w :
  tickets (snd (confirm_action amb pid p w)) = tickets w.
Proof.
  unfold confirm_action, subscript, as_id, strip_value,
    bind, gets, ret, raise, modify.
  split_matches; reflexivity.
Qed.

Lemma handle_tickets amb req w :
  tickets (snd (handle amb req w)) = tickets w
  \/ exists t,
       Ticket.id t = next_id (map Ticket.id (tickets w))
       /\ tickets (snd (handle amb req w)) = (tickets w ++ [t])%list.
Proof.
  destruct req as [p | p k | p | pid p | p | p]; cbn [handle].
  - left. apply search_customer_same_db.
  - apply create_ticket_tickets.
  - left. apply update_customer_status_tickets.
  - left. apply confirm_action_tickets.
  - left. apply send_message_same_db.
  - left. apply get_incident_impact_same_db.
Qed.

Lemma create_ticket_records_id amb p k w :
  idempotency_records (snd (create_ticket amb p k w)) = idempotency_records w
  \/ exists rec,
       find_idempotency_record (IdempotencyRecord.tool rec)
         (IdempotencyRecord.key rec) w = None
       /\ IdempotencyRecord.id rec
          = next_id (map IdempotencyRecord.id (idempotency_records w))
       /\ idempotency_records (snd (create_ticket amb p k w))
          = (idempotency_records w ++ [rec])%list.
Proof.
  unfold create_ticket, bind. guard_cases; [|now left].
  unfold get_cached_response, spread_with, add_ticket, store_response,
    bind, gets, ret, raise, modify, utcnow.
  destruct (given k) as [key|]; cbn; split_matches;
    try (left; reflexivity).
  all: right; eexists (IdempotencyRecord.mk _ _ _ _ _);
    cbn [IdempotencyRecord.tool IdempotencyRecord.key IdempotencyRecord.id];
    split; [|split; reflexivity].
  all: match goal with
       | H : find_idempotency_record _ _ _ = None |- _ => exact H
       end.
Qed.

Lemma handle_records amb req w :
  idempotency_records (snd (handle amb req w)) = idempotency_records w
  \/ exists rec,
       find_idempotency_record (IdempotencyRecord.tool rec)
         (IdempotencyRecord.key rec) w = None
       /\ IdempotencyRecord.id rec
          = next_id (map IdempotencyRecord.id (idempotency_records w))
       /\ idempotency_records (snd (handle amb req w))
          = (idempotency_records w ++ [rec])%list.
Proof.
  destruct req as [p | p k | p | pid p | p | p]; cbn [handle].
  - left. apply search_customer_same_db.
  - apply create_ticket_records_id.
  - left. apply update_customer_status_records.
  - left. apply confirm_action_records.
  - left. apply send_message_same_db.
  - left. apply get_incident_impact_same_db.
Qed.

(** ** Identifiers *)

Lemma fold_max_le (r : list Z) (x : Z) : x <= fold_left Z.max r x.
Proof.
  revert x. induction r as [|z r IH]; intros x; simpl; [lia|].
  specialize (IH (Z.max x z)). lia.
Qed.

Lemma fold_max_ge (r : list Z) (x y : Z) :
  In y (x :: r) -> y <= fold_left Z.max r x.
Proof.
  revert x. induction r as [|z r IH]; intros x H.
  - destruct H as [H|[]]. simpl. lia.
  - simpl. destruct H as [H|[H|H]].
    + pose proof (fold_max_le r (Z.max x z)). lia.
    + pose proof (fold_max_le r (Z.max x z)). lia.
    + apply IH. now right.
Qed.

Lemma next_id_above (ids : list Z) (y : Z) : In y ids -> y < next_id ids.
Proof.
  unfold next_id. destruct ids as [|x r]; [intros []|].
  intros H. pose proof (fold_max_ge r x y H). lia.
Qed.

Lemma next_id_fresh (ids : list Z) : ~ In (next_id ids) ids.
Proof. intros H. apply next_id_above in H. lia. Qed.

Lemma NoDup_snoc {A} (l : list A) (x : A) :
  NoDup l -> ~ In x l -> NoDup (l ++ [x]).
Proof.
  induction l as [|y l IH]; intros Hn Hx; simpl.
  - constructor; [intros []|constructor].
  - inversion Hn as [|? ? Hy Hl]; subst. constructor.
    + rewrite in_app_iff. intros [H|[H|[]]]; [contradiction|].
      subst. apply Hx. now left.
    + apply IH; [assumption|]. intros H. apply Hx. now right.
Qed.

Lemma find_pending_none pid w :
  find_pending_action pid w = None ->
  ~ In pid (map PendingAction.id (pending_actions w)).
Proof.
  unfold find_pending_action. intros H Hin.
  apply in_map_iff in Hin as (p & <- & Hp).
  pose proof (find_none _ _ H p Hp) as E. cbv beta in E.
  now rewrite String.eqb_refl in E.
Qed.

Lemma find_record_none tool key w :
  find_idempotency_record tool key w = None ->
  ~ In (tool, key) (map record_pair (idempotency_records w)).
Proof.
  unfold find_idempotency_record. intros H Hin.
  apply in_map_iff in Hin as (r & E & Hr).
  pose proof (find_none _ _ H r Hr) as F. cbv beta in F.
  unfold record_pair in E. injection E as <- <-.
  now rewrite !String.eqb_refl in F.
Qed.

Lemma updated_customer_cores cid s w :
  map customer_core (customers (update_customer_row cid s w))
  = map customer_core (customers w).
Proof.
  unfold update_customer_row. simpl. rewrite map_map. apply map_ext.
  intros c. now destruct (Customer.id c =? cid).
Qed.

Lemma updated_pending_cores pid s w :
  map pending_core (pending_actions (update_pending_row pid s w))
  = map pending_core (pending_actions w).
Proof.
  unfold update_pending_row. simpl. rewrite map_map. apply map_ext.
  intros p. now destruct (String.eqb (PendingAction.id p) pid).
Qed.

Lemma cores_ids (l l' : list Customer.t) :
  map customer_core l' = map customer_core l ->
  map Customer.id l' = map Customer.id l.
Proof.
  intros H. apply (f_equal (map fst)) in H. now rewrite !map_map in H.
Qed.

Lemma pending_cores_ids (l l' : list PendingAction.t) :
  map pending_core l' = map pending_core l ->
  map PendingAction.id l' = map PendingAction.id l.
Proof.
  intros H. apply (f_equal (map (fun c => fst (fst (fst c))))) in H.
  now rewrite !map_map in H.
Qed.

(** ** The constraints of models.py *)

Lemma handle_db_unique amb req w :
  db_unique w -> db_unique (snd (handle amb req w)).
Proof.
  intros (Hc & Ht & Hri & Hrp & Hp). repeat split.
  - destruct (handle_customers amb req w) as [E | (cid & s & E)]; rewrite E.
    + exact Hc.
    + now rewrite (cores_ids _ _ (updated_customer_cores cid s w)).
  - destruct (handle_tickets amb req w) as [E | (t & Hid & E)]; rewrite E.
    + exact Ht.
    + rewrite map_app. apply NoDup_snoc; [exact Ht|].
      cbn [map]. rewrite Hid. apply next_id_fresh.
  - destruct (handle_records amb req w) as [E | (rec & _ & Hid & E)]; rewrite E.
    + exact Hri.
    + rewrite map_app. apply NoDup_snoc; [exact Hri|].
      cbn [map]. rewrite Hid. apply next_id_fresh.
  - destruct (handle_records amb req w) as [E | (rec & Hnone & _ & E)]; rewrite E.
    + exact Hrp.
    + rewrite map_app. apply NoDup_snoc; [exact Hrp|].
      now apply find_record_none.
  - destruct (handle_pending amb req w)
      as [E | [(p & cust & _ & _ & Hnone & _ & E) | (pid & pa & s & _ & _ & E)]];
      rewrite E.
    + exact Hp.
    + rewrite map_app. apply NoDup_snoc; [exact Hp|].
      now apply find_pending_none.
    + now rewrite (pending_cores_ids _ _ (updated_pending_cores pid s w)).
Qed.

Lemma seed_db_unique w : db_unique w -> db_unique (snd (seed_if_empty w)).
Proof.
  intros (Hc & Ht & Hri & Hrp & Hp).
  unfold seed_if_empty, bind, gets.
  destruct (customers w) as [|c l] eqn:E; cbn.
  - repeat split; try assumption.
    repeat constructor; cbn; intuition discriminate.
  - repeat split; try assumption. now rewrite E.
Qed.

Lemma serve_db_unique amb req w :
  db_unique w -> db_unique (snd (serve amb req w)).
Proof.
  intros H. rewrite serve_world. apply handle_db_unique.
  destruct (uses_db req); [now apply seed_db_unique | exact H].
Qed.

(** X1.  Every world the server reaches from an empty database satisfies the
    uniqueness constraints declared in models.py: customer, ticket, record
    and pending-action identifiers are pairwise distinct and no two
    idempotency records share (tool, key). *)
Theorem constraints_hold_in_every_reachable_world
    (reqs : list (ambient * request)) :
  db_unique (run reqs empty_world).
Proof.
  assert (G : forall w, db_unique w -> db_unique (run reqs w)).
  { induction reqs as [|[amb req] reqs IH]; intros w H; simpl.
    - exact H.
    - apply IH. now apply serve_db_unique. }
  apply G. repeat split; constructor.
Qed.

(** ** The audit file *)

(** what one request writes to the audit file *)
Lemma handle_audit amb req w :
  match fst (handle amb req w) with
  | Return _ =>
      exists record ts,
        audit_log (snd (handle amb req w))
        = audit_log w ++ Json.dumps (JObj record)
          ++ String (ascii_of_N 10) EmptyString
        /\ wf_json (JObj record) = true
        /\ dict_get record "ts" = Some (JStr ts)
        /\ dict_get record "tool" = Some (JStr (route_name req))
  | Raise (HTTPException _ _) =>
      audit_log (snd (handle amb req w)) = audit_log w
  | Raise _ => True
  end.
Proof.
  destruct req as [p | p k | p | pid p | p | p]; cbn [handle route_name].
  - unfold search_customer, bind. guard_cases; [|reflexivity].
    unfold gets. cbn. rewrite log_event_run. cbn.
    eexists _, _. unfold logged. cbn [audit_log set_audit_log].
    split; [reflexivity|]. repeat split; reflexivity.
  - unfold create_ticket, bind. guard_cases; [|reflexivity].
    unfold get_cached_response, spread_with, add_ticket, store_response,
      bind, gets, ret, raise, modify, utcnow.
    destruct (given k) as [key|]; cbn; split_matches; try reflexivity.
    all: try exact I.
    all: eexists _, _; unfold logged; cbn [audit_log set_audit_log];
      (split; [reflexivity|]); repeat split; reflexivity.
  - unfold update_customer_status, bind. guard_cases; [|reflexivity].
    unfold add_pending_action, bind, gets, ret, raise, modify, utcnow.
    split_matches; try reflexivity.
    all: try exact I.
    all: eexists _, _; unfold logged; cbn [audit_log set_audit_log];
      (split; [reflexivity|]); repeat split; reflexivity.
  - unfold confirm_action, subscript, as_id, strip_value,
      bind, gets, ret, raise, modify.
    split_matches; try reflexivity.
    all: try exact I.
    all: eexists _, _; unfold logged; cbn [audit_log set_audit_log];
      (split; [reflexivity|]); repeat split; reflexivity.
  - unfold send_message, bind. guard_cases; [|reflexivity].
    rewrite log_event_run. cbn.
    eexists _, _. unfold logged. cbn [audit_log set_audit_log].
    split; [reflexivity|]. repeat split; reflexivity.
  - unfold get_incident_impact, bind. guard_cases; [|reflexivity].
    unfold gets. cbn. rewrite log_event_run. cbn.
    eexists _, _. unfold logged. cbn [audit_log set_audit_log].
    split; [reflexivity|]. repeat split; reflexivity.
Qed.

(** X3.  A handler that returns has appended exactly one line to the audit
    file, and the line is a JSON document that [json.loads] reads back as a
    dictionary with a [ts] and with the name of the route under [tool]; a
    handler that raises an [HTTPException] (403, 404, 409 or 400) has
    written nothing. *)
Theorem audit_line_per_returned_request amb (req : request) (w : world) :
  (forall r w',
     handle amb req w = (Return r, w') ->
     exists record ts,
       audit_log w'
       = audit_log w ++ Json.dumps (JObj record)
         ++ String (ascii_of_N 10) EmptyString
       /\ Json.loads (Json.dumps (JObj record)) = Some (JObj record)
       /\ dict_get record "ts" = Some (JStr ts)
       /\ dict_get record "tool" = Some (JStr (route_name req)))
  /\ (forall code detail w',
        handle amb req w = (Raise (HTTPException code detail), w') ->
        audit_log w' = audit_log w).
Proof.
  pose proof (handle_audit amb req w) as H. split.
  - intros r w' E. rewrite E in H. cbn [fst snd] in H.
    destruct H as (record & ts & Ha & Hwf & Hts & Htool).
    exists record, ts. split; [exact Ha|].
    split; [now apply loads_dumps|]. now split.
  - intros code detail w' E. now rewrite E in H.
Qed.

(** ** Nothing is deleted *)

Lemma audit_grows_by_nothing w : exists more, audit_log w = audit_log w ++ more.
Proof. exists EmptyString. now rewrite append_nil_r. Qed.

Ltac audit_step :=
  cbn [fst snd]; unfold logged, update_customer_row, update_pending_row;
  cbn [audit_log set_audit_log set_clock_reads set_customers set_tickets
       set_idempotency_records set_pending_actions];
  first [ apply audit_grows_by_nothing | eexists; reflexivity ].

Lemma handle_audit_grows amb req w :
  exists more, audit_log (snd (handle amb req w)) = audit_log w ++ more.
Proof.
  destruct req as [p | p k | p | pid p | p | p]; cbn [handle].
  - unfold search_customer, bind. guard_cases; [|audit_step].
    unfold gets. cbn. rewrite log_event_run. cbn. audit_step.
  - unfold create_ticket, bind. guard_cases; [|audit_step].
    unfold get_cached_response, spread_with, add_ticket, store_response,
      bind, gets, ret, raise, modify, utcnow.
    destruct (given k) as [key|]; cbn; split_matches; audit_step.
  - unfold update_customer_status, bind. guard_cases; [|audit_step].
    unfold add_pending_action, bind, gets, ret, raise, modify, utcnow.
    split_matches; audit_step.
  - unfold confirm_action, subscript, as_id, strip_value,
      bind, gets, ret, raise, modify.
    split_matches; audit_step.
  - unfold send_message, bind. guard_cases; [|audit_step].
    rewrite log_event_run. cbn. audit_step.
  - unfold get_incident_impact, bind. guard_cases; [|audit_step].
    unfold gets. cbn. rewrite log_event_run. cbn. audit_step.
Qed.

Lemma extends_refl w : extends w w.
Proof.
  repeat split; try (exists []; now rewrite List.app_nil_r).
  apply audit_grows_by_nothing.
Qed.

Lemma extends_trans w1 w2 w3 : extends w1 w2 -> extends w2 w3 -> extends w1 w3.
Proof.
  intros ((c1 & C1) & (t1 & T1) & (r1 & R1) & (p1 & P1) & (a1 & A1))
         ((c2 & C2) & (t2 & T2) & (r2 & R2) & (p2 & P2) & (a2 & A2)).
  repeat split.
  - exists (c1 ++ c2)%list. now rewrite C2, C1, List.app_assoc.
  - exists (t1 ++ t2)%list. now rewrite T2, T1, List.app_assoc.
  - exists (r1 ++ r2)%list. now rewrite R2, R1, List.app_assoc.
  - exists (p1 ++ p2)%list. now rewrite P2, P1, List.app_assoc.
  - exists (a1 ++ a2). now rewrite A2, A1, append_assoc.
Qed.

Lemma handle_extends amb req w : extends w (snd (handle amb req w)).
Proof.
  repeat split.
  - exists []. rewrite List.app_nil_r.
    destruct (handle_customers amb req w) as [E | (cid & s & E)]; rewrite E;
      [reflexivity | apply updated_customer_cores].
  - destruct (handle_tickets amb req w) as [E | (t & _ & E)]; rewrite E.
    + exists []. now rewrite List.app_nil_r.
    + now exists [t].
  - destruct (handle_records amb req w) as [E | (rec & _ & _ & E)]; rewrite E.
    + exists []. now rewrite List.app_nil_r.
    + now exists [rec].
  - destruct (handle_pending amb req w)
      as [E | [(p & cust & _ & _ & _ & _ & E) | (pid & pa & s & _ & _ & E)]];
      rewrite E.
    + exists []. now rewrite List.app_nil_r.
    + eexists. now rewrite map_app.
    + exists []. rewrite List.app_nil_r. apply updated_pending_cores.
  - apply handle_audit_grows.
Qed.

Lemma seed_extends w : extends w (snd (seed_if_empty w)).
Proof.
  unfold seed_if_empty, bind, gets.
  destruct (customers w) as [|c l] eqn:E; cbn.
  - split; [|split; [|split; [|split]]]; cbn [snd].
    + cbn [customers set_customers]. rewrite E. eexists. reflexivity.
    + exists []. now rewrite List.app_nil_r.
    + exists []. now rewrite List.app_nil_r.
    + exists []. now rewrite List.app_nil_r.
    + cbn [audit_log set_customers]. apply audit_grows_by_nothing.
  - apply extends_refl.
Qed.

Lemma serve_extends amb req w : extends w (snd (serve amb req w)).
Proof.
  rewrite serve_world. destruct (uses_db req).
  - eapply extends_trans; [apply seed_extends | apply handle_extends].
  - apply handle_extends.
Qed.

(** X2.  No sequence of requests deletes or rewrites what is stored.  The
    customers of before are still there in place with their id and name,
    the tickets and idempotency records of before are an unchanged prefix
    of the tables, the pending actions of before keep their identifier,
    type, payload and creation time, and the audit file of before is a
    prefix of the file. *)
Theorem requests_only_add (reqs : list (ambient * request)) (w : world) :
  extends w (run reqs w).
Proof.
  revert w. induction reqs as [|[amb req] reqs IH]; intros w; simpl.
  - apply extends_refl.
  - eapply extends_trans; [apply serve_extends | apply IH].
Qed.

(** ** The idempotency store *)

(** X7.  A response stored under a pair that has no record yet is what the
    next lookup of that pair answers, decoded from its JSON text; the
    lookups of every other pair, and the other tables, are as before. *)
Theorem store_response_then_lookup
    amb (tool key : string) (response : json) (w : world) :
  find_idempotency_record tool key w = None ->
  wf_json response = true ->
  exists w1,
    store_response amb tool key response w = (Return tt, w1)
    /\ get_cached_response tool key w1 = (Return response, w1)
    /\ (forall tool' key',
          (tool', key') <> (tool, key) ->
          find_idempotency_record tool' key' w1
          = find_idempotency_record tool' key' w)
    /\ customers w1 = customers w
    /\ tickets w1 = tickets w
    /\ pending_actions w1 = pending_actions w.
Proof.
  intros Hnone Hwf. eexists. split.
  - unfold store_response, bind, utcnow, gets.
    change (find_idempotency_record tool key
              (set_clock_reads w (S (clock_reads w))))
      with (find_idempotency_record tool key w).
    rewrite Hnone. reflexivity.
  - split; [|split; [|repeat split]].
    + unfold get_cached_response, bind, gets.
      unfold find_idempotency_record in *. simpl.
      rewrite find_app_last, Hnone. simpl.
      rewrite !String.eqb_refl. simpl.
      unfold IdempotencyRecord.loads, IdempotencyRecord.dumps.
      now rewrite loads_dumps.
    + intros tool' key' Hne.
      unfold find_idempotency_record. simpl.
      rewrite find_app_last. simpl.
      destruct (find _ (idempotency_records w)); [reflexivity|].
      destruct (String.eqb tool tool') eqn:Et; [|reflexivity].
      destruct (String.eqb key key') eqn:Ek; [|reflexivity].
      apply String.eqb_eq in Et, Ek. subst. contradiction.
Qed.

(** ** create_ticket without a key, and for an unknown customer *)



(** ** update_customer_status, confirmed *)

Lemma update_customer_row_twice cid s w :
  customers (update_customer_row cid s (update_customer_row cid s w))
  = customers (update_customer_row cid s w).
Proof.
  unfold update_customer_row. simpl. rewrite map_map. apply map_ext.
  intros c. destruct (Customer.id c =? cid) eqn:E; simpl; now rewrite E.
Qed.

(** X14.  A confirmed status update is idempotent: the same request a second
    time returns the same response and leaves the customers table as the
    first call left it. *)
Theorem confirmed_update_is_idempotent
    amb amb' (p : UpdateCustomerStatusIn.t) (cust : Customer.t) (w : world) :
  In "update_customer_status" (allowed_tools amb) ->
  In "update_customer_status" (allowed_tools amb') ->
  find_customer (UpdateCustomerStatusIn.customer_id p) w = Some cust ->
  UpdateCustomerStatusIn.confirm p = true ->
  exists r w1 w2,
    update_customer_status amb p w = (Return r, w1)
    /\ update_customer_status amb' p w1 = (Return r, w2)
    /\ customers w2 = customers w1.
Proof.
  intros Ha Ha' Hcust Hconf.
  pose proof (find_customer_id _ _ _ Hcust) as Hid.
  eexists _, _, _. split; [|split].
  - unfold update_customer_status, bind.
    rewrite tool_guard_ok by assumption.
    unfold gets at 1. rewrite Hcust, Hconf. cbn [negb].
    unfold modify. rewrite log_event_run. reflexivity.
  - unfold update_customer_status, bind.
    rewrite tool_guard_ok by assumption.
    unfold gets at 1.
    change (find_customer ?c (logged amb ?e ?w0)) with (find_customer c w0).
    rewrite Hid, find_customer_updated, Hcust. cbn [option_map].
    rewrite Hconf. cbn [negb].
    unfold modify. rewrite log_event_run. reflexivity.
  - cbn [Customer.id Customer.with_status].
    change (customers (logged amb' ?e ?w0)) with (customers w0).
    change (customers (update_customer_row ?c ?s (logged amb ?e ?w0)))
      with (customers (update_customer_row c s w0)).
    rewrite Hid. apply update_customer_row_twice.
Qed.

(** ** search_customer *)





(** ** Confirmation is outside the policy gate *)


(** ** Seeding *)

(** X18.  After [seed_if_empty] the customers table is not empty, a second
    run changes nothing, a table that has a customer is left alone, and an
    empty one receives the three customers with ids 1, 2 and 3. *)
Theorem seed_if_empty_only_when_empty (w : world) :
  customers (snd (seed_if_empty w)) <> []
  /\ seed_if_empty (snd (seed_if_empty w))
     = (Return tt, snd (seed_if_empty w))
  /\ (customers w <> [] -> seed_if_empty w = (Return tt, w))
  /\ (customers w = [] ->
      map Customer.id (customers (snd (seed_if_empty w))) = [1; 2; 3]).
Proof.
  assert (H1 : customers (snd (seed_if_empty w)) <> []).
  { unfold seed_if_empty, bind, gets.
    destruct (customers w) eqn:E; cbn; [discriminate | now rewrite E]. }
  split; [exact H1|]. split; [now apply seed_if_empty_inert|].
  split; [apply seed_if_empty_inert|].
  intros E. unfold seed_if_empty, bind, gets. now rewrite E.
Qed.

(** ** The allow-list read from the environment *)










Lemma truthy_iff s : Py.truthy s = true <-> s <> EmptyString.
Proof.
  unfold Py.truthy. destruct (String.eqb s EmptyString) eqn:E; simpl.
  - apply String.eqb_eq in E. split; [discriminate | contradiction].
  - apply String.eqb_neq in E. split; [now intros _ | reflexivity].
Qed.



(** ** The API key and the rate limit *)

Section AuthFacts.

Context {float : Type} (window_passed : float -> float -> bool).
Variable env : option string.

Lemma times_get_set_same (times : request_times float) key q :
  times_get (times_set times key q) key = q.
Proof.
  induction times as [|[k q'] r IH]; simpl.
  - now rewrite String.eqb_refl.
  - destruct (String.eqb k key) eqn:E; simpl; rewrite E; [reflexivity | exact IH].
Qed.

Lemma times_get_set_other (times : request_times float) key key' q :
  key' <> key -> times_get (times_set times key q) key' = times_get times key'.
Proof.
  intros Hne. induction times as [|[k q'] r IH]; simpl.
  - destruct (String.eqb key key') eqn:E; [|reflexivity].
    apply String.eqb_eq in E. congruence.
  - destruct (String.eqb k key) eqn:E; simpl.
    + apply String.eqb_eq in E. subst k.
      destruct (String.eqb key key') eqn:E'; [|reflexivity].
      apply String.eqb_eq in E'. congruence.
    + destruct (String.eqb k key'); [reflexivity | exact IH].
Qed.

Lemma drop_expired_length now (q : list float) :
  (List.length (drop_expired window_passed now q) <= List.length q)%nat.
Proof.
  induction q as [|t r IH]; simpl; [lia|].
  destruct (window_passed now t); simpl; lia.
Qed.

Lemma drop_expired_split now (q : list float) :
  exists gone,
    q = (gone ++ drop_expired window_passed now q)%list
    /\ Forall (fun t => window_passed now t = true) gone
    /\ match drop_expired window_passed now q with
       | t :: _ => window_passed now t = false
       | [] => True
       end.
Proof.
  induction q as [|t r (gone & E & Hg & Hh)]; simpl.
  - exists []. repeat split. constructor.
  - destruct (window_passed now t) eqn:Ht.
    + exists (t :: gone). split; [simpl; now rewrite <- E|].
      split; [now constructor | exact Hh].
    + exists []. repeat split; [constructor | exact Ht].
Qed.

Lemma drop_expired_none now (q : list float) :
  (forall t, In t q -> window_passed now t = false) ->
  drop_expired window_passed now q = q.
Proof.
  destruct q as [|t r]; simpl; [reflexivity|].
  intros H. now rewrite (H t) by now left.
Qed.

Lemma bad_key_test (x : string) :
  x = EmptyString \/ x <> API_KEY env ->
  negb (Py.truthy x) || negb (String.eqb x (API_KEY env)) = true.
Proof.
  intros [-> | H].
  - reflexivity.
  - apply String.eqb_neq in H. rewrite H. apply orb_true_r.
Qed.

Lemma good_key_test (x : string) :
  x <> EmptyString -> x = API_KEY env ->
  negb (Py.truthy x) || negb (String.eqb x (API_KEY env)) = false.
Proof.
  intros Hne E. apply truthy_iff in Hne. rewrite Hne.
  rewrite E at 1. now rewrite String.eqb_refl.
Qed.

(** X22.  A request without a key, with an empty key or with a key other than
    API_KEY is answered 401 before anything else happens: the limiter, the
    database and the audit file are untouched (the customers table is not
    even seeded).  This holds for an empty key also when API_KEY itself is
    empty. *)
Theorem bad_key_touches_nothing
    amb (x_api_key : string) (now : float) (req : request)
    (times : request_times float) (w : world) :
  x_api_key = EmptyString \/ x_api_key <> API_KEY env ->
  require_api_key window_passed env x_api_key now times
  = (Raise (HTTPException 401 "Invalid or missing X-API-Key"), times)
  /\ endpoint window_passed env amb x_api_key now req (times, w)
     = (Raise (HTTPException 401 "Invalid or missing X-API-Key"), (times, w)).
Proof.
  intros H. pose proof (bad_key_test x_api_key H) as T.
  assert (E : require_api_key window_passed env x_api_key now times
              = (Raise (HTTPException 401 "Invalid or missing X-API-Key"),
                 times))
    by (unfold require_api_key; now rewrite T).
  split; [exact E|]. unfold endpoint. cbn [fst snd]. now rewrite E.
Qed.

(** X23.  With the right key, a call is refused with 429 exactly when sixty
    readings are left in the queue once the expired ones at its front are
    dropped; the refused call is not recorded, the database is untouched;
    an accepted call is recorded at the end of the queue.  The queues of
    other keys are as before. *)
Theorem rate_limit_decision
    (x_api_key : string) (now : float) (times : request_times float) :
  x_api_key <> EmptyString ->
  x_api_key = API_KEY env ->
  let q := drop_expired window_passed now (times_get times x_api_key) in
  let times' := snd (require_api_key window_passed env x_api_key now times) in
  ((60 <= List.length q)%nat ->
     fst (require_api_key window_passed env x_api_key now times)
     = Raise (HTTPException 429 "Rate limit exceeded")
     /\ times_get times' x_api_key = q
     /\ forall amb req w,
          endpoint window_passed env amb x_api_key now req (times, w)
          = (Raise (HTTPException 429 "Rate limit exceeded"), (times', w)))
  /\ ((List.length q < 60)%nat ->
        fst (require_api_key window_passed env x_api_key now times) = Return tt
        /\ times_get times' x_api_key = (q ++ [now])%list)
  /\ (forall key', key' <> x_api_key ->
        times_get times' key' = times_get times key').
Proof.
  intros Hne Hkey q times'. subst times'.
  pose proof (good_key_test x_api_key Hne Hkey) as T.
  unfold require_api_key. rewrite T. fold q.
  unfold RATE_LIMIT_PER_MIN.
  split; [|split].
  - intros Hfull. apply Nat.leb_le in Hfull. rewrite Hfull. cbn [fst snd].
    split; [reflexivity|]. split; [apply times_get_set_same|].
    intros amb req w. unfold endpoint, require_api_key. cbn [fst snd].
    rewrite T. fold q. unfold RATE_LIMIT_PER_MIN. now rewrite Hfull.
  - intros Hroom. apply Nat.leb_gt in Hroom. rewrite Hroom. cbn [fst snd].
    split; [reflexivity | apply times_get_set_same].
  - intros key' Hk.
    destruct (Nat.leb 60 (List.length q)); cbn [snd];
      now apply times_get_set_other.
Qed.

(** X24.  The dropping of expired readings removes a front part of the queue,
    all of it expired, and stops at the first reading that is not. *)
Theorem expired_readings_leave_from_the_front
    (now : float) (q : list float) :
  exists gone,
    q = (gone ++ drop_expired window_passed now q)%list
    /\ Forall (fun t => window_passed now t = true) gone
    /\ match drop_expired window_passed now q with
       | t :: _ => window_passed now t = false
       | [] => True
       end.
Proof. apply drop_expired_split. Qed.

Lemma require_api_key_bound key now (times : request_times float) :
  (forall k, List.length (times_get times k) <= 60)%nat ->
  forall k,
    (List.length
       (times_get (snd (require_api_key window_passed env key now times)) k)
     <= 60)%nat.
Proof.
  intros H k. unfold require_api_key.
  destruct (negb (Py.truthy key) || negb (String.eqb key (API_KEY env)));
    cbn [snd]; [apply H|].
  pose proof (drop_expired_length now (times_get times key)) as L.
  specialize (H key) as Hk.
  unfold RATE_LIMIT_PER_MIN.
  destruct (Nat.leb 60 _) eqn:E; cbn [snd].
  - destruct (String.eqb k key) eqn:Ek.
    + apply String.eqb_eq in Ek. subst k. rewrite times_get_set_same. lia.
    + apply String.eqb_neq in Ek. rewrite times_get_set_other by exact Ek.
      apply H.
  - apply Nat.leb_gt in E.
    destruct (String.eqb k key) eqn:Ek.
    + apply String.eqb_eq in Ek. subst k. rewrite times_get_set_same.
      rewrite length_app. simpl. lia.
    + apply String.eqb_neq in Ek. rewrite times_get_set_other by exact Ek.
      apply H.
Qed.

Lemma require_api_key_other_keys key now (times : request_times float) k :
  k <> API_KEY env ->
  times_get (snd (require_api_key window_passed env key now times)) k
  = times_get times k.
Proof.
  intros Hk. unfold require_api_key.
  destruct (negb (Py.truthy key) || negb (String.eqb key (API_KEY env))) eqn:T;
    cbn [snd]; [reflexivity|].
  apply orb_false_iff in T as [_ T]. apply negb_false_iff in T.
  apply String.eqb_eq in T.
  destruct (Nat.leb _ _); cbn [snd]; apply times_get_set_other; congruence.
Qed.

(** X25.  Whatever calls arrive, with whatever keys and readings, no queue of
    the limiter ever holds more than sixty readings, and only the
    configured API key has a queue at all. *)
Theorem limiter_never_holds_more_than_sixty
    (calls : list (string * float)) (k : string) :
  (List.length (times_get (run_auth window_passed env calls []) k) <= 60)%nat
  /\ (k <> API_KEY env ->
      times_get (run_auth window_passed env calls []) k = []).
Proof.
  assert (G : forall times,
    (forall k, List.length (times_get times k) <= 60)%nat ->
    (forall k, k <> API_KEY env -> times_get times k = []) ->
    (forall k, List.length
                 (times_get (run_auth window_passed env calls times) k)
               <= 60)%nat
    /\ (forall k, k <> API_KEY env ->
          times_get (run_auth window_passed env calls times) k = [])).
  { induction calls as [|[key now] rest IH]; intros times Hb Ho; simpl.
    - now split.
    - apply IH.
      + now apply require_api_key_bound.
      + intros k' Hk'. rewrite require_api_key_other_keys by exact Hk'.
        now apply Ho. }
  destruct (G []) as [Gb Go].
  - intros k'. simpl. lia.
  - reflexivity.
  - split; [apply Gb | apply Go].
Qed.

Lemma in_firstn {A} (n : nat) (l : list A) (x : A) :
  In x (firstn n l) -> In x l.
Proof.
  intros H. rewrite <- (firstn_skipn n l). apply in_or_app. now left.
Qed.

Lemma run_auth_without_expiry key (ts : list float) :
  key <> EmptyString -> key = API_KEY env ->
  forall times,
    (List.length (times_get times key) <= 60)%nat ->
    (forall a b, In a ts -> In b (times_get times key ++ ts)%list ->
       window_passed a b = false) ->
    times_get (run_auth window_passed env (map (pair key) ts) times) key
    = firstn 60 (times_get times key ++ ts).
Proof.
  intros Hne Hkey.
  pose proof (good_key_test key Hne Hkey) as T.
  induction ts as [|a ts IH]; intros times Hlen Hfresh; cbn [map run_auth].
  - rewrite List.app_nil_r. symmetry. now apply firstn_all2.
  - assert (D : drop_expired window_passed a (times_get times key)
                = times_get times key).
    { apply drop_expired_none. intros t Ht. apply Hfresh; [now left|].
      apply in_or_app. now left. }
    unfold require_api_key at 1. rewrite T, D. unfold RATE_LIMIT_PER_MIN.
    destruct (Nat.leb 60 (List.length (times_get times key))) eqn:E; cbn [snd].
    + apply Nat.leb_le in E. rewrite IH.
      * rewrite times_get_set_same.
        rewrite !firstn_app.
        replace (60 - List.length (times_get times key))%nat with 0%nat by lia.
        reflexivity.
      * rewrite times_get_set_same. exact Hlen.
      * rewrite times_get_set_same. intros x y Hx Hy. apply Hfresh.
        -- now right.
        -- apply in_app_or in Hy as [Hy|Hy]; apply in_or_app;
             [now left | right; now right].
    + apply Nat.leb_gt in E. rewrite IH.
      * rewrite times_get_set_same. now rewrite <- List.app_assoc.
      * rewrite times_get_set_same, length_app. cbn [List.length]. lia.
      * rewrite times_get_set_same. intros x y Hx Hy. apply Hfresh.
        -- now right.
        -- rewrite <- List.app_assoc in Hy. exact Hy.
Qed.

(** X26.  Of the calls that arrive with the right key while none of the
    recorded readings has expired, the first sixty are accepted and every
    further one is refused with 429. *)
Theorem sixty_calls_pass_in_a_window
    (key : string) (ts : list float) (now : float) :
  key <> EmptyString -> key = API_KEY env ->
  (forall a b, In a (ts ++ [now])%list -> In b ts -> window_passed a b = false) ->
  ((List.length ts < 60)%nat ->
   fst (require_api_key window_passed env key now
          (run_auth window_passed env (map (pair key) ts) []))
   = Return tt)
  /\ ((60 <= List.length ts)%nat ->
      fst (require_api_key window_passed env key now
             (run_auth window_passed env (map (pair key) ts) []))
      = Raise (HTTPException 429 "Rate limit exceeded")).
Proof.
  intros Hne Hkey Hfresh.
  pose proof (good_key_test key Hne Hkey) as T.
  assert (Q : times_get (run_auth window_passed env (map (pair key) ts) []) key
              = firstn 60 ts).
  { rewrite (run_auth_without_expiry key ts Hne Hkey []).
    - reflexivity.
    - simpl. lia.
    - simpl. intros a b Ha Hb. apply Hfresh; [|exact Hb].
      apply in_or_app. now left. }
  assert (D : drop_expired window_passed now (firstn 60 ts) = firstn 60 ts).
  { apply drop_expired_none. intros t Ht. apply Hfresh.
    - apply in_or_app. right. now left.
    - eapply in_firstn. exact Ht. }
  unfold require_api_key. rewrite T, Q, D. unfold RATE_LIMIT_PER_MIN.
  rewrite length_firstn. split; intros H.
  - replace (Nat.leb 60 (Nat.min 60 (List.length ts))) with false;
      [reflexivity|]. symmetry. apply Nat.leb_gt. lia.
  - replace (Nat.leb 60 (Nat.min 60 (List.length ts))) with true;
      [reflexivity|]. symmetry. apply Nat.leb_le. lia.
Qed.

End AuthFacts.

(** ** JSON texts and the lines of the audit file *)

Lemma json_induction (P : json -> Prop) :
  P JNull -> (forall b, P (JBool b)) -> (forall z, P (JInt z)) ->
  (forall s, P (JStr s)) ->
  (forall l, Forall P l -> P (JArr l)) ->
  (forall l, Forall (fun kv => P (snd kv)) l -> P (JObj l)) ->
  forall v, P v.
Proof.
  intros Hn Hb Hi Hs Ha Ho. fix F 1.
  intros [ | b | z | s | l | l].
  - exact Hn.
  - apply Hb.
  - apply Hi.
  - apply Hs.
  - apply Ha. induction l as [|x l IH]; constructor; [apply F | exact IH].
  - apply Ho. induction l as [|[k x] l IH]; constructor; [apply F | exact IH].
Qed.

Lemma has_char_app c a b : has_char c (a ++ b) = has_char c a || has_char c b.
Proof.
  induction a as [|x a IH]; simpl; [reflexivity|].
  now rewrite IH, orb_assoc.
Qed.

Lemma escape_char_one_line c : has_char nl (Json.escape_char c) = false.
Proof. destruct c as [[] [] [] [] [] [] [] []]; reflexivity. Qed.

Lemma escape_one_line s : has_char nl (Json.escape s) = false.
Proof.
  induction s as [|c s IH]; simpl; [reflexivity|].
  now rewrite has_char_app, escape_char_one_line, IH.
Qed.

Lemma encode_str_one_line s : has_char nl (Json.encode_str s) = false.
Proof.
  unfold Json.encode_str. simpl.
  now rewrite has_char_app, escape_one_line.
Qed.

Lemma uint_one_line d : has_char nl (NilEmpty.string_of_uint d) = false.
Proof. induction d; simpl; auto. Qed.

Lemma str_of_int_one_line z : has_char nl (Py.str_of_int z) = false.
Proof.
  unfold Py.str_of_int. destruct (Z.to_int z); simpl; apply uint_one_line.
Qed.

Lemma concat_one_line (l : list string) :
  Forall (fun s => has_char nl s = false) l ->
  has_char nl (String.concat ", " l) = false.
Proof.
  induction 1 as [|s l Hs Hl IH]; [reflexivity|].
  destruct l as [|s' l]; [exact Hs|].
  change (String.concat ", " (s :: s' :: l))
    with (s ++ ", " ++ String.concat ", " (s' :: l)).
  rewrite !has_char_app, Hs, IH. reflexivity.
Qed.

Lemma dumps_one_line v : has_char nl (Json.dumps v) = false.
Proof.
  induction v as [ | [] | z | s | l IH | l IH] using json_induction;
    try reflexivity.
  - apply str_of_int_one_line.
  - apply encode_str_one_line.
  - rewrite dumps_arr. simpl. rewrite has_char_app, orb_false_r.
    apply concat_one_line. unfold items_text.
    induction IH; constructor; assumption.
  - rewrite dumps_obj. simpl. rewrite has_char_app, orb_false_r.
    apply concat_one_line.
    induction IH as [|[k x] l Hx Hl IHl]; constructor; [|exact IHl].
    unfold member_text. cbn [fst snd].
    rewrite has_char_app, encode_str_one_line.
    change (": " ++ Json.dumps x) with (String ":" (String " " (Json.dumps x))).
    simpl. exact Hx.
Qed.

(** ** Dictionary updates *)

Lemma dict_get_set_other d k k' v :
  k' <> k -> dict_get (dict_set d k v) k' = dict_get d k'.
Proof.
  intros Hne. induction d as [|[k0 v0] d IH]; simpl.
  - destruct (String.eqb k k') eqn:E; [|reflexivity].
    apply String.eqb_eq in E. congruence.
  - destruct (String.eqb k0 k) eqn:E; simpl.
    + apply String.eqb_eq in E. subst k0.
      destruct (String.eqb k k') eqn:E'; [|reflexivity].
      apply String.eqb_eq in E'. congruence.
    + destruct (String.eqb k0 k'); [reflexivity | exact IH].
Qed.

Lemma dict_set_keys d k v :
  map fst (dict_set d k v)
  = if Py.mem k (map fst d) then map fst d else (map fst d ++ [k])%list.
Proof.
  induction d as [|[k0 v0] d IH]; simpl; [reflexivity|].
  rewrite (String.eqb_sym k k0).
  destruct (String.eqb k0 k) eqn:E; simpl; [reflexivity|].
  rewrite IH. change (existsb (String.eqb k) (map fst d))
    with (Py.mem k (map fst d)).
  now destruct (Py.mem k (map fst d)).
Qed.

Lemma nodupb_snoc l k :
  nodupb l = true -> Py.mem k l = false -> nodupb (l ++ [k]) = true.
Proof.
  induction l as [|x l IH]; simpl; [reflexivity|].
  intros H Hk. apply andb_true_iff in H as [Hx Hl].
  apply orb_false_iff in Hk as [Hkx Hkl].
  rewrite mem_app, IH by assumption.
  apply negb_true_iff in Hx. rewrite Hx.
  change (Py.mem x [k]) with (String.eqb x k || false).
  rewrite (String.eqb_sym x k), Hkx. reflexivity.
Qed.

Lemma dict_set_wf d k v :
  wf_json (JObj d) = true -> wf_json v = true ->
  wf_json (JObj (dict_set d k v)) = true.
Proof.
  cbn [wf_json]. intros H Hv. apply andb_true_iff in H as [Hn Hw].
  apply andb_true_iff. split.
  - rewrite dict_set_keys. destruct (Py.mem k (map fst d)) eqn:E;
      [exact Hn | now apply nodupb_snoc].
  - clear Hn. induction d as [|[k0 v0] d IH]; simpl.
    + now rewrite Hv.
    + simpl in Hw. apply andb_true_iff in Hw as [H0 Hd].
      destruct (String.eqb k0 k); simpl.
      * now rewrite Hv, Hd.
      * now rewrite H0, IH.
Qed.

Lemma dict_update_wf e d :
  wf_json (JObj d) = true ->
  forallb (fun kv => wf_json (snd kv)) e = true ->
  wf_json (JObj (dict_update d e)) = true.
Proof.
  unfold dict_update. revert d.
  induction e as [|[k v] e IH]; intros d Hd He; simpl; [exact Hd|].
  simpl in He. apply andb_true_iff in He as [Hv He].
  apply IH; [now apply dict_set_wf | exact He].
Qed.

Lemma dict_get_update e d k :
  nodupb (map fst e) = true ->
  dict_get (dict_update d e) k
  = match dict_get e k with
    | Some v => Some v
    | None => dict_get d k
    end.
Proof.
  unfold dict_update. revert d.
  induction e as [|[k0 v0] e IH]; intros d Hn; simpl; [reflexivity|].
  simpl in Hn. apply andb_true_iff in Hn as [H0 Hn].
  apply negb_true_iff in H0.
  rewrite (IH _ Hn).
  destruct (String.eqb k0 k) eqn:E.
  - apply String.eqb_eq in E. subst k0.
    rewrite (dict_get_not_mem e k H0). apply dict_get_set_same.
  - apply String.eqb_neq in E.
    destruct (dict_get e k); [reflexivity|].
    apply dict_get_set_other. congruence.
Qed.

(** X4.  [log_event] on a dictionary appends exactly one line to the audit
    file: the text before the line feed contains no line feed and reads
    back, with [json.loads], as a dictionary that carries every entry of
    the event; its [ts] is the clock reading in ISO form with a Z, unless
    the event has a [ts] of its own, which then wins.  The tables are
    untouched. *)
Theorem log_event_writes_one_json_line
    amb (event : list (string * json)) (w : world) :
  wf_json (JObj event) = true ->
  exists record line w',
    log_event amb event w = (Return tt, w')
    /\ audit_log w' = audit_log w ++ line ++ String nl EmptyString
    /\ has_char nl line = false
    /\ Json.loads line = Some (JObj record)
    /\ (forall k v, dict_get event k = Some v -> dict_get record k = Some v)
    /\ (dict_get event "ts" = None ->
        dict_get record "ts"
        = Some (JStr (isoformat (utcnow_at amb (clock_reads w)) ++ "Z")))
    /\ same_db w w'.
Proof.
  intros Hwf. cbn [wf_json] in Hwf. apply andb_true_iff in Hwf as [Hn Hv].
  set (ts := JStr (isoformat (utcnow_at amb (clock_reads w)) ++ "Z")).
  exists (dict_update [("ts", ts)] event).
  exists (Json.dumps (JObj (dict_update [("ts", ts)] event))).
  exists (logged amb event w).
  split; [apply log_event_run|]. split; [reflexivity|].
  split; [apply dumps_one_line|]. split.
  - apply loads_dumps. apply dict_update_wf; [reflexivity | exact Hv].
  - split; [|split; [|apply logged_same_db]].
    + intros k v Hk. now rewrite dict_get_update, Hk.
    + intros Hts. rewrite dict_get_update, Hts by exact Hn. reflexivity.
Qed.

(** X5.  What the models' [loads] reads from the text their [dumps] wrote is
    the value that was written, for every value whose dictionaries have
    distinct keys, as the dictionaries of Python have. *)
Theorem stored_json_round_trip (v : json) :
  wf_json v = true ->
  PendingAction.loads (PendingAction.dumps v) = Some v
  /\ IdempotencyRecord.loads (IdempotencyRecord.dumps v) = Some v.
Proof.
  intros H. split; now apply loads_dumps.
Qed.

(** X6.  In every world the server reaches from an empty database, the
    response of every idempotency record decodes to a dictionary and the
    payload of every pending action decodes to a dictionary with an
    integer [customer_id] and a string [new_status]. *)
Theorem stored_documents_always_decode (reqs : list (ambient * request)) :
  records_ok (run reqs empty_world) = true
  /\ pending_ok (run reqs empty_world) = true.
Proof.
  split; [now apply run_records_ok | apply reachable_pending_ok].
Qed.

(** ** The registry and the handlers *)

(** X21.  What TOOL_REGISTRY declares agrees with the handlers: a tool listed
    with risk low changes no row of any table, and a tool listed without
    idempotency support leaves the idempotency records as they are,
    whatever the request and whether or not it is allowed. *)
Theorem registry_agrees_with_the_handlers
    amb (req : request) (name : string) (meta : tool_meta) (w : world) :
  tool_of req = Some name ->
  In (name, meta) TOOL_REGISTRY ->
  (risk meta = "low" -> same_db w (snd (handle amb req w)))
  /\ (idempotency meta = false ->
        idempotency_records (snd (handle amb req w)) = idempotency_records w).
Proof.
  intros Htool Hin. unfold TOOL_REGISTRY in Hin. simpl in Hin.
  destruct req as [p | p k | p | pid p | p | p]; cbn [tool_of] in Htool;
    try discriminate; injection Htool as <-; cbn [handle];
    repeat (destruct Hin as [Hin | Hin];
            [first [discriminate Hin | injection Hin as <-]|]);
    try contradiction; cbn [risk idempotency];
    (split; [intros Hr | intros Hi]; try discriminate).
  - apply search_customer_same_db.
  - apply search_customer_same_db.
  - apply update_customer_status_records.
  - apply send_message_same_db.
  - apply send_message_same_db.
  - apply get_incident_impact_same_db.
  - apply get_incident_impact_same_db.
Qed.

(** * The client flow against the server *)

Lemma find_filter {A} (f : A -> bool) (l : list A) (x : A) :
  find f l = Some x -> exists rest, filter f l = x :: rest.
Proof.
  induction l as [|y l IH]; simpl; [discriminate|].
  destruct (f y) eqn:E.
  - intros H. injection H as <-. eexists. reflexivity.
  - exact IH.
Qed.

Lemma search_run amb (p : SearchCustomerIn.t) w :
  In "search_customer" (allowed_tools amb) ->
  exists w',
    search_customer amb p w
    = (Return
         (JObj [("results",
                 JArr (map Customer.to_dict
                         (filter (fun c =>
                                    Py.contains
                                      (Py.lower (Py.strip (SearchCustomerIn.query p)))
                                      (Py.lower (Customer.name c)))
                                 (customers w))))]), w')
    /\ same_db w w'.
Proof.
  intros Hallow. eexists. split.
  - unfold search_customer, bind. rewrite tool_guard_ok by assumption.
    unfold gets. rewrite log_event_run. reflexivity.
  - apply logged_same_db.
Qed.

Lemma send_run amb (p : SendMessageIn.t) w :
  In "send_message" (allowed_tools amb) ->
  exists w',
    send_message amb p w
    = (Return (JObj [("sent", JBool true);
                     ("channel", JStr (SendMessageIn.channel p))]), w')
    /\ same_db w w'.
Proof.
  intros Hallow. eexists. split.
  - unfold send_message, bind. rewrite tool_guard_ok by assumption.
    rewrite log_event_run. reflexivity.
  - apply logged_same_db.
Qed.

Lemma update_park_run amb (p : UpdateCustomerStatusIn.t) cust w :
  In "update_customer_status" (allowed_tools amb) ->
  find_customer (UpdateCustomerStatusIn.customer_id p) w = Some cust ->
  UpdateCustomerStatusIn.confirm p = false ->
  find_pending_action (uuid4_hex amb) w = None ->
  exists w' created,
    update_customer_status amb p w
    = (Return (JObj [("requires_confirmation", JBool true);
                     ("pending_action_id", JStr (uuid4_hex amb));
                     ("customer", JNull)]), w')
    /\ customers w' = customers w
    /\ tickets w' = tickets w
    /\ idempotency_records w' = idempotency_records w
    /\ find_pending_action (uuid4_hex amb) w'
       = Some (PendingAction.mk (uuid4_hex amb) "update_customer_status"
                 (PendingAction.dumps (UpdateCustomerStatusIn.model_dump p))
                 "pending" created)
    /\ (forall pid, pid <> uuid4_hex amb ->
          find_pending_action pid w' = find_pending_action pid w).
Proof.
  intros Hallow Hcust Hconf Hfresh. eexists _, _. split.
  - unfold update_customer_status, bind.
    rewrite tool_guard_ok by assumption.
    unfold gets at 1. rewrite Hcust, Hconf. cbn [negb].
    unfold add_pending_action, bind, utcnow, gets.
    change (find_pending_action (uuid4_hex amb)
              (set_clock_reads w (S (clock_reads w))))
      with (find_pending_action (uuid4_hex amb) w).
    rewrite Hfresh. unfold modify. rewrite log_event_run. reflexivity.
  - split; [reflexivity|]. split; [reflexivity|]. split; [reflexivity|].
    split.
    + unfold find_pending_action in *. unfold logged. simpl.
      rewrite find_app_last, Hfresh. simpl. now rewrite String.eqb_refl.
    + intros pid Hne. unfold find_pending_action. unfold logged. simpl.
      rewrite find_app_last.
      destruct (find _ (pending_actions w)); [reflexivity|]. simpl.
      destruct (String.eqb (uuid4_hex amb) pid) eqn:E; [|reflexivity].
      apply String.eqb_eq in E. congruence.
Qed.

Lemma confirm_run amb pid (pa : PendingAction.t)
    (p : UpdateCustomerStatusIn.t) cust w :
  find_pending_action pid w = Some pa ->
  PendingAction.status pa = "pending" ->
  PendingAction.action_type pa = "update_customer_status" ->
  PendingAction.payload_json pa
    = PendingAction.dumps (UpdateCustomerStatusIn.model_dump p) ->
  find_customer (UpdateCustomerStatusIn.customer_id p) w = Some cust ->
  exists r w',
    confirm_action amb pid (ConfirmIn.mk true) w = (Return r, w')
    /\ customers w'
       = customers (update_customer_row (UpdateCustomerStatusIn.customer_id p)
                      (Py.strip (UpdateCustomerStatusIn.new_status p)) w)
    /\ tickets w' = tickets w
    /\ idempotency_records w' = idempotency_records w
    /\ find_pending_action pid w'
       = Some (PendingAction.with_status pa "confirmed")
    /\ (forall pid', pid' <> pid ->
          find_pending_action pid' w' = find_pending_action pid' w).
Proof.
  intros Hfind Hpending Htype Hjson Hcust.
  assert (Hloads : PendingAction.loads (PendingAction.payload_json pa)
                   = Some (UpdateCustomerStatusIn.model_dump p))
    by (rewrite Hjson; apply payload_round_trip).
  pose proof (confirm_applies amb pid pa w Hfind Hpending _ Hloads Htype
                _ (UpdateCustomerStatusIn.customer_id p) eq_refl eq_refl
                cust (UpdateCustomerStatusIn.new_status p) Hcust eq_refl) as E.
  eexists _, _. split; [exact E|].
  split; [reflexivity|]. split; [reflexivity|]. split; [reflexivity|]. split.
  - change (find_pending_action pid
              (logged amb ?e (update_pending_row ?q ?t
                 (update_customer_row ?c ?u w))))
      with (find_pending_action pid (update_pending_row q t w)).
    now rewrite find_pending_updated, Hfind.
  - intros pid' Hne.
    change (find_pending_action pid'
              (logged amb ?e (update_pending_row ?q ?t
                 (update_customer_row ?c ?u w))))
      with (find_pending_action pid' (update_pending_row q t w)).
    now apply find_pending_updated_other.
Qed.

Lemma serve_db amb req w :
  uses_db req = true ->
  serve amb req w = handle amb req (snd (seed_if_empty w)).
Proof.
  intros H. unfold serve, bind. rewrite H.
  pose proof (seed_if_empty_returns w) as R.
  destruct (seed_if_empty w) as [r w0]. cbn [fst snd] in *. now rewrite R.
Qed.

Lemma find_by_id (l : list Customer.t) (c : Customer.t) :
  NoDup (map Customer.id l) -> In c l ->
  find (fun x => Customer.id x =? Customer.id c) l = Some c.
Proof.
  induction l as [|x l IH]; simpl; [contradiction|].
  intros Hnd Hin. inversion Hnd as [|? ? Hx Hl]; subst.
  destruct Hin as [->|Hin].
  - now rewrite Z.eqb_refl.
  - destruct (Customer.id x =? Customer.id c) eqn:E; [|now apply IH].
    apply Z.eqb_eq in E. exfalso. apply Hx. rewrite E.
    now apply in_map.
Qed.

Lemma confirm_resolve_run amb pid (pa : PendingAction.t)
    (p : UpdateCustomerStatusIn.t) cust w (b : bool) :
  find_pending_action pid w = Some pa ->
  PendingAction.status pa = "pending" ->
  PendingAction.action_type pa = "update_customer_status" ->
  PendingAction.payload_json pa
    = PendingAction.dumps (UpdateCustomerStatusIn.model_dump p) ->
  find_customer (UpdateCustomerStatusIn.customer_id p) w = Some cust ->
  exists r w',
    confirm_action amb pid (ConfirmIn.mk b) w = (Return r, w')
    /\ customers w'
       = (if b
          then customers
                 (update_customer_row (UpdateCustomerStatusIn.customer_id p)
                    (Py.strip (UpdateCustomerStatusIn.new_status p)) w)
          else customers w)
    /\ tickets w' = tickets w
    /\ idempotency_records w' = idempotency_records w
    /\ find_pending_action pid w'
       = Some (PendingAction.with_status pa
                 (if b then "confirmed" else "rejected"))
    /\ (forall pid', pid' <> pid ->
          find_pending_action pid' w' = find_pending_action pid' w).
Proof.
  intros Hfind Hpending Htype Hjson Hcust. destruct b.
  - now apply confirm_run with (cust := cust).
  - eexists _, _. split; [now apply confirm_reject with (pa := pa)|].
    split; [reflexivity|]. split; [reflexivity|]. split; [reflexivity|]. split.
    + change (find_pending_action pid (logged amb ?e ?x))
        with (find_pending_action pid x).
      now rewrite find_pending_updated, Hfind.
    + intros pid' Hne.
      change (find_pending_action pid' (logged amb ?e ?x))
        with (find_pending_action pid' x).
      now apply find_pending_updated_other.
Qed.

Lemma create_ticket_first_run_row amb payload key cust w :
  In "create_ticket" (allowed_tools amb) ->
  key <> EmptyString ->
  find_customer (CreateTicketIn.customer_id payload) w = Some cust ->
  find_idempotency_record "create_ticket" key w = None ->
  exists t rec w1,
    create_ticket amb payload (Some key) w
    = (Return (JObj (ticket_response t ++
                     [("idempotent_replay", JBool false)])), w1)
    /\ tickets w1 = (tickets w ++ [t])%list
    /\ find_idempotency_record "create_ticket" key w1 = Some rec
    /\ IdempotencyRecord.response_json rec
       = IdempotencyRecord.dumps (JObj (ticket_response t))
    /\ Ticket.customer_id t = CreateTicketIn.customer_id payload
    /\ Ticket.title t = Py.strip (CreateTicketIn.title payload)
    /\ Ticket.priority t
       = Py.lower (Py.strip (CreateTicketIn.priority payload)).
Proof.
  intros Hallow Hkey Hcust Hnone.
  unfold create_ticket, bind.
  rewrite tool_guard_ok by assumption.
  rewrite given_truthy by assumption.
  unfold get_cached_response, bind, gets at 1. rewrite Hnone.
  cbn [ret is_None negb]. unfold gets at 1. rewrite Hcust.
  unfold add_ticket, store_response, bind, gets, ret, modify, utcnow.
  change (find_idempotency_record "create_ticket" key (set_clock_reads ?w0 ?n))
    with (find_idempotency_record "create_ticket" key w0).
  change (find_idempotency_record "create_ticket" key (set_tickets ?w0 ?n))
    with (find_idempotency_record "create_ticket" key w0).
  change (find_idempotency_record "create_ticket" key (set_clock_reads ?w0 ?n))
    with (find_idempotency_record "create_ticket" key w0).
  rewrite Hnone. rewrite log_event_run.
  set (t := Ticket.mk (next_id (map Ticket.id (tickets w)))
              (Py.strip (CreateTicketIn.title payload))
              (Py.strip (CreateTicketIn.description payload))
              (Py.lower (Py.strip (CreateTicketIn.priority payload)))
              (utcnow_at amb (clock_reads w))
              (CreateTicketIn.customer_id payload)).
  exists t,
    (IdempotencyRecord.mk
       (next_id (map IdempotencyRecord.id (idempotency_records w)))
       "create_ticket" key
       (IdempotencyRecord.dumps (JObj (ticket_response t)))
       (utcnow_at amb (S (clock_reads w)))).
  eexists. split; [reflexivity|].
  split; [reflexivity|]. split; [|repeat split].
  unfold find_idempotency_record in *. unfold logged. simpl.
  rewrite find_app_last, Hnone. simpl.
  now rewrite String.eqb_refl.
Qed.


Arguments post : simpl never.

Section ClientFacts.

Context {float : Type} (window_passed : float -> float -> bool).
Variable env : option string.
Variable supply : nat -> ambient * float.
Variable client : ToolClient.t.
Hypothesis key_set : ToolClient.api_key client <> EmptyString.
Hypothesis key_right : ToolClient.api_key client = API_KEY env.

Lemma post_serve (req : request) (n : net float) j w' :
  (List.length (times_get (fst (server n)) (ToolClient.api_key client)) < 60)%nat ->
  valid_body req = true ->
  serve (fst (supply (posts n))) req (snd (server n)) = (Return j, w') ->
  exists times',
    post window_passed env supply client req n
    = (Done j, mk_net (times', w') (S (posts n)) (stdout n) (stdin n))
    /\ (List.length (times_get times' (ToolClient.api_key client))
        <= S (List.length
                (times_get (fst (server n)) (ToolClient.api_key client))))%nat.
Proof.
  intros Hroom Hvalid Hh.
  pose proof (good_key_test env _ key_set key_right) as T.
  destruct (supply (posts n)) as [amb now] eqn:Hs. cbn [fst] in Hh.
  pose proof (drop_expired_length window_passed now
                (times_get (fst (server n)) (ToolClient.api_key client))) as L.
  eexists. split.
  - unfold post. rewrite Hs. unfold endpoint, require_api_key.
    rewrite T. unfold RATE_LIMIT_PER_MIN.
    replace (Nat.leb 60 _) with false by (symmetry; apply Nat.leb_gt; lia).
    cbn [fst snd]. rewrite Hvalid. rewrite Hh. reflexivity.
  - rewrite times_get_set_same, length_app. simpl. lia.
Qed.

Lemma post_run (req : request) (n : net float) j w' :
  (List.length (times_get (fst (server n)) (ToolClient.api_key client)) < 60)%nat ->
  valid_body req = true ->
  customers (snd (server n)) <> [] ->
  handle (fst (supply (posts n))) req (snd (server n)) = (Return j, w') ->
  exists times',
    post window_passed env supply client req n
    = (Done j, mk_net (times', w') (S (posts n)) (stdout n) (stdin n))
    /\ (List.length (times_get times' (ToolClient.api_key client))
        <= S (List.length
                (times_get (fst (server n)) (ToolClient.api_key client))))%nat.
Proof.
  intros Hroom Hvalid Hseeded Hh. apply post_serve; try assumption.
  now rewrite serve_seeded.
Qed.

Lemma flow_runs (customer_name idem_key : string) (auto_approve : bool)
    (n : net float) (cust : Customer.t) (approve : bool) (rest : list string)
    (ticket : json) (w2 : world) :
  let w0 := snd (seed_if_empty (snd (server n))) in
  let amb i := fst (supply (posts n + i)) in
  let pid := uuid4_hex (amb 2%nat) in
  (List.length (times_get (fst (server n)) (ToolClient.api_key client)) + 5
   <= 60)%nat ->
  open_policy (amb 0%nat) -> open_policy (amb 2%nat) ->
  open_policy (amb 4%nat) ->
  customer_name <> EmptyString ->
  NoDup (map Customer.id (customers w0)) ->
  first_match customer_name w0 = Some cust ->
  find_pending_action pid w0 = None ->
  approves auto_approve (stdin n) = Some (approve, rest) ->
  create_ticket (amb 1%nat)
    (CreateTicketIn.mk (Customer.id cust) "Customer reports latency issues"
       "Customer reports increased latency in the product. Please investigate."
       "high")
    (given (Some idem_key))
    (snd (search_customer (amb 0%nat) (SearchCustomerIn.mk customer_name) w0))
  = (Return ticket, w2) ->
  exists n',
    run_simple_ops_flow window_passed env supply client customer_name
      idem_key auto_approve n = (Done tt, n')
    /\ posts n' = (posts n + 5)%nat
    /\ (List.length (times_get (fst (server n')) (ToolClient.api_key client))
        <= List.length (times_get (fst (server n)) (ToolClient.api_key client))
           + 5)%nat
    /\ stdin n' = rest
    /\ customers (snd (server n'))
       = (if approve
          then customers (update_customer_row (Customer.id cust)
                            "Investigating" w0)
          else customers w0)
    /\ tickets (snd (server n')) = tickets w2
    /\ idempotency_records (snd (server n')) = idempotency_records w2
    /\ (exists pa,
          find_pending_action pid (snd (server n')) = Some pa
          /\ PendingAction.status pa
             = (if approve then "confirmed" else "rejected"))
    /\ (forall pid', pid' <> pid ->
          find_pending_action pid' (snd (server n'))
          = find_pending_action pid' w0).
Proof.
  intros w0 amb pid Hroom Hp0 Hp2 Hp4 Hname Hnd Hmatch Hfresh Hdec0 Hcreate.
  assert (Hdec :
    auto_approve = true /\ approve = true /\ rest = stdin n
    \/ auto_approve = false
       /\ exists line, stdin n = line :: rest
            /\ approve = String.eqb (Py.lower (Py.strip line)) "y").
  { unfold approves in Hdec0. destruct auto_approve.
    - left. injection Hdec0 as <- <-. tauto.
    - right. split; [reflexivity|].
      destruct (stdin n) as [|line lines]; [discriminate|].
      injection Hdec0 as <- <-. now exists line. }
  clear Hdec0.
  (* the customer *)
  unfold first_match in Hmatch.
  destruct (find_filter _ _ _ Hmatch) as (others & Hfilter).
  assert (Hin : In cust (customers w0)) by (apply find_some in Hmatch; tauto).
  assert (Hcust : find_customer (Customer.id cust) w0 = Some cust)
    by (apply find_by_id; assumption).
  assert (Hseeded : customers w0 <> []) by (intros E; rewrite E in Hin; exact Hin).
  (* 1) the search *)
  destruct (search_run (amb 0%nat) (SearchCustomerIn.mk customer_name) w0)
    as (w1 & E1 & S1).
  { apply Hp0. unfold DEFAULT_ALLOWED. simpl. tauto. }
  rewrite E1 in Hcreate. cbn [snd] in Hcreate.
  cbn [SearchCustomerIn.query] in E1. rewrite Hfilter in E1.
  edestruct (post_serve (SearchCustomer (SearchCustomerIn.mk customer_name)) n)
    as (t1 & P1 & L1);
    [ lia
    | cbn; destruct customer_name; [congruence | reflexivity]
    | rewrite serve_db by reflexivity; fold w0; cbn [handle];
      replace (posts n) with (posts n + 0)%nat by lia; exact E1
    | ].
  unfold run_simple_ops_flow, client_search_customer.
  unfold cbind at 1. rewrite P1.
  unfold client_create_ticket, client_update_customer_status, client_confirm,
    client_send_message.
  cbn.
  destruct S1 as (S1c & S1t & S1r & S1p).
  (* 2) the ticket *)
  unfold cbind at 1.
  match goal with |- context [post _ _ _ _ ?r ?m] =>
    edestruct (post_run r m) as (t2 & P2 & L2);
      [ cbn [server fst]; lia
      | reflexivity
      | cbn [server snd]; now rewrite S1c
      | cbn [server snd posts handle];
        replace (S (posts n)) with (posts n + 1)%nat by lia; exact Hcreate
      | ]
  end.
  rewrite P2. cbn [server fst snd posts stdout stdin] in L2 |- *.
  destruct (create_ticket_frame (amb 1%nat)
              (CreateTicketIn.mk (Customer.id cust)
                 "Customer reports latency issues"
                 "Customer reports increased latency in the product. Please investigate."
                 "high")
              (given (Some idem_key)) w1) as (F2c & F2p).
  rewrite Hcreate in F2c, F2p. cbn [snd] in F2c, F2p.
  (* 3) the update is parked *)
  edestruct (update_park_run (amb 2%nat)
               (UpdateCustomerStatusIn.mk (Customer.id cust) "Investigating"
                  false) cust w2)
    as (w3 & created & E3 & U3c & U3t & U3r & U3f & U3o).
  { apply Hp2. unfold DEFAULT_ALLOWED. simpl. tauto. }
  { unfold find_customer in *. cbn [UpdateCustomerStatusIn.customer_id].
    now rewrite F2c, S1c. }
  { reflexivity. }
  { unfold find_pending_action in *. now rewrite F2p, S1p. }
  unfold cbind at 1. unfold print at 1. cbn [server posts stdout stdin].
  unfold cbind at 1.
  match goal with |- context [post _ _ _ _ ?r ?m] =>
    edestruct (post_run r m) as (t3 & P3 & L3);
      [ cbn [server fst]; lia
      | reflexivity
      | cbn [server snd]; now rewrite F2c, S1c
      | cbn [server snd posts handle];
        replace (S (S (posts n))) with (posts n + 2)%nat by lia; exact E3
      | ]
  end.
  rewrite P3. cbn [server fst snd posts stdout stdin] in L3 |- *.
  cbn.
  (* the confirmation, whichever way it is decided *)
  assert (Hres : forall b, exists r w4,
            confirm_action (amb 3%nat) pid (ConfirmIn.mk b) w3 = (Return r, w4)
            /\ customers w4
               = (if b
                  then customers (update_customer_row (Customer.id cust)
                                    "Investigating" w0)
                  else customers w0)
            /\ tickets w4 = tickets w2
            /\ idempotency_records w4 = idempotency_records w2
            /\ (exists pa,
                  find_pending_action pid w4 = Some pa
                  /\ PendingAction.status pa
                     = (if b then "confirmed" else "rejected"))
            /\ (forall pid', pid' <> pid ->
                  find_pending_action pid' w4 = find_pending_action pid' w0)).
  { intros b.
    assert (Hc3 : find_customer (Customer.id cust) w3 = Some cust)
      by (unfold find_customer in *; now rewrite U3c, F2c, S1c).
    destruct (confirm_resolve_run (amb 3%nat) pid _
                (UpdateCustomerStatusIn.mk (Customer.id cust) "Investigating"
                   false) cust w3 b U3f eq_refl eq_refl eq_refl Hc3)
      as (r & w4 & E4 & C4c & C4t & C4r & C4f & C4o).
    exists r, w4. split; [exact E4|].
    split.
    { rewrite C4c. destruct b; [|now rewrite U3c, F2c, S1c].
      unfold update_customer_row. cbn. now rewrite U3c, F2c, S1c. }
    split; [now rewrite C4t, U3t|]. split; [now rewrite C4r, U3r|].
    split.
    { eexists. split; [exact C4f|]. reflexivity. }
    intros pid' Hne. rewrite C4o, U3o by exact Hne.
    unfold find_pending_action. now rewrite F2p, S1p. }
  destruct (Hres approve)
    as (r4 & w4 & E4 & C4c & C4t & C4r & C4f & C4o).
  clear Hres.
  (* 4) the message *)
  destruct (send_run (amb 4%nat)
              (SendMessageIn.mk "#support"
                 ("Created ticket for " ++ Customer.name cust
                  ++ " and set status to Investigating.")) w4)
    as (w5 & E5 & S5c & S5t & S5r & S5p).
  { apply Hp4. unfold DEFAULT_ALLOWED. simpl. tauto. }
  assert (Hseeded4 : customers w4 <> []).
  { rewrite C4c. destruct approve; [|exact Hseeded].
    unfold update_customer_row. cbn [customers set_customers].
    intros E. apply map_eq_nil in E. contradiction. }
  unfold cbind, as_str, cret, print, input.
  cbn [server posts stdout stdin fst snd].
  assert (Hcases :
    auto_approve = true /\ rest = stdin n
    \/ auto_approve = false /\ exists line, stdin n = line :: rest
         /\ approve = String.eqb (Py.lower (Py.strip line)) "y").
  { destruct Hdec as [(Ha & Hap & Hr) | (Ha & line & Hline & Hap)];
      [left; tauto | right; split; [exact Ha|]; exists line; tauto]. }
  assert (Happ : auto_approve = true -> approve = true) by
    (destruct Hdec as [(Ha & Hap & Hr) | (Ha & line & Hline & Hap)];
       [tauto | congruence]).
  clear Hdec.
  destruct Hcases as [(Ha & Hr) | (Ha & line & Hline & Hap)]; subst auto_approve;
    [ rewrite (Happ eq_refl) in *
    | cbn [server posts stdout stdin fst snd]; rewrite Hline;
      cbn [server posts stdout stdin fst snd]; rewrite <- Hap;
      destruct approve ].
  all: cbn [server posts stdout stdin fst snd].
  all: match goal with |- context [post _ _ _ _ ?r ?m] =>
      edestruct (post_run r m) as (t4 & P4 & L4);
        [ cbn [server fst]; lia
        | reflexivity
        | cbn [server snd]; now rewrite U3c, F2c, S1c
        | cbn [server snd posts handle];
          replace (S (S (S (posts n)))) with (posts n + 3)%nat by lia; exact E4
        | ]
    end.
  all: rewrite P4; cbn [server fst snd posts stdout stdin] in L4 |- *.
  all: match goal with |- context [post _ _ _ _ ?r ?m] =>
      edestruct (post_run r m) as (t5 & P5 & L5);
        [ cbn [server fst]; lia
        | reflexivity
        | cbn [server snd]; exact Hseeded4
        | cbn [server snd posts handle];
          replace (S (S (S (S (posts n))))) with (posts n + 4)%nat by lia;
          exact E5
        | ]
    end.
  all: rewrite P5; cbn [server fst snd posts stdout stdin] in L5 |- *.
  all: eexists; split; [reflexivity|].
  all: cbn [server fst snd posts stdout stdin].
  all: split; [lia|]; split; [lia|];
    split; [first [reflexivity | now symmetry]|].
  all: split; [now rewrite S5c|]; split; [now rewrite S5t|];
    split; [now rewrite S5r|]; split.
  all: try (destruct C4f as (pa & Hpa & Hst); exists pa;
            split; [|exact Hst];
            unfold find_pending_action in *; now rewrite S5p).
  all: intros pid' Hne; rewrite <- (C4o pid' Hne);
    unfold find_pending_action; now rewrite S5p.
Qed.

(** the flow under a key that has no record yet *)
Lemma flow_first_runs (customer_name idem_key : string) (auto_approve : bool)
    (n : net float) (cust : Customer.t) (approve : bool) (rest : list string) :
  let w0 := snd (seed_if_empty (snd (server n))) in
  let amb i := fst (supply (posts n + i)) in
  let pid := uuid4_hex (amb 2%nat) in
  (List.length (times_get (fst (server n)) (ToolClient.api_key client)) + 5
   <= 60)%nat ->
  (forall i, (i < 5)%nat -> open_policy (amb i)) ->
  customer_name <> EmptyString ->
  idem_key <> EmptyString ->
  NoDup (map Customer.id (customers w0)) ->
  first_match customer_name w0 = Some cust ->
  find_idempotency_record "create_ticket" idem_key w0 = None ->
  find_pending_action pid w0 = None ->
  approves auto_approve (stdin n) = Some (approve, rest) ->
  exists n' t rec,
    run_simple_ops_flow window_passed env supply client customer_name
      idem_key auto_approve n = (Done tt, n')
    /\ posts n' = (posts n + 5)%nat
    /\ (List.length (times_get (fst (server n')) (ToolClient.api_key client))
        <= List.length (times_get (fst (server n)) (ToolClient.api_key client))
           + 5)%nat
    /\ stdin n' = rest
    /\ customers (snd (server n'))
       = (if approve
          then customers (update_customer_row (Customer.id cust)
                            "Investigating" w0)
          else customers w0)
    /\ tickets (snd (server n')) = (tickets w0 ++ [t])%list
    /\ (Ticket.customer_id t = Customer.id cust
        /\ Ticket.title t = "Customer reports latency issues"
        /\ Ticket.priority t = "high")
    /\ (find_idempotency_record "create_ticket" idem_key (snd (server n'))
        = Some rec
        /\ IdempotencyRecord.response_json rec
           = IdempotencyRecord.dumps (JObj (ticket_response t)))
    /\ (exists pa,
          find_pending_action pid (snd (server n')) = Some pa
          /\ PendingAction.status pa
             = (if approve then "confirmed" else "rejected"))
    /\ (forall pid', pid' <> pid ->
          find_pending_action pid' (snd (server n'))
          = find_pending_action pid' w0).
Proof.
  intros w0 amb pid Hroom Hpol Hname Hkey Hnd Hmatch Hnone Hfresh Hdec.
  assert (Hin : In cust (customers w0))
    by (unfold first_match in Hmatch; apply find_some in Hmatch; tauto).
  pose proof (search_customer_same_db (amb 0%nat)
                (SearchCustomerIn.mk customer_name) w0)
    as (S1c & S1t & S1r & S1p).
  set (w1 := snd (search_customer (amb 0%nat)
                    (SearchCustomerIn.mk customer_name) w0)) in *.
  destruct (create_ticket_first_run_row (amb 1%nat)
              (CreateTicketIn.mk (Customer.id cust)
                 "Customer reports latency issues"
                 "Customer reports increased latency in the product. Please investigate."
                 "high") idem_key cust w1)
    as (t & rec & w2 & E2 & T2 & R2 & J2 & Tc & Tt & Tp).
  { apply Hpol; [lia|]. unfold DEFAULT_ALLOWED. simpl. tauto. }
  { exact Hkey. }
  { unfold find_customer. rewrite S1c. now apply find_by_id. }
  { rewrite (find_record_ext _ _ w1 w0) by exact S1r. exact Hnone. }
  pose proof (flow_runs customer_name idem_key auto_approve n cust approve
                rest) as F.
  cbv zeta in F.
  edestruct F
    as (n' & R & Hposts & Hq & Hstdin & Hc & Ht & Hr & Hpa & Hothers);
    [ exact Hroom | apply Hpol; lia | apply Hpol; lia | apply Hpol; lia
    | exact Hname | exact Hnd | exact Hmatch | exact Hfresh | exact Hdec
    | rewrite given_truthy by exact Hkey; exact E2
    | ].
  exists n', t, rec. split; [exact R|].
  split; [exact Hposts|]. split; [exact Hq|]. split; [exact Hstdin|].
  split; [exact Hc|]. split; [now rewrite Ht, T2, S1t|].
  split; [now repeat split|]. split.
  - split; [|exact J2].
    rewrite (find_record_ext _ _ _ w2) by exact Hr. exact R2.
  - split; [exact Hpa | exact Hothers].
Qed.

(** the flow under a key that has a record *)
Lemma flow_replay_runs (customer_name idem_key : string) (auto_approve : bool)
    (n : net float) (cust : Customer.t) (approve : bool) (rest : list string)
    (rec : IdempotencyRecord.t) (cached : list (string * json)) :
  let w0 := snd (seed_if_empty (snd (server n))) in
  let amb i := fst (supply (posts n + i)) in
  let pid := uuid4_hex (amb 2%nat) in
  (List.length (times_get (fst (server n)) (ToolClient.api_key client)) + 5
   <= 60)%nat ->
  (forall i, (i < 5)%nat -> open_policy (amb i)) ->
  customer_name <> EmptyString ->
  idem_key <> EmptyString ->
  NoDup (map Customer.id (customers w0)) ->
  first_match customer_name w0 = Some cust ->
  find_idempotency_record "create_ticket" idem_key w0 = Some rec ->
  IdempotencyRecord.loads (IdempotencyRecord.response_json rec)
    = Some (JObj cached) ->
  find_pending_action pid w0 = None ->
  approves auto_approve (stdin n) = Some (approve, rest) ->
  exists n',
    run_simple_ops_flow window_passed env supply client customer_name
      idem_key auto_approve n = (Done tt, n')
    /\ posts n' = (posts n + 5)%nat
    /\ (List.length (times_get (fst (server n')) (ToolClient.api_key client))
        <= List.length (times_get (fst (server n)) (ToolClient.api_key client))
           + 5)%nat
    /\ stdin n' = rest
    /\ customers (snd (server n'))
       = (if approve
          then customers (update_customer_row (Customer.id cust)
                            "Investigating" w0)
          else customers w0)
    /\ tickets (snd (server n')) = tickets w0
    /\ idempotency_records (snd (server n')) = idempotency_records w0
    /\ (exists pa,
          find_pending_action pid (snd (server n')) = Some pa
          /\ PendingAction.status pa
             = (if approve then "confirmed" else "rejected"))
    /\ (forall pid', pid' <> pid ->
          find_pending_action pid' (snd (server n'))
          = find_pending_action pid' w0).
Proof.
  intros w0 amb pid Hroom Hpol Hname Hkey Hnd Hmatch Hrec Hloads Hfresh Hdec.
  pose proof (search_customer_same_db (amb 0%nat)
                (SearchCustomerIn.mk customer_name) w0)
    as (S1c & S1t & S1r & S1p).
  set (w1 := snd (search_customer (amb 0%nat)
                    (SearchCustomerIn.mk customer_name) w0)) in *.
  pose proof (create_ticket_replay_run (amb 1%nat)
                (CreateTicketIn.mk (Customer.id cust)
                   "Customer reports latency issues"
                   "Customer reports increased latency in the product. Please investigate."
                   "high") idem_key rec cached w1) as E2.
  pose proof (flow_runs customer_name idem_key auto_approve n cust approve
                rest) as F.
  cbv zeta in F.
  edestruct F
    as (n' & R & Hposts & Hq & Hstdin & Hc & Ht & Hr & Hpa & Hothers);
    [ exact Hroom | apply Hpol; lia | apply Hpol; lia | apply Hpol; lia
    | exact Hname | exact Hnd | exact Hmatch | exact Hfresh | exact Hdec
    | rewrite given_truthy by exact Hkey; apply E2;
      [ apply Hpol; [lia|]; unfold DEFAULT_ALLOWED; simpl; tauto
      | exact Hkey
      | rewrite (find_record_ext _ _ w1 w0) by exact S1r; exact Hrec
      | exact Hloads ]
    | ].
  exists n'. split; [exact R|].
  split; [exact Hposts|]. split; [exact Hq|]. split; [exact Hstdin|].
  split; [exact Hc|]. split; [now rewrite Ht|]. split; [now rewrite Hr|].
  split; [exact Hpa | exact Hothers].
Qed.



End ClientFacts.

Section ClientRefused.

Context {float : Type} (window_passed : float -> float -> bool).
Variable env : option string.
Variable supply : nat -> ambient * float.

(** X29.  A client whose key is empty or not the server's gets 401 on the
    first request of the flow, which ends there with an HTTPError: nothing
    is printed, and the limiter and the database are as before. *)
Theorem flow_with_a_wrong_key_fails_at_once
    (client : ToolClient.t) (customer_name idem_key : string)
    (auto_approve : bool) (n : net float) :
  ToolClient.api_key client = EmptyString
  \/ ToolClient.api_key client <> API_KEY env ->
  exists n',
    run_simple_ops_flow window_passed env supply client customer_name
      idem_key auto_approve n = (Failed (HTTPError 401), n')
    /\ server n' = server n
    /\ posts n' = S (posts n)
    /\ stdout n' = stdout n
    /\ stdin n' = stdin n.
Proof.
  intros Hkey. pose proof (bad_key_test env _ Hkey) as T.
  unfold run_simple_ops_flow, client_search_customer.
  unfold cbind at 1. unfold post.
  destruct (supply (posts n)) as [amb now].
  unfold endpoint, require_api_key. rewrite T.
  eexists. split; [reflexivity|]. cbn [server posts stdout stdin].
  now destruct (server n).
Qed.

End ClientRefused.

(** ** client/scenarios.py *)

Lemma first_match_updated query cid s w cust :
  first_match query w = Some cust ->
  first_match query (update_customer_row cid s w)
  = Some (if Customer.id cust =? cid then Customer.with_status cust s
          else cust).
Proof.
  unfold first_match, update_customer_row. cbn [customers set_customers].
  intros H. rewrite find_map_key.
  - now rewrite H.
  - intros c. now destruct (Customer.id c =? cid).
Qed.

Lemma updated_ids cid s w :
  map Customer.id (customers (update_customer_row cid s w))
  = map Customer.id (customers w).
Proof.
  unfold update_customer_row. cbn [customers set_customers].
  rewrite map_map. apply map_ext. intros c.
  now destruct (Customer.id c =? cid).
Qed.

Section Scenarios.

Context {float : Type} (window_passed : float -> float -> bool).
Variable env : option string.
Variable supply : nat -> ambient * float.
Hypothesis key_right : API_KEY env = CLIENT_API_KEY.

(** X30.  scenarios.py against a server whose key is dev-key, with room in the
    limiter, the default policy and a customer matching ACME: both
    scenarios complete, ten requests in all, and the second, under the
    idempotency key of the first, opens no ticket; the table holds the one
    ticket of the first scenario.  Each scenario parks and confirms a status
    update of its own, and the customer ends as Investigating. *)
Theorem scenarios_open_one_ticket (n : net float) (cust : Customer.t) :
  let w0 := snd (seed_if_empty (snd (server n))) in
  let amb i := fst (supply (posts n + i)) in
  (List.length (times_get (fst (server n)) CLIENT_API_KEY) + 10 <= 60)%nat ->
  (forall i, (i < 10)%nat -> open_policy (amb i)) ->
  NoDup (map Customer.id (customers w0)) ->
  first_match "ACME" w0 = Some cust ->
  find_idempotency_record "create_ticket" "demo-acme-ticket-001" w0 = None ->
  find_pending_action (uuid4_hex (amb 2%nat)) w0 = None ->
  find_pending_action (uuid4_hex (amb 7%nat)) w0 = None ->
  uuid4_hex (amb 2%nat) <> uuid4_hex (amb 7%nat) ->
  exists n' t,
    scenarios_main window_passed env supply n = (Done tt, n')
    /\ posts n' = (posts n + 10)%nat
    /\ tickets (snd (server n')) = (tickets w0 ++ [t])%list
    /\ Ticket.customer_id t = Customer.id cust
    /\ customers (snd (server n'))
       = customers (update_customer_row (Customer.id cust) "Investigating" w0)
    /\ (forall pid,
          pid = uuid4_hex (amb 2%nat) \/ pid = uuid4_hex (amb 7%nat) ->
          exists pa,
            find_pending_action pid (snd (server n')) = Some pa
            /\ PendingAction.status pa = "confirmed").
Proof.
  intros w0 amb Hroom Hpol Hnd Hmatch Hnone Hf2 Hf7 Hne.
  set (client := ToolClient.init BASE_URL CLIENT_API_KEY).
  assert (Hk1 : ToolClient.api_key client <> EmptyString) by discriminate.
  assert (Hk2 : ToolClient.api_key client = API_KEY env)
    by (now rewrite key_right).
  (* the first scenario *)
  set (h1 := Printed [JStr (String "010"%char
                             "--- Scenario 1: första körning ---")]).
  set (n0 := mk_net (server n) (posts n) (stdout n ++ [h1]) (stdin n)).
  destruct (flow_first_runs window_passed env supply client Hk1 Hk2
              "ACME" "demo-acme-ticket-001" true n0 cust true (stdin n))
    as (n1 & t & rec & R1 & P1 & Q1 & I1 & C1 & T1 & (Tc & _) & (Rec1 & J1)
        & (pa1 & Hpa1 & Hst1) & O1).
  { exact Hroom || (cbn [n0 server]; change (ToolClient.api_key client) with CLIENT_API_KEY; lia). }
  { intros i Hi. apply Hpol. lia. }
  { discriminate. }
  { discriminate. }
  { exact Hnd. }
  { exact Hmatch. }
  { exact Hnone. }
  { exact Hf2. }
  { reflexivity. }
  cbn [n0 server posts stdin] in P1, Q1, I1, C1, T1, Rec1, Hpa1, O1.
  fold w0 in C1, T1, O1.
  (* the second scenario *)
  set (cust' := Customer.with_status cust "Investigating").
  set (h2 := Printed [JStr (String "010"%char
     "--- Scenario 2: samma igen (idempotency ska undvika dubblett) ---")]).
  set (n1h := mk_net (server n1) (posts n1) (stdout n1 ++ [h2]) (stdin n1)).
  assert (Hin : In cust (customers w0))
    by (unfold first_match in Hmatch; apply find_some in Hmatch; tauto).
  assert (Hseed : seed_if_empty (snd (server n1)) = (Return tt, snd (server n1))).
  { apply seed_if_empty_inert. rewrite C1. unfold update_customer_row.
    cbn [customers set_customers]. intros E. apply map_eq_nil in E.
    rewrite E in Hin. exact Hin. }
  pose proof (flow_replay_runs window_passed env supply client Hk1 Hk2
                "ACME" "demo-acme-ticket-001" true n1h cust' true (stdin n1)
                rec (ticket_response t)) as F2.
  cbv zeta in F2. cbn [n1h server posts stdin] in F2.
  rewrite Hseed in F2. cbn [snd] in F2. rewrite P1 in F2.
  destruct F2
    as (n2 & R2 & P2 & Q2 & I2 & C2 & T2 & Rec2 & (pa2 & Hpa2 & Hst2) & O2).
  { change (ToolClient.api_key client) with CLIENT_API_KEY in *. lia. }
  { intros i Hi. replace (posts n + 5 + i)%nat with (posts n + (5 + i))%nat
      by lia. apply Hpol. lia. }
  { discriminate. }
  { discriminate. }
  { rewrite C1, updated_ids. exact Hnd. }
  { unfold first_match. rewrite C1.
    change (first_match "ACME"
              (update_customer_row (Customer.id cust) "Investigating" w0)
            = Some cust').
    rewrite (first_match_updated _ _ _ _ _ Hmatch). now rewrite Z.eqb_refl. }
  { exact Rec1. }
  { rewrite J1. apply response_round_trip. }
  { replace (posts n + 5 + 2)%nat with (posts n + 7)%nat by lia.
    rewrite O1; [exact Hf7 | now apply not_eq_sym]. }
  { reflexivity. }
  replace (posts n + 5 + 2)%nat with (posts n + 7)%nat in * by lia.
  assert (Hmain :
    scenarios_main window_passed env supply n
    = match run_simple_ops_flow window_passed env supply client "ACME"
              "demo-acme-ticket-001" true n0 with
      | (Done _, m) =>
          run_simple_ops_flow window_passed env supply client "ACME"
            "demo-acme-ticket-001" true
            (mk_net (server m) (posts m) (stdout m ++ [h2]) (stdin m))
      | (Failed e, m) => (Failed e, m)
      end) by reflexivity.
  exists n2, t. rewrite Hmain, R1. fold n1h. rewrite R2.
  split; [reflexivity|]. split; [lia|]. split; [now rewrite T2|].
  split; [exact Tc|]. split.
  - rewrite C2. unfold update_customer_row at 1.
    cbn [customers set_customers]. rewrite C1.
    apply update_customer_row_twice.
  - intros pid [-> | ->].
    + exists pa1. split; [|exact Hst1]. rewrite O2; [exact Hpa1 | exact Hne].
    + exists pa2. split; [exact Hpa2 | exact Hst2].
Qed.

End Scenarios.

(** ** The further properties at concrete requests *)

Lemma stored_json_round_trip_witness :
  PendingAction.loads
    (PendingAction.dumps (UpdateCustomerStatusIn.model_dump ex_update_padded))
  = Some (UpdateCustomerStatusIn.model_dump ex_update_padded).
Proof.
  apply (stored_json_round_trip
           (UpdateCustomerStatusIn.model_dump ex_update_padded)).
  reflexivity.
Defined.

Lemma create_ticket_twice_under_one_key_witness :
  exists t w1 w2,
    create_ticket ex_amb ex_ticket (Some "k1") ex_world
    = (Return (JObj (ticket_response t ++
                     [("idempotent_replay", JBool false)])), w1)
    /\ create_ticket ex_amb ex_ticket (Some "k1") w1
       = (Return (JObj (ticket_response t ++
                        [("idempotent_replay", JBool true)])), w2)
    /\ tickets w1 = (tickets ex_world ++ [t])%list
    /\ tickets w2 = tickets w1.
Proof.
  apply (create_ticket_twice_under_one_key ex_amb ex_amb ex_ticket ex_ticket
           "k1" ex_acme ex_world).
  - vm_compute. tauto.
  - vm_compute. tauto.
  - discriminate.
  - reflexivity.
  - reflexivity.
Defined.



Lemma update_customer_status_collision_witness :
  exists w',
    update_customer_status ex_amb ex_update ex_world_parked
    = (Raise IntegrityError, w')
    /\ same_db ex_world_parked w'.
Proof.
  apply (update_customer_status_collision ex_amb ex_update ex_acme ex_parked
           ex_world_parked).
  - vm_compute. tauto.
  - vm_compute. reflexivity.
  - reflexivity.
  - vm_compute. reflexivity.
Defined.

Lemma audit_line_per_returned_request_witness :
  (exists record ts,
     audit_log (snd (handle ex_amb (SendMessage ex_message) ex_world))
     = audit_log ex_world ++ Json.dumps (JObj record)
       ++ String (ascii_of_N 10) EmptyString
     /\ dict_get record "ts" = Some (JStr ts)
     /\ dict_get record "tool" = Some (JStr "send_message"))
  /\ audit_log
       (snd (handle ex_amb_search_only (SendMessage ex_message) ex_world))
     = audit_log ex_world.
Proof.
  split.
  - destruct (proj1 (audit_line_per_returned_request ex_amb
                       (SendMessage ex_message) ex_world)
                (JObj [("sent", JBool true); ("channel", JStr "#support")])
                (snd (handle ex_amb (SendMessage ex_message) ex_world)))
      as (record & ts & Ha & _ & Hts & Htool).
    + vm_compute. reflexivity.
    + exists record, ts. repeat split; assumption.
  - apply (proj2 (audit_line_per_returned_request ex_amb_search_only
                    (SendMessage ex_message) ex_world)
             403 "Tool not allowed by policy: send_message").
    vm_compute. reflexivity.
Defined.

Lemma store_response_then_lookup_witness :
  exists w1,
    store_response ex_amb "create_ticket" "k9" (JObj ex_cached) ex_world_ticket
    = (Return tt, w1)
    /\ get_cached_response "create_ticket" "k9" w1 = (Return (JObj ex_cached), w1)
    /\ find_idempotency_record "create_ticket" "k1" w1 = Some ex_record.
Proof.
  destruct (store_response_then_lookup ex_amb "create_ticket" "k9"
              (JObj ex_cached) ex_world_ticket)
    as (w1 & E & L & O & _).
  - vm_compute. reflexivity.
  - reflexivity.
  - exists w1. split; [exact E|]. split; [exact L|].
    rewrite O by discriminate. vm_compute. reflexivity.
Defined.



Lemma confirmed_update_is_idempotent_witness :
  exists r w1 w2,
    update_customer_status ex_amb
      (UpdateCustomerStatusIn.mk 2 " On hold " true) ex_world = (Return r, w1)
    /\ update_customer_status ex_amb
         (UpdateCustomerStatusIn.mk 2 " On hold " true) w1 = (Return r, w2)
    /\ customers w2 = customers w1.
Proof.
  apply (confirmed_update_is_idempotent ex_amb ex_amb
           (UpdateCustomerStatusIn.mk 2 " On hold " true)
           (Customer.mk 2 "Nordic Widgets" "Active") ex_world).
  - vm_compute. tauto.
  - vm_compute. tauto.
  - vm_compute. reflexivity.
  - reflexivity.
Defined.



Lemma seed_if_empty_only_when_empty_witness :
  seed_if_empty ex_world = (Return tt, ex_world)
  /\ map Customer.id (customers (snd (seed_if_empty empty_world))) = [1; 2; 3].
Proof.
  split.
  - apply (proj1 (proj2 (proj2 (seed_if_empty_only_when_empty ex_world)))).
    discriminate.
  - apply (proj2 (proj2 (proj2 (seed_if_empty_only_when_empty empty_world)))).
    reflexivity.
Defined.



Lemma bad_key_touches_nothing_witness :
  endpoint ex_window_passed None ex_amb "wrong-key" 100
    (CreateTicket ex_ticket None) ([], empty_world)
  = (Raise (HTTPException 401 "Invalid or missing X-API-Key"),
     ([], empty_world)).
Proof.
  apply (bad_key_touches_nothing ex_window_passed None ex_amb "wrong-key" 100
           (CreateTicket ex_ticket None) [] empty_world).
  right. discriminate.
Defined.

Lemma rate_limit_decision_witness :
  fst (require_api_key ex_window_passed None "dev-key" 59
         [("dev-key", ex_readings)])
  = Raise (HTTPException 429 "Rate limit exceeded")
  /\ fst (require_api_key ex_window_passed None "dev-key" 61
            [("dev-key", ex_readings)])
     = Return tt.
Proof.
  split.
  - apply (proj1 (rate_limit_decision ex_window_passed None "dev-key" 59
                    [("dev-key", ex_readings)] ltac:(discriminate) eq_refl)).
    apply Nat.leb_le. vm_compute. reflexivity.
  - apply (proj1 (proj2 (rate_limit_decision ex_window_passed None "dev-key" 61
                           [("dev-key", ex_readings)]
                           ltac:(discriminate) eq_refl))).
    apply Nat.ltb_lt. vm_compute. reflexivity.
Defined.

Lemma limiter_never_holds_more_than_sixty_witness :
  times_get
    (run_auth ex_window_passed None [("dev-key", 1); ("guess", 2); ("dev-key", 3)]
       []) "guess" = [].
Proof.
  apply (proj2 (limiter_never_holds_more_than_sixty ex_window_passed None
                  [("dev-key", 1); ("guess", 2); ("dev-key", 3)] "guess")).
  discriminate.
Defined.

Lemma sixty_calls_pass_in_a_window_witness :
  fst (require_api_key ex_window_passed None "dev-key" 60
         (run_auth ex_window_passed None (map (pair "dev-key") ex_readings) []))
  = Raise (HTTPException 429 "Rate limit exceeded").
Proof.
  apply (proj2 (sixty_calls_pass_in_a_window ex_window_passed None "dev-key"
                  ex_readings 60 ltac:(discriminate) eq_refl
                  ltac:(intros a b Ha Hb;
                        assert (A : 0 <= a <= 60)
                          by (apply in_app_or in Ha as [Ha | [<- | []]];
                              [unfold ex_readings in Ha;
                               apply in_map_iff in Ha as (n & <- & Hn);
                               apply in_seq in Hn; lia | lia]);
                        assert (B : 0 <= b <= 60)
                          by (unfold ex_readings in Hb;
                              apply in_map_iff in Hb as (n & <- & Hn);
                              apply in_seq in Hn; lia);
                        unfold ex_window_passed; apply Z.ltb_ge; lia))).
  apply Nat.leb_le. vm_compute. reflexivity.
Defined.

Lemma log_event_writes_one_json_line_witness :
  exists record line w',
    log_event ex_amb [("tool", JStr "confirm"); ("result", JStr "rejected")]
      ex_world = (Return tt, w')
    /\ audit_log w' = audit_log ex_world ++ line ++ String nl EmptyString
    /\ Json.loads line = Some (JObj record)
    /\ dict_get record "ts" = Some (JStr "2024-01-15T09:30:00Z").
Proof.
  destruct (log_event_writes_one_json_line ex_amb
              [("tool", JStr "confirm"); ("result", JStr "rejected")] ex_world
              eq_refl)
    as (record & line & w' & E & A & _ & L & _ & T & _).
  exists record, line, w'. split; [exact E|]. split; [exact A|].
  split; [exact L|]. rewrite T by reflexivity. vm_compute. reflexivity.
Defined.



Lemma flow_with_a_wrong_key_fails_at_once_witness :
  exists n',
    run_simple_ops_flow ex_window_passed None ex_supply
      (ToolClient.init "http://127.0.0.1:8000" "wrong-key") "ACME"
      "demo-acme-ticket-001" true ex_net = (Failed (HTTPError 401), n')
    /\ server n' = ([], empty_world).
Proof.
  destruct (flow_with_a_wrong_key_fails_at_once ex_window_passed None
              ex_supply (ToolClient.init "http://127.0.0.1:8000" "wrong-key")
              "ACME" "demo-acme-ticket-001" true ex_net)
    as (n' & R & S & _).
  - right. discriminate.
  - exists n'. split; [exact R | exact S].
Defined.

Lemma scenarios_open_one_ticket_witness :
  exists n' t,
    scenarios_main ex_window_passed None ex_supply ex_net = (Done tt, n')
    /\ posts n' = 10%nat
    /\ tickets (snd (server n')) = [t]
    /\ Ticket.customer_id t = 1
    /\ customers (snd (server n'))
       = [Customer.mk 1 "ACME AB" "Investigating";
          Customer.mk 2 "Nordic Widgets" "Active";
          Customer.mk 3 "Beta Logistics" "Active"].
Proof.
  assert (Hnd : NoDup [1; 2; 3])
    by (repeat constructor; simpl; intuition discriminate).
  destruct (scenarios_open_one_ticket ex_window_passed None ex_supply eq_refl
              ex_net ex_acme)
    as (n' & t & R & P & T & Tc & C & _).
  - apply Nat.leb_le. vm_compute. reflexivity.
  - intros i _ tool H. exact H.
  - exact Hnd.
  - vm_compute. reflexivity.
  - vm_compute. reflexivity.
  - vm_compute. reflexivity.
  - vm_compute. reflexivity.
  - vm_compute. discriminate.
  - exists n', t. split; [exact R|]. split; [exact P|]. split; [exact T|].
    split; [exact Tc | exact C].
Defined.

Lemma registry_agrees_with_the_handlers_witness :
  same_db ex_world (snd (handle ex_amb (SendMessage ex_message) ex_world)).
Proof.
  apply (proj1 (registry_agrees_with_the_handlers ex_amb
                  (SendMessage ex_message) "send_message"
                  (mk_tool_meta "/tools/send_message" false "low") ex_world
                  eq_refl ltac:(simpl; tauto))).
  reflexivity.
Defined.

Lemma replay_in_every_reachable_world_witness :
  exists cached w',
    create_ticket ex_amb ex_ticket (Some "demo-acme-ticket-001")
      (run [(ex_amb, CreateTicket ex_ticket (Some "demo-acme-ticket-001"))]
         empty_world)
    = (Return (JObj (dict_set cached "idempotent_replay" (JBool true))), w').
Proof.
  assert (Hallow : In "create_ticket" (allowed_tools ex_amb))
    by (simpl; tauto).
  destruct (find_idempotency_record "create_ticket" "demo-acme-ticket-001"
              (run [(ex_amb,
                     CreateTicket ex_ticket (Some "demo-acme-ticket-001"))]
                 empty_world)) as [rec|] eqn:E.
  - destruct (replay_in_every_reachable_world
                [(ex_amb, CreateTicket ex_ticket (Some "demo-acme-ticket-001"))]
                ex_amb ex_ticket "demo-acme-ticket-001" rec Hallow
                ltac:(discriminate) E)
      as (cached & w' & _ & R & _).
    exists cached, w'. exact R.
  - vm_compute in E. discriminate.
Defined.
